(** * Serialized DAG and BaseOperator: a shallow embedding of
    [airflow/serialization/serialized_objects.py] and the properties of its
    value codec, node codec and graph codec. *)

From Stdlib Require Import ZArith QArith Qround String Ascii List Bool Lia.
From Stdlib Require DecimalString.
Import ListNotations.

Local Open Scope string_scope.
Local Open Scope list_scope.
Local Open Scope Z_scope.

(** ** Exceptions and outcomes

    Every exception the embedded code can meet is an instance of Python's
    [Exception]; [outcome] is the result of running a piece of code that either
    returns or raises. *)

Inductive exn : Type :=
| TypeError
| ValueError
| KeyError (key : string)
| AttributeError (name : string)
| AssertionError
| IndexError
| OverflowError
| AirflowException
| InvalidTimezone
| UserError (message : string).

Inductive outcome (A : Type) : Type :=
| Return (a : A)
| Raise (e : exn).

Arguments Return {A} a.
Arguments Raise {A} e.

Definition bind {A B : Type} (m : outcome A) (f : A -> outcome B) : outcome B :=
  match m with
  | Return a => f a
  | Raise e => Raise e
  end.

Notation "x <- m ;; k" := (bind m (fun x => k))
  (at level 61, m at next level, right associativity).

(** [try: body except Exception: return handler] *)
Definition try_except {A : Type} (body : outcome A) (handler : A) : outcome A :=
  match body with
  | Return a => Return a
  | Raise _ => Return handler
  end.

(** List comprehension [[f(v) for v in l]]: elements are evaluated from left
    to right and the first exception stops the evaluation. *)
Definition comprehension {A B : Type} (f : A -> outcome B) : list A -> outcome (list B) :=
  fix go (l : list A) : outcome (list B) :=
    match l with
    | [] => Return []
    | x :: tl => y <- f x ;; ys <- go tl ;; Return (y :: ys)
    end.

(** ** Python values *)

(** Dictionary keys: text, or an integer that [str] turns into text. *)
Inductive dict_key : Type :=
| KStr (s : string)
| KInt (n : Z).

Definition dict_key_eqb (a b : dict_key) : bool :=
  match a, b with
  | KStr s, KStr t => String.eqb s t
  | KInt n, KInt m => Z.eqb n m
  | _, _ => false
  end.

(** [str(k)] on a dictionary key. *)
Definition str_key (k : dict_key) : string :=
  match k with
  | KStr s => s
  | KInt n => DecimalString.NilZero.string_of_int (Z.to_int n)
  end.

(** [dateutil.relativedelta.relativedelta]: the public entries of its
    [__dict__], in the order [__init__] assigns them.  The relative components
    default to 0, the absolute ones and [weekday] to [None]; a weekday is
    [(weekday, n)].  The private entry [_has_time] is recomputed by the
    constructor and is not stored. *)
Record relativedelta : Type := mk_relativedelta {
  rd_years : Z; rd_months : Z; rd_days : Z; rd_leapdays : Z;
  rd_hours : Z; rd_minutes : Z; rd_seconds : Z; rd_microseconds : Z;
  rd_year : option Z; rd_month : option Z; rd_day : option Z;
  rd_hour : option Z; rd_minute : option Z; rd_second : option Z;
  rd_microsecond : option Z;
  rd_weekday : option (Z * option Z)
}.

(** The primitive value an enumeration member mixes in. *)
Inductive scalar : Type :=
| SInt (n : Z)
| SFloat (q : Q)
| SStr (s : string).

(** Any other Python object, described by what the codec observes of it:
    whether it is an instance of [_excluded_types] (a logger, a connection, a
    class), whether [callable] holds, what [get_python_source] answers on it
    and what [str] answers on it. *)
Record pyobject : Type := mk_pyobject {
  obj_excluded : bool;
  obj_callable : bool;
  obj_source : outcome string;
  obj_str : outcome string
}.

Inductive pyclass : Type :=
| CDag
| COp (name module : string).

(** An address, for the objects whose identity the model tracks. [None] is an
    object built during the run, distinct from every addressed object. *)
Definition addr : Type := option nat.

(** Floats are exact rationals: binary64 rounding is outside the embedding.
    [VEnum p] is a member of an enumeration that mixes in a primitive type
    ([IntEnum], or a [str] enumeration), with [p] its [value]; a member of a
    plain enumeration is an object like any other ([VObj]).  [VDatetime us tz] is an aware datetime, [us]
    microseconds after the epoch, in the zone called [tz].  [VTimedelta us]
    is a duration in microseconds.  [VInst c attrs] is a DAG or an operator
    with its attribute table; every attribute is kept with the address of the
    object it refers to. *)
Unset Elimination Schemes.
Inductive value : Type :=
| VNone
| VBool (b : bool)
| VInt (n : Z)
| VFloat (q : Q)
| VStr (s : string)
| VEnum (payload : scalar)
| VDict (items : list (dict_key * value))
| VList (elems : list value)
| VSet (elems : list value)
| VTuple (elems : list value)
| VDatetime (us : Z) (tz : string)
| VTimedelta (us : Z)
| VTimezone (name : string)
| VRelativedelta (rd : relativedelta)
| VWeekday (wd : Z) (n : option Z)
| VObj (o : pyobject)
| VInst (c : pyclass) (attrs : list (string * (addr * value))).
Set Elimination Schemes.

Definition slot : Type := (addr * value)%type.
Definition attributes : Type := list (string * slot).
Definition dict_items : Type := list (dict_key * value).

(** Induction over values, with the containers' members covered. *)
Fixpoint value_ind (P : value -> Prop)
  (HNone : P VNone) (HBool : forall b, P (VBool b)) (HInt : forall n, P (VInt n))
  (HFloat : forall q, P (VFloat q)) (HStr : forall s, P (VStr s))
  (HEnum : forall p, P (VEnum p))
  (HDict : forall items, Forall (fun kv => P (snd kv)) items -> P (VDict items))
  (HList : forall l, Forall P l -> P (VList l))
  (HSet : forall l, Forall P l -> P (VSet l))
  (HTuple : forall l, Forall P l -> P (VTuple l))
  (HDatetime : forall us tz, P (VDatetime us tz))
  (HTimedelta : forall us, P (VTimedelta us))
  (HTimezone : forall name, P (VTimezone name))
  (HRelativedelta : forall rd, P (VRelativedelta rd))
  (HWeekday : forall wd n, P (VWeekday wd n))
  (HObj : forall o, P (VObj o))
  (HInst : forall c attrs, Forall (fun kv => P (snd (snd kv))) attrs -> P (VInst c attrs))
  (v : value) {struct v} : P v :=
  let rec := value_ind P HNone HBool HInt HFloat HStr HEnum HDict HList HSet HTuple
               HDatetime HTimedelta HTimezone HRelativedelta HWeekday HObj HInst in
  let members := fix members (l : list value) : Forall P l :=
    match l with
    | [] => Forall_nil _
    | x :: tl => Forall_cons _ (rec x) (members tl)
    end in
  match v with
  | VNone => HNone
  | VBool b => HBool b
  | VInt n => HInt n
  | VFloat q => HFloat q
  | VStr s => HStr s
  | VEnum p => HEnum p
  | VDict items =>
      HDict items ((fix entries (l : dict_items) : Forall (fun kv => P (snd kv)) l :=
        match l with
        | [] => Forall_nil _
        | kv :: tl => Forall_cons _ (rec (snd kv)) (entries tl)
        end) items)
  | VList l => HList l (members l)
  | VSet l => HSet l (members l)
  | VTuple l => HTuple l (members l)
  | VDatetime us tz => HDatetime us tz
  | VTimedelta us => HTimedelta us
  | VTimezone name => HTimezone name
  | VRelativedelta rd => HRelativedelta rd
  | VWeekday wd n => HWeekday wd n
  | VObj o => HObj o
  | VInst c attrs =>
      HInst c attrs ((fix entries (l : attributes) : Forall (fun kv => P (snd (snd kv))) l :=
        match l with
        | [] => Forall_nil _
        | kv :: tl => Forall_cons _ (rec (snd (snd kv))) (entries tl)
        end) attrs)
  end.

(** ** Python's built-in operations on values *)

(** [d[k]], [k in d] and [d[k] = v] on the entries of a dictionary, which
    keeps its keys in insertion order: assigning to a key already present
    replaces its value in place. *)
Fixpoint dict_get (k : dict_key) (items : dict_items) : option value :=
  match items with
  | [] => None
  | (k', v) :: tl => if dict_key_eqb k k' then Some v else dict_get k tl
  end.

Definition dict_contains (k : dict_key) (items : dict_items) : bool :=
  match dict_get k items with Some _ => true | None => false end.

Fixpoint dict_set (k : dict_key) (v : value) (items : dict_items) : dict_items :=
  match items with
  | [] => [(k, v)]
  | (k', v') :: tl =>
      if dict_key_eqb k k' then (k', v) :: tl else (k', v') :: dict_set k v tl
  end.

Definition dict_keys (items : dict_items) : list dict_key := map fst items.

Definition key_value (k : dict_key) : value :=
  match k with
  | KStr s => VStr s
  | KInt n => VInt n
  end.

(** The attribute table of an instance. *)
Fixpoint attr_get (name : string) (attrs : attributes) : option slot :=
  match attrs with
  | [] => None
  | (name', s) :: tl => if String.eqb name name' then Some s else attr_get name tl
  end.

Fixpoint attr_set (name : string) (s : slot) (attrs : attributes) : attributes :=
  match attrs with
  | [] => [(name, s)]
  | (name', s') :: tl =>
      if String.eqb name name' then (name', s) :: tl else (name', s') :: attr_set name s tl
  end.

(** [var.value] of an enumeration member. *)
Definition scalar_value (p : scalar) : value :=
  match p with
  | SInt n => VInt n
  | SFloat q => VFloat q
  | SStr s => VStr s
  end.

(** The value of an enumeration member stands for the member in comparisons
    and in arithmetic. *)
Definition unenum (v : value) : value :=
  match v with
  | VEnum p => scalar_value p
  | _ => v
  end.

(** The numeric tower: [bool], [int] and [float] compare by their number. *)
Definition number (v : value) : option Q :=
  match v with
  | VBool b => Some (if b then 1%Q else 0%Q)
  | VInt n => Some (inject_Z n)
  | VFloat q => Some q
  | _ => None
  end.

Definition option_Z_eqb (a b : option Z) : bool :=
  match a, b with
  | None, None => true
  | Some x, Some y => Z.eqb x y
  | _, _ => false
  end.

(** [not n or n == 1] on the occurrence count of a weekday. *)
Definition trivial_occurrence (n : option Z) : bool :=
  match n with
  | None => true
  | Some k => (k =? 0) || (k =? 1)
  end.

(** [weekday.__eq__] of dateutil. *)
Definition weekday_eqb (wd1 : Z) (n1 : option Z) (wd2 : Z) (n2 : option Z) : bool :=
  (wd1 =? wd2) && option_Z_eqb n1 n2.

(** [relativedelta.__eq__] of dateutil: weekdays agree when their occurrence
    counts are equal or both trivial, all the other components are compared. *)
Definition relativedelta_eqb (a b : relativedelta) : bool :=
  match rd_weekday a, rd_weekday b with
  | None, None => true
  | Some (wd1, n1), Some (wd2, n2) =>
      (wd1 =? wd2) &&
      (option_Z_eqb n1 n2 || (trivial_occurrence n1 && trivial_occurrence n2))
  | _, _ => false
  end
  && (rd_years a =? rd_years b) && (rd_months a =? rd_months b)
  && (rd_days a =? rd_days b) && (rd_leapdays a =? rd_leapdays b)
  && (rd_hours a =? rd_hours b) && (rd_minutes a =? rd_minutes b)
  && (rd_seconds a =? rd_seconds b) && (rd_microseconds a =? rd_microseconds b)
  && option_Z_eqb (rd_year a) (rd_year b) && option_Z_eqb (rd_month a) (rd_month b)
  && option_Z_eqb (rd_day a) (rd_day b) && option_Z_eqb (rd_hour a) (rd_hour b)
  && option_Z_eqb (rd_minute a) (rd_minute b) && option_Z_eqb (rd_second a) (rd_second b)
  && option_Z_eqb (rd_microsecond a) (rd_microsecond b).

(** [a == b] on numbers and text. *)
Definition scalar_eq (a b : value) : bool :=
  match a, b with
  | VStr s, VStr t => String.eqb s t
  | _, _ =>
      match number a, number b with
      | Some x, Some y => Qeq_bool x y
      | _, _ => false
      end
  end.

(** Two sequences are equal when they have the same length and equal
    members, place by place. *)
Definition sequence_eq (eq : value -> value -> bool) : list value -> list value -> bool :=
  fix sequence_eq (l m : list value) {struct l} : bool :=
    match l, m with
    | [], [] => true
    | x :: l', y :: m' => eq x y && sequence_eq l' m'
    | _, _ => false
    end.

(** The entry [k: v] has an equal entry in the dictionary [m]. *)
Definition entry_in (eq : value -> value -> bool) (k : dict_key) (v : value)
    (m : dict_items) : bool :=
  match dict_get k m with
  | Some v' => eq v v'
  | None => false
  end.

(** Python's [a == b].  Sequences compare member by member, dictionaries by
    their entries whatever the order, sets by mutual inclusion, aware
    datetimes by their instant.  Objects without an [__eq__] of their own
    compare by identity, which is tested on attribute slots ([is_] below). *)
Fixpoint py_eq (a b : value) {struct a} : bool :=
  match a with
  | VNone => match b with VNone => true | _ => false end
  | VBool _ | VInt _ | VFloat _ | VStr _ | VEnum _ => scalar_eq (unenum a) (unenum b)
  | VDict items =>
      match b with
      | VDict items' =>
          Nat.eqb (length items) (length items') &&
          forallb (fun kv => entry_in py_eq (fst kv) (snd kv) items') items
      | _ => false
      end
  | VList l => match b with VList m => sequence_eq py_eq l m | _ => false end
  | VTuple l => match b with VTuple m => sequence_eq py_eq l m | _ => false end
  | VSet l =>
      match b with
      | VSet m =>
          forallb (fun x => existsb (fun y => py_eq x y) m) l &&
          forallb (fun y => existsb (fun x => py_eq x y) l) m
      | _ => false
      end
  | VDatetime us _ => match b with VDatetime us' _ => us =? us' | _ => false end
  | VTimedelta us => match b with VTimedelta us' => us =? us' | _ => false end
  | VTimezone name => match b with VTimezone name' => String.eqb name name' | _ => false end
  | VRelativedelta rd =>
      match b with VRelativedelta rd' => relativedelta_eqb rd rd' | _ => false end
  | VWeekday wd n =>
      match b with VWeekday wd' n' => weekday_eqb wd n wd' n' | _ => false end
  | VObj _ => false
  | VInst _ _ => false
  end.

(** [a is b] on attribute slots: the same addressed object, or [None] twice. *)
Definition is_ (a b : slot) : bool :=
  match snd a, snd b with
  | VNone, VNone => true
  | VNone, _ | _, VNone => false
  | _, _ =>
      match fst a, fst b with
      | Some i, Some j => Nat.eqb i j
      | _, _ => false
      end
  end.

Definition is_None (v : value) : bool :=
  match v with VNone => true | _ => false end.

(** Truth value testing, [bool(v)]. *)
Definition py_truthy (v : value) : bool :=
  match v with
  | VNone => false
  | VBool b => b
  | VInt n => negb (n =? 0)
  | VFloat q => negb (Qeq_bool q 0)
  | VStr s => negb (String.eqb s "")
  | VEnum (SInt n) => negb (n =? 0)
  | VEnum (SFloat q) => negb (Qeq_bool q 0)
  | VEnum (SStr s) => negb (String.eqb s "")
  | VDict items => match items with [] => false | _ => true end
  | VList l | VSet l | VTuple l => match l with [] => false | _ => true end
  | VDatetime _ _ => true
  | VTimedelta us => negb (us =? 0)
  | VTimezone _ => true
  | VRelativedelta rd =>
      negb (relativedelta_eqb rd
              (mk_relativedelta 0 0 0 0 0 0 0 0 None None None None None None None None))
  | VWeekday _ _ => true
  | VObj _ => true
  | VInst _ _ => true
  end.

(** Whether [hash(v)] is defined. *)
Fixpoint hashable (v : value) : bool :=
  match v with
  | VDict _ | VList _ | VSet _ => false
  | VTuple l => forallb hashable l
  | _ => true
  end.

(** [s.add(x)] on the members of a set. *)
Definition set_add (x : value) (s : list value) : list value :=
  if existsb (fun y => py_eq y x) s then s else s ++ [x].

(** The set built from the members of a sequence, in order; an unhashable
    member is a [TypeError]. *)
Fixpoint set_add_all (l : list value) (acc : list value) : outcome value :=
  match l with
  | [] => Return (VSet acc)
  | x :: tl => if hashable x then set_add_all tl (set_add x acc) else Raise TypeError
  end.

Definition set_of_list (l : list value) : outcome value := set_add_all l [].

(** The characters of a string, as iterating over it yields them. *)
Fixpoint characters (s : string) : list value :=
  match s with
  | EmptyString => []
  | String c tl => VStr (String c EmptyString) :: characters tl
  end.

(** [iter(v)]: the members a [for] loop visits. *)
Definition py_iter (v : value) : outcome (list value) :=
  match v with
  | VList l | VTuple l | VSet l => Return l
  | VStr s => Return (characters s)
  | VDict items => Return (map key_value (dict_keys items))
  | _ => Raise TypeError
  end.

(** [set(v)] *)
Definition py_set (v : value) : outcome value :=
  l <- py_iter v ;; set_of_list l.

(** ** The libraries the codec calls: [datetime], [pendulum], [dateutil] *)

Definition round_half_even (q : Q) : Z :=
  let f := Qfloor q in
  match Qcompare (q - inject_Z f) (1 # 2) with
  | Lt => f
  | Gt => f + 1
  | Eq => if Z.even f then f else f + 1
  end.

Definition MICRO : Z := 1000000.

(** Seconds, as a float, for a count of microseconds. *)
Definition seconds_of_micro (us : Z) : Q := (inject_Z us / inject_Z MICRO)%Q.

(** The microseconds nearest to a number of seconds. *)
Definition micro_of_seconds (q : Q) : Z := round_half_even (q * inject_Z MICRO)%Q.

(** [timedelta.min] and [timedelta.max], in microseconds. *)
Definition timedelta_min : Z := -999999999 * 86400 * MICRO.
Definition timedelta_max : Z := 1000000000 * 86400 * MICRO - 1.

(** [datetime.min] and [datetime.max] in UTC, in microseconds after the epoch. *)
Definition datetime_min : Z := -62135596800 * MICRO.
Definition datetime_max : Z := 253402300800 * MICRO - 1.

(** [var.total_seconds()] *)
Definition total_seconds (us : Z) : value := VFloat (seconds_of_micro us).

(** [var.timestamp()] of an aware datetime. *)
Definition timestamp (us : Z) : value := VFloat (seconds_of_micro us).

(** [datetime.timedelta(seconds=seconds)] *)
Definition timedelta_of_seconds (seconds : value) : outcome value :=
  match number (unenum seconds) with
  | Some q =>
      let us := micro_of_seconds q in
      if (timedelta_min <=? us) && (us <=? timedelta_max)
      then Return (VTimedelta us) else Raise OverflowError
  | None => Raise TypeError
  end.

(** [pendulum.from_timestamp(var)]: the instant, in UTC. *)
Definition from_timestamp (var : value) : outcome value :=
  match number (unenum var) with
  | Some q =>
      let us := micro_of_seconds q in
      if (datetime_min <=? us) && (us <=? datetime_max)
      then Return (VDatetime us "UTC") else Raise ValueError
  | None => Raise TypeError
  end.

(** [relativedelta.weekday] on unpacked arguments: one or two of them, the
    second being the occurrence count, which may not be 0.  The model takes
    integer arguments. *)
Definition weekday_new (args : list value) : outcome value :=
  match args with
  | [VInt wd] => Return (VWeekday wd None)
  | [VInt wd; VNone] => Return (VWeekday wd None)
  | [VInt wd; VInt n] => if n =? 0 then Raise ValueError else Return (VWeekday wd (Some n))
  | _ => Raise TypeError
  end.

Definition _sign (x : Z) : Z := if x <? 0 then -1 else 1.

(** One carry step of [relativedelta._fix]: when [abs(low) > limit - 1] the
    excess of [low] is moved to [high]. *)
Definition carry (limit low high : Z) : Z * Z :=
  if Z.abs low >? limit - 1 then
    let s := _sign low in
    (((low * s) mod limit) * s, high + ((low * s) / limit) * s)
  else (low, high).

(** [relativedelta._fix] *)
Definition _fix (rd : relativedelta) : relativedelta :=
  let '(microseconds, seconds) := carry 1000000 (rd_microseconds rd) (rd_seconds rd) in
  let '(seconds, minutes) := carry 60 seconds (rd_minutes rd) in
  let '(minutes, hours) := carry 60 minutes (rd_hours rd) in
  let '(hours, days) := carry 24 hours (rd_days rd) in
  let '(months, years) := carry 12 (rd_months rd) (rd_years rd) in
  mk_relativedelta years months days (rd_leapdays rd) hours minutes seconds microseconds
    (rd_year rd) (rd_month rd) (rd_day rd) (rd_hour rd) (rd_minute rd) (rd_second rd)
    (rd_microsecond rd) (rd_weekday rd).

(** Conversions the constructor applies to its arguments. *)
Definition as_int (v : value) : outcome Z :=
  match unenum v with
  | VInt n => Return n
  | VBool b => Return (if b then 1 else 0)
  | _ => Raise TypeError
  end.

Definition as_optional_int (v : value) : outcome (option Z) :=
  match v with
  | VNone => Return None
  | _ => n <- as_int v ;; Return (Some n)
  end.

(** The [weekday] argument: a weekday object, [None], or an index into the
    seven constants [MO .. SU]. *)
Definition as_weekday (v : value) : outcome (option (Z * option Z)) :=
  match v with
  | VNone => Return None
  | VWeekday wd n => Return (Some (wd, n))
  | VInt i => if (-7 <=? i) && (i <? 7) then Return (Some (i mod 7, None)) else Raise IndexError
  | _ => Raise TypeError
  end.

(** The parameters of the [relativedelta] constructor the model takes.  The
    two-date and year-day forms ([dt1], [dt2], [yearday], [nlyearday]) are
    not modelled and are refused like an unknown keyword. *)
Definition rd_parameters : list string :=
  ["years"; "months"; "days"; "leapdays"; "weeks"; "hours"; "minutes"; "seconds";
   "microseconds"; "year"; "month"; "day"; "weekday"; "hour"; "minute"; "second";
   "microsecond"].

(** The argument bound to the parameter [name]: the keyword of that name,
    or the default of the signature. *)
Definition keyword (items : dict_items) (name : string) (default : value) : value :=
  match dict_get (KStr name) items with
  | Some v => v
  | None => default
  end.

(** [relativedelta.relativedelta] called with the mapping [var] as its
    keyword arguments: every key must be text and name a parameter; the
    relative components default to 0, the absolute ones and the weekday to
    [None], [weeks] is added to [days], and the components are normalised. *)
Definition relativedelta_new (var : value) : outcome value :=
  match var with
  | VDict items =>
      if forallb (fun kv => match fst kv with
                            | KStr name => existsb (String.eqb name) rd_parameters
                            | KInt _ => false
                            end) items
      then
        years <- as_int (keyword items "years" (VInt 0)) ;;
        months <- as_int (keyword items "months" (VInt 0)) ;;
        days <- as_int (keyword items "days" (VInt 0)) ;;
        weeks <- as_int (keyword items "weeks" (VInt 0)) ;;
        leapdays <- as_int (keyword items "leapdays" (VInt 0)) ;;
        hours <- as_int (keyword items "hours" (VInt 0)) ;;
        minutes <- as_int (keyword items "minutes" (VInt 0)) ;;
        seconds <- as_int (keyword items "seconds" (VInt 0)) ;;
        microseconds <- as_int (keyword items "microseconds" (VInt 0)) ;;
        year <- as_optional_int (keyword items "year" VNone) ;;
        month <- as_optional_int (keyword items "month" VNone) ;;
        day <- as_optional_int (keyword items "day" VNone) ;;
        hour <- as_optional_int (keyword items "hour" VNone) ;;
        minute <- as_optional_int (keyword items "minute" VNone) ;;
        second <- as_optional_int (keyword items "second" VNone) ;;
        microsecond <- as_optional_int (keyword items "microsecond" VNone) ;;
        weekday <- as_weekday (keyword items "weekday" VNone) ;;
        Return (VRelativedelta (_fix (mk_relativedelta
          years months (days + weeks * 7) leapdays hours minutes seconds microseconds
          year month day hour minute second microsecond weekday)))
      else Raise TypeError
  | _ => Raise TypeError
  end.

(** [var.__dict__.items()] of a relativedelta, without the private entry. *)
Definition option_value (o : option Z) : value :=
  match o with
  | Some n => VInt n
  | None => VNone
  end.

Definition relativedelta_dict (rd : relativedelta) : dict_items :=
  [ (KStr "years", VInt (rd_years rd)); (KStr "months", VInt (rd_months rd));
    (KStr "days", VInt (rd_days rd)); (KStr "leapdays", VInt (rd_leapdays rd));
    (KStr "hours", VInt (rd_hours rd)); (KStr "minutes", VInt (rd_minutes rd));
    (KStr "seconds", VInt (rd_seconds rd)); (KStr "microseconds", VInt (rd_microseconds rd));
    (KStr "year", option_value (rd_year rd)); (KStr "month", option_value (rd_month rd));
    (KStr "day", option_value (rd_day rd)); (KStr "hour", option_value (rd_hour rd));
    (KStr "minute", option_value (rd_minute rd)); (KStr "second", option_value (rd_second rd));
    (KStr "microsecond", option_value (rd_microsecond rd));
    (KStr "weekday", match rd_weekday rd with
                     | Some (wd, n) => VWeekday wd n
                     | None => VNone
                     end) ].

(** [str(weekday)] of dateutil: the name of the day, with the occurrence
    count when there is one. *)
Definition weekday_names : list string := ["MO"; "TU"; "WE"; "TH"; "FR"; "SA"; "SU"].

Definition signed_decimal (n : Z) : string :=
  String.append (if n <? 0 then "-" else "+") (DecimalString.NilZero.string_of_uint (N.to_uint (Z.to_N (Z.abs n)))).

Definition weekday_str (wd : Z) (n : option Z) : outcome string :=
  if (-7 <=? wd) && (wd <? 7) then
    let s := nth (Z.to_nat (wd mod 7)) weekday_names "" in
    match n with
    | None => Return s
    | Some k => if k =? 0 then Return s else Return (String.append s (String.append "(" (String.append (signed_decimal k) ")")))
    end
  else Raise IndexError.

(** [s.endswith(suffix)] *)
Definition endswith (s suffix : string) : bool :=
  let n := String.length s in
  let m := String.length suffix in
  Nat.leb m n && String.eqb (substring (n - m) m s) suffix.

(** ** The enumerations of [airflow.serialization.enums] *)

(** Modelled from the spec: [airflow.serialization.enums] is not under src/.
    [DagAttributeTypes] is the closed set of type tags; its members are
    text-valued enumeration members, each standing for its lower-case name. *)
Inductive DagAttributeTypes : Type :=
| DICT | DAG | OP | DATETIME | TIMEDELTA | TIMEZONE | RELATIVEDELTA | SET | TUPLE.

Definition tag_text (t : DagAttributeTypes) : string :=
  match t with
  | DICT => "dict"
  | DAG => "dag"
  | OP => "op"
  | DATETIME => "datetime"
  | TIMEDELTA => "timedelta"
  | TIMEZONE => "timezone"
  | RELATIVEDELTA => "relativedelta"
  | SET => "set"
  | TUPLE => "tuple"
  end.

(** The member [DAT.t] as a value. *)
Definition DAT (t : DagAttributeTypes) : value := VEnum (SStr (tag_text t)).

(** Modelled from the spec: the two short keys of an envelope,
    [Encoding.VAR] and [Encoding.TYPE], which the source also spells out as
    ["__var"] and ["__type"]. *)
Definition VAR : dict_key := KStr "__var".
Definition TYPE : dict_key := KStr "__type".

(** ** What the codec takes from the rest of the code base

    The operator and DAG classes, the plugin registry and the time-zone
    database are not part of this module: the codec is parameterised by them. *)

(** A plugin's extra link: its [name], the [(__name__, __module__)] of the
    operator classes it applies to, and the link object itself. *)
Record extra_link : Type := mk_extra_link {
  link_name : string;
  link_operators : list (string * string);
  link_object : pyobject
}.

Record environment : Type := mk_environment {
  (** [BaseOperator.get_serialized_fields()] and [DAG.get_serialized_fields()] *)
  operator_serialized_fields : list string;
  dag_serialized_fields : list string;
  (** for each class, the parameters of [_CONSTRUCTOR_PARAMS] with their
      [default] object *)
  operator_constructor_params : attributes;
  dag_constructor_params : attributes;
  (** the attributes of [SerializedBaseOperator(task_id=...)] and of
      [SerializedDAG(dag_id=...)] *)
  new_operator : value -> outcome attributes;
  new_dag : value -> outcome attributes;
  (** [airflow.plugins_manager.operator_extra_links] *)
  operator_extra_links : list extra_link;
  (** the names [pendulum.timezone] knows *)
  timezone_known : string -> bool
}.

(** [pendulum.timezone(var)] *)
Definition timezone (E : environment) (var : value) : outcome value :=
  match unenum var with
  | VStr name => if timezone_known E name then Return (VTimezone name) else Raise InvalidTimezone
  | _ => Raise TypeError
  end.

(** The three classes of the module, as the [cls] of a class method. *)
Inductive codec : Type :=
| BaseSerialization
| SerializedBaseOperator
| SerializedDAG.

Definition SERIALIZER_VERSION : value := VInt 1.

Definition FAILED : value := VStr "serialization_failed".

Definition _CONSTRUCTOR_PARAMS (E : environment) (cls : codec) : attributes :=
  match cls with
  | BaseSerialization => []
  | SerializedBaseOperator => operator_constructor_params E
  | SerializedDAG => dag_constructor_params E
  end.

Definition _decorated_fields (cls : codec) : list string :=
  match cls with
  | BaseSerialization => []
  | SerializedBaseOperator => ["executor_config"]
  | SerializedDAG => ["schedule_interval"; "default_args"]
  end.

Definition get_serialized_fields (E : environment) (c : pyclass) : list string :=
  match c with
  | CDag => dag_serialized_fields E
  | COp _ _ => operator_serialized_fields E
  end.

Definition mem (key : string) (keys : list string) : bool :=
  existsb (String.eqb key) keys.

(** ** BaseSerialization *)

Definition _encode (x : value) (type_ : DagAttributeTypes) : value :=
  VDict [(VAR, x); (TYPE, DAT type_)].

(** [var is None or isinstance(var, (int, bool, float, str))] *)
Definition _is_primitive (var : value) : bool :=
  match var with
  | VNone | VBool _ | VInt _ | VFloat _ | VStr _ | VEnum _ => true
  | _ => false
  end.

(** [isinstance(var, cls._excluded_types)] *)
Definition is_excluded_type (var : value) : bool :=
  match var with
  | VObj o => obj_excluded o
  | _ => false
  end.

Definition _value_is_hardcoded_default (E : environment) (cls : codec)
    (attrname : string) (value : slot) : bool :=
  match attr_get attrname (_CONSTRUCTOR_PARAMS E cls) with
  | Some default => is_ default value
  | None => false
  end.

(** [getattr(obj, name, None)] *)
Definition getattr_or_None (obj : value) (name : string) : slot :=
  match obj with
  | VInst _ attrs =>
      match attr_get name attrs with
      | Some s => s
      | None => (None, VNone)
      end
  | _ => (None, VNone)
  end.

(** [op.has_dag()]: the [_dag] attribute is set. *)
Definition has_dag (attrs : attributes) : bool :=
  negb (is_None (snd (getattr_or_None (VInst CDag attrs) "_dag"))).

(** [BaseSerialization._is_excluded] *)
Definition base_is_excluded (E : environment) (cls : codec)
    (var : slot) (attrname : string) : bool :=
  is_None (snd var) || is_excluded_type (snd var) ||
  _value_is_hardcoded_default E cls attrname var.

(** The two exclusions of [SerializedBaseOperator._is_excluded]: a date that
    is the one of the DAG the operator belongs to,
    [var is dag_date or var == dag_date], and an empty [executor_config] or
    [params]. *)
Definition matches_dag_date (var : slot) (attrname : string) (attrs : attributes) : bool :=
  negb (is_None (snd var)) && has_dag attrs && endswith attrname "_date" &&
  (let dag_date := getattr_or_None (snd (getattr_or_None (VInst CDag attrs) "_dag")) attrname in
   is_ var dag_date || py_eq (snd var) (snd dag_date)).

Definition empty_config (var : slot) (attrname : string) : bool :=
  mem attrname ["executor_config"; "params"] && negb (py_truthy (snd var)).

(** [cls._is_excluded(var, attrname, instance)], with the override of
    [SerializedBaseOperator]; [attrs] is the attribute table of the instance. *)
Definition _is_excluded (E : environment) (cls : codec)
    (var : slot) (attrname : string) (attrs : attributes) : bool :=
  match cls with
  | SerializedBaseOperator =>
      if matches_dag_date var attrname attrs then true
      else if empty_config var attrname then true
      else base_is_excluded E cls var attrname
  | _ => base_is_excluded E cls var attrname
  end.

(** [getattr(obj, key, None)] handing the attribute to what follows:
    [present] when the object has it, [absent] when the default [None] is
    taken. *)
Definition with_attr {R : Type} (key : string) (present : slot -> R) (absent : R)
    : attributes -> R :=
  fix find (attrs : attributes) : R :=
    match attrs with
    | [] => absent
    | (name, s) :: tl => if String.eqb key name then present s else find tl
    end.

(** The shortcut of [serialize_to_json]:
    [if isinstance(value, dict) and "__type" in value: value = value["__var"]] *)
Definition unwrap (v : value) : outcome value :=
  match v with
  | VDict d =>
      if dict_contains TYPE d then
        match dict_get VAR d with
        | Some x => Return x
        | None => Raise (KeyError "__var")
        end
      else Return v
  | _ => Return v
  end.

(** [cls.serialize_to_json(object_to_serialize, decorated_fields)], where
    [_serialize] stands for [cls._serialize] and [c], [attrs] are the class and
    the attribute table of [object_to_serialize].  For an attribute the
    object does not have, [value] is [None], which [_serialize] returns
    unchanged. *)
Definition serialize_to_json_loop (_serialize : value -> outcome value)
    (E : environment) (cls : codec) (attrs : attributes) (decorated_fields : list string)
    : list string -> dict_items -> outcome dict_items :=
  fix loop (keys_to_serialize : list string) (serialized_object : dict_items)
    : outcome dict_items :=
    match keys_to_serialize with
    | [] => Return serialized_object
    | key :: rest =>
        with_attr key (fun value =>
          if _is_excluded E cls value key attrs then loop rest serialized_object
          else if mem key decorated_fields then
            v <- _serialize (snd value) ;;
            loop rest (dict_set (KStr key) v serialized_object)
          else
            v <- _serialize (snd value) ;;
            v <- unwrap v ;;
            loop rest (dict_set (KStr key) v serialized_object))
          (if _is_excluded E cls (None, VNone) key attrs then loop rest serialized_object
           else loop rest (dict_set (KStr key) VNone serialized_object))
          attrs
    end.

Definition serialize_to_json_with (_serialize : value -> outcome value)
    (E : environment) (cls : codec) (c : pyclass) (attrs : attributes)
    (decorated_fields : list string) : outcome dict_items :=
  serialize_to_json_loop _serialize E cls attrs decorated_fields
    (get_serialized_fields E c) [].

(** [SerializedBaseOperator.serialize_operator(op)] *)
Definition serialize_operator_with (_serialize : value -> outcome value)
    (E : environment) (name module : string) (attrs : attributes) : outcome value :=
  serialize_op <- serialize_to_json_with _serialize E SerializedBaseOperator
                    (COp name module) attrs (_decorated_fields SerializedBaseOperator) ;;
  let serialize_op := dict_set (KStr "_task_type") (VStr name) serialize_op in
  let serialize_op := dict_set (KStr "_task_module") (VStr module) serialize_op in
  Return (VDict serialize_op).

(** [SerializedDAG.serialize_dag(dag)]; [dag.task_dict] must be there and be
    a dictionary. *)
Definition serialize_dag_with (_serialize : value -> outcome value)
    (E : environment) (attrs : attributes) : outcome value :=
  serialize_dag <- serialize_to_json_with _serialize E SerializedDAG CDag attrs
                     (_decorated_fields SerializedDAG) ;;
  tasks <- (fix find (l : attributes) : outcome (list value) :=
              match l with
              | [] => Raise (AttributeError "task_dict")
              | (name, s) :: tl =>
                  if String.eqb "task_dict" name then
                    match snd s with
                    | VDict task_dict => comprehension (fun kv => _serialize (snd kv)) task_dict
                    | _ => Raise (AttributeError "items")
                    end
                  else find tl
              end) attrs ;;
  Return (VDict (dict_set (KStr "tasks") (VList tasks) serialize_dag)).

(** The dictionary comprehension [{key(k): f(v) for k, v in items}]: the
    entries are inserted one after the other into an empty dictionary. *)
Definition dict_comprehension_from (key : dict_key -> dict_key) (f : value -> outcome value)
    : dict_items -> dict_items -> outcome dict_items :=
  fix go (items : dict_items) (d : dict_items) : outcome dict_items :=
    match items with
    | [] => Return d
    | (k, v) :: tl => v' <- f v ;; go tl (dict_set (key k) v' d)
    end.

Definition dict_comprehension (key : dict_key -> dict_key) (f : value -> outcome value)
    (items : dict_items) : outcome dict_items :=
  dict_comprehension_from key f items [].

(** The payload of a relativedelta: the public, truthy entries of its
    [__dict__], the weekday written as a list. *)
Definition relativedelta_payload (rd : relativedelta) : dict_items :=
  let encoded := filter (fun kv => py_truthy (snd kv)) (relativedelta_dict rd) in
  match rd_weekday rd with
  | Some (wd, Some n) =>
      if n =? 0 then dict_set (KStr "weekday") (VList [VInt wd]) encoded
      else dict_set (KStr "weekday") (VList [VInt wd; VInt n]) encoded
  | Some (wd, None) => dict_set (KStr "weekday") (VList [VInt wd]) encoded
  | None => encoded
  end.

Definition encode_relativedelta (rd : relativedelta) : value :=
  _encode (VDict (relativedelta_payload rd)) RELATIVEDELTA.

(** [BaseSerialization._serialize(var)] *)
Fixpoint _serialize (E : environment) (var : value) {struct var} : outcome value :=
  try_except
    match var with
    | VNone | VBool _ | VInt _ | VFloat _ | VStr _ => Return var
    | VEnum p => Return (scalar_value p)
    | VDict items =>
        encoded <- dict_comprehension (fun k => KStr (str_key k)) (_serialize E) items ;;
        Return (_encode (VDict encoded) DICT)
    | VList l => l' <- comprehension (_serialize E) l ;; Return (VList l')
    | VInst CDag attrs => serialize_dag_with (_serialize E) E attrs
    | VInst (COp name module) attrs => serialize_operator_with (_serialize E) E name module attrs
    | VDatetime us _ => Return (_encode (timestamp us) DATETIME)
    | VTimedelta us => Return (_encode (total_seconds us) TIMEDELTA)
    | VTimezone name => Return (_encode (VStr name) TIMEZONE)
    | VRelativedelta rd => Return (encode_relativedelta rd)
    | VObj o =>
        if obj_callable o then s <- obj_source o ;; Return (VStr s)
        else s <- obj_str o ;; Return (VStr s)
    | VSet l => l' <- comprehension (_serialize E) l ;; Return (_encode (VList l') SET)
    | VTuple l => l' <- comprehension (_serialize E) l ;; Return (_encode (VList l') TUPLE)
    | VWeekday wd n => s <- weekday_str wd n ;; Return (VStr s)
    end
    FAILED.

Definition serialize_to_json (E : environment) := serialize_to_json_with (_serialize E) E.
Definition serialize_operator (E : environment) := serialize_operator_with (_serialize E) E.
Definition serialize_dag (E : environment) := serialize_dag_with (_serialize E) E.

(** ** Decoding

    A decoding function answers with a pair: what the call returns or
    raises, and the state of its argument after the call, since decoding
    updates the payload it is given in place. *)

Definition decoding : Type := (outcome value * value)%type.

(** [[f(v) for v in l]] with the members of [l] as the calls leave them. *)
Definition traverse (f : value -> decoding) : list value -> outcome (list value) * list value :=
  fix go (l : list value) : outcome (list value) * list value :=
    match l with
    | [] => (Return [], [])
    | x :: tl =>
        let (r, x') := f x in
        match r with
        | Raise e => (Raise e, x' :: tl)
        | Return y =>
            let (rs, tl') := go tl in
            (ys <- rs ;; Return (y :: ys), x' :: tl')
        end
    end.

(** [{f(v) for v in l}]: each member is added to the set as soon as it is
    decoded. *)
Definition traverse_set_from (f : value -> decoding)
    : list value -> list value -> outcome value * list value :=
  fix go (acc : list value) (l : list value) : outcome value * list value :=
    match l with
    | [] => (Return (VSet acc), [])
    | x :: tl =>
        let (r, x') := f x in
        match r with
        | Raise e => (Raise e, x' :: tl)
        | Return y =>
            if hashable y then
              let (rs, tl') := go (set_add y acc) tl in (rs, x' :: tl')
            else (Raise TypeError, x' :: tl)
        end
    end.

Definition traverse_set (f : value -> decoding) : list value -> outcome value * list value :=
  traverse_set_from f [].

(** [{k: f(v) for k, v in items}] *)
Definition traverse_items_from (f : value -> decoding)
    : dict_items -> dict_items -> outcome value * dict_items :=
  fix go (d : dict_items) (items : dict_items) : outcome value * dict_items :=
    match items with
    | [] => (Return (VDict d), [])
    | (k, v) :: tl =>
        let (r, v') := f v in
        match r with
        | Raise e => (Raise e, (k, v') :: tl)
        | Return y =>
            let (rs, tl') := go (dict_set k y d) tl in (rs, (k, v') :: tl')
        end
    end.

Definition traverse_items (f : value -> decoding) : dict_items -> outcome value * dict_items :=
  traverse_items_from f [].

(** Iterating over [var] and decoding what it yields; the characters of a
    string and the keys of a dictionary are primitives, which decode to
    themselves. *)
Definition traverse_iterable (f : value -> decoding) (var : value)
    : outcome (list value) * value :=
  match var with
  | VList l => let (r, l') := traverse f l in (r, VList l')
  | VTuple l => let (r, l') := traverse f l in (r, VTuple l')
  | VSet l => let (r, l') := traverse f l in (r, VSet l')
  | _ => (py_iter var, var)
  end.

Definition traverse_iterable_set (f : value -> decoding) (var : value) : decoding :=
  match var with
  | VList l => let (r, l') := traverse_set f l in (r, VList l')
  | VTuple l => let (r, l') := traverse_set f l in (r, VTuple l')
  | VSet l => let (r, l') := traverse_set f l in (r, VSet l')
  | _ => (py_set var, var)
  end.

(** [d[key]] handed to [present], which may update it in place; [absent]
    when the key is missing. *)
Definition with_item {R : Type} (key : dict_key) (present : value -> R * value) (absent : R)
    : dict_items -> R * dict_items :=
  fix find (items : dict_items) : R * dict_items :=
    match items with
    | [] => (absent, [])
    | (k, v) :: tl =>
        if dict_key_eqb key k then
          let (r, v') := present v in (r, (k, v') :: tl)
        else
          let (r, tl') := find tl in (r, (k, v) :: tl')
    end.

(** The [RELATIVEDELTA] rule of [_deserialize]:
    [if 'weekday' in var: var['weekday'] = relativedelta.weekday( *var['weekday'])]
    then [relativedelta.relativedelta( **var)].  A [var] that is not a
    dictionary fails one of the two steps with a [TypeError]. *)
Definition deserialize_relativedelta (var : value) : decoding :=
  match var with
  | VDict d =>
      match dict_get (KStr "weekday") d with
      | Some w =>
          match args <- py_iter w ;; weekday_new args with
          | Return weekday =>
              let var' := VDict (dict_set (KStr "weekday") weekday d) in
              (relativedelta_new var', var')
          | Raise e => (Raise e, var)
          end
      | None => (relativedelta_new var, var)
      end
  | _ => (Raise TypeError, var)
  end.

(** [getattr(obj, name)] and [setattr(obj, name, value)] on an attribute
    table. *)
Definition getattr (attrs : attributes) (name : string) : outcome slot :=
  match attr_get name attrs with
  | Some s => Return s
  | None => Raise (AttributeError name)
  end.

Definition setattr (attrs : attributes) (name : string) (v : value) : attributes :=
  attr_set name (None, v) attrs.

(** [d[key]] *)
Definition getitem (d : dict_items) (key : string) : outcome value :=
  match dict_get (KStr key) d with
  | Some v => Return v
  | None => Raise (KeyError key)
  end.

(** A value used as the key of a dictionary; the dictionaries of the model
    are keyed by text and integers. *)
Definition as_key (v : value) : outcome dict_key :=
  match unenum v with
  | VStr s => Return (KStr s)
  | VInt n => Return (KInt n)
  | VBool b => Return (KInt (if b then 1 else 0))
  | _ => Raise TypeError
  end.

(** The extra links of the plugins that apply to the operator class recorded
    in the payload, keyed by name. *)
Definition links_update (name : string) (o : pyobject) : list (string * pyobject) -> list (string * pyobject) :=
  fix go (l : list (string * pyobject)) : list (string * pyobject) :=
    match l with
    | [] => [(name, o)]
    | (name', o') :: tl => if String.eqb name name' then (name', o) :: tl else (name', o') :: go tl
    end.

Definition op_extra_links_from_plugin (E : environment) (encoded_op : dict_items)
    : outcome (list (string * pyobject)) :=
  fold_left
    (fun acc ope =>
       fold_left
         (fun acc operator =>
            links <- acc ;;
            task_type <- getitem encoded_op "_task_type" ;;
            if py_eq (VStr (fst operator)) task_type then
              task_module <- getitem encoded_op "_task_module" ;;
              if py_eq (VStr (snd operator)) task_module
              then Return (links_update (link_name ope) (link_object ope) links)
              else Return links
            else Return links)
         (link_operators ope) acc)
    (operator_extra_links E) (Return []).

(** [for k in fields - encoded.keys() - cls._CONSTRUCTOR_PARAMS.keys():
    setattr(obj, k, None)] *)
Definition set_missing_to_None (E : environment) (cls : codec) (fields : list string)
    (encoded : dict_items) (obj : attributes) : attributes :=
  fold_left
    (fun obj k =>
       if dict_contains (KStr k) encoded then obj
       else match attr_get k (_CONSTRUCTOR_PARAMS E cls) with
            | Some _ => obj
            | None => setattr obj k VNone
            end)
    fields obj.

(** *** The repairs [deserialize_dag] makes once every field is assigned *)

Fixpoint attr_remove (name : string) (attrs : attributes) : attributes :=
  match attrs with
  | [] => []
  | (name', s) :: tl =>
      if String.eqb name name' then attr_remove name tl else (name', s) :: attr_remove name tl
  end.

(** The DAG as a task or a sub-DAG refers back to it.  The back-reference
    closes a cycle, which the tree of values cuts here: the owner is seen
    without its table of tasks. *)
Definition dag_view (dag : attributes) : value :=
  VInst CDag (attr_remove "task_dict" dag).

(** [task.dag = dag]: the setter of [BaseOperator.dag] refuses a task that
    already belongs to another DAG. *)
Definition set_task_dag (dag task : attributes) : outcome attributes :=
  if has_dag task then Raise AirflowException
  else Return (setattr task "_dag" (dag_view dag)).

(** [if getattr(task, date_attr) is None:
       setattr(task, date_attr, getattr(dag, date_attr))] *)
Definition inherit_date (dag task : attributes) (date_attr : string) : outcome attributes :=
  own <- getattr task date_attr ;;
  if is_None (snd own) then
    inherited <- getattr dag date_attr ;;
    Return (attr_set date_attr inherited task)
  else Return task.

(** [if task.subdag is not None:
       setattr(task.subdag, 'parent_dag', dag); task.subdag.is_subdag = True] *)
Definition link_subdag (dag task : attributes) : outcome attributes :=
  subdag <- getattr task "subdag" ;;
  match snd subdag with
  | VNone => Return task
  | VInst c sub =>
      let sub := setattr sub "parent_dag" (dag_view dag) in
      let sub := setattr sub "is_subdag" (VBool true) in
      Return (attr_set "subdag" (fst subdag, VInst c sub) task)
  | _ => Raise (AttributeError "parent_dag")
  end.

(** [dag.task_dict[task_id]._upstream_task_ids.add(task_id)] *)
Definition add_upstream (task_dict : dict_items) (task_id : value) : outcome dict_items :=
  key <- as_key task_id ;;
  match dict_get key task_dict with
  | Some (VInst c target) =>
      upstream <- getattr target "_upstream_task_ids" ;;
      match snd upstream with
      | VSet ids =>
          Return (dict_set key
                    (VInst c (attr_set "_upstream_task_ids"
                                (fst upstream, VSet (set_add task_id ids)) target))
                    task_dict)
      | _ => Raise (AttributeError "add")
      end
  | Some _ => Raise (AttributeError "_upstream_task_ids")
  | None => Raise (KeyError (str_key key))
  end.

(** One turn of [for task in dag.task_dict.values()], on the task stored
    under [key]. *)
Definition link_task (dag : attributes) (task_dict : dict_items) (key : dict_key)
    : outcome dict_items :=
  match dict_get key task_dict with
  | Some (VInst c task) =>
      task <- set_task_dag dag task ;;
      task <- inherit_date dag task "start_date" ;;
      task <- inherit_date dag task "end_date" ;;
      task <- link_subdag dag task ;;
      let task_dict := dict_set key (VInst c task) task_dict in
      downstream <- getattr task "_downstream_task_ids" ;;
      ids <- py_iter (snd downstream) ;;
      fold_left (fun acc task_id => task_dict <- acc ;; add_upstream task_dict task_id)
        ids (Return task_dict)
  | Some _ => Raise (AttributeError "dag")
  | None => Raise (KeyError (str_key key))
  end.

(** The end of [deserialize_dag], from [setattr(dag, 'full_filepath', dag.fileloc)]
    on. *)
Definition link_tasks (dag : attributes) : outcome attributes :=
  fileloc <- getattr dag "fileloc" ;;
  let dag := attr_set "full_filepath" fileloc dag in
  tasks <- getattr dag "task_dict" ;;
  match snd tasks with
  | VDict task_dict =>
      task_dict <- fold_left (fun acc key => task_dict <- acc ;; link_task dag task_dict key)
                     (dict_keys task_dict) (Return task_dict) ;;
      Return (attr_set "task_dict" (fst tasks, VDict task_dict) dag)
  | _ => Raise (AttributeError "values")
  end.

(** The class of every decoded operator. *)
Definition SerializedBaseOperator_class : pyclass :=
  COp "SerializedBaseOperator" "airflow.serialization.serialized_objects".

(** *** [_deserialize], [deserialize_dag] and [deserialize_operator]

    The three functions call one another; the bodies of the two entity
    decoders are written first, over the functions they call. *)

(** The rule [deserialize_operator] applies to the field [k] of the payload. *)
Definition decode_operator_field (deserialize_dag _deserialize : value -> decoding)
    (E : environment) (k : string) (v : value) : decoding :=
  if String.eqb k "_downstream_task_ids" then (py_set v, v)
  else if String.eqb k "subdag" then deserialize_dag v
  else if mem k ["retry_delay"; "execution_timeout"] then (timedelta_of_seconds v, v)
  else if endswith k "_date" then (from_timestamp v, v)
  else if mem k (_decorated_fields SerializedBaseOperator)
          || negb (mem k (operator_serialized_fields E))
  then _deserialize v
  else (Return v, v).

(** [for k, v in encoded_op.items(): ... setattr(op, k, v)] *)
Definition decode_operator_fields (deserialize_dag _deserialize : value -> decoding)
    (E : environment) : attributes -> dict_items -> outcome attributes * dict_items :=
  fix loop (op : attributes) (l : dict_items) : outcome attributes * dict_items :=
    match l with
    | [] => (Return op, [])
    | (KInt _, _) :: _ => (Raise (AttributeError "endswith"), l)
    | (KStr k as key, v) :: tl =>
        let (r, v') := decode_operator_field deserialize_dag _deserialize E k v in
        match r with
        | Raise e => (Raise e, (key, v') :: tl)
        | Return x =>
            let (rs, tl') := loop (setattr op k x) tl in (rs, (key, v') :: tl')
        end
    end.

(** [SerializedBaseOperator.deserialize_operator(encoded_op)] *)
Definition deserialize_operator_with (deserialize_dag _deserialize : value -> decoding)
    (E : environment) (encoded_op : value) : decoding :=
  match encoded_op with
  | VDict items =>
      match
        task_id <- getitem items "task_id" ;;
        op <- new_operator E task_id ;;
        links <- op_extra_links_from_plugin E items ;;
        Return (setattr op "operator_extra_links" (VList (map (fun l => VObj (snd l)) links)))
      with
      | Raise e => (Raise e, encoded_op)
      | Return op =>
          let (r, items') :=
            decode_operator_fields deserialize_dag _deserialize E op items in
          (op <- r ;;
           Return (VInst SerializedBaseOperator_class
                     (set_missing_to_None E SerializedBaseOperator
                        (operator_serialized_fields E) items op)),
           VDict items')
      end
  | _ => (Raise TypeError, encoded_op)
  end.

(** [{task["task_id"]: SerializedBaseOperator.deserialize_operator(task) for task in v}],
    continuing the dictionary [d]. *)
Definition decode_tasks (deserialize_operator : value -> decoding)
    : dict_items -> list value -> outcome value * list value :=
  fix tasks (d : dict_items) (l : list value) : outcome value * list value :=
    match l with
    | [] => (Return (VDict d), [])
    | task :: tl =>
        match
          match task with
          | VDict t => getitem t "task_id"
          | _ => Raise TypeError
          end
        with
        | Raise e => (Raise e, l)
        | Return task_id =>
            let (r, task') := deserialize_operator task in
            match op <- r ;; key <- as_key task_id ;; Return (key, op) with
            | Raise e => (Raise e, task' :: tl)
            | Return (key, op) =>
                let (rs, tl') := tasks (dict_set key op d) tl in (rs, task' :: tl')
            end
        end
    end.

(** The rule [deserialize_dag] applies to the field [k] of the payload, with
    the name of the attribute that receives the result. *)
Definition decode_dag_field (deserialize_operator _deserialize : value -> decoding)
    (E : environment) (k : string) (v : value) : outcome value * value * string :=
  if String.eqb k "_downstream_task_ids" then (py_set v, v, k)
  else if String.eqb k "tasks" then
    match v with
    | VList l => let (r, l') := decode_tasks deserialize_operator [] l in
                 (r, VList l', "task_dict")
    | VTuple l => let (r, l') := decode_tasks deserialize_operator [] l in
                  (r, VTuple l', "task_dict")
    | VSet l => let (r, l') := decode_tasks deserialize_operator [] l in
                (r, VSet l', "task_dict")
    | _ =>
        (match py_iter v with
         | Return [] => Return (VDict [])
         | Return (_ :: _) => Raise TypeError
         | Raise e => Raise e
         end, v, "task_dict")
    end
  else if String.eqb k "timezone" then (timezone E v, v, k)
  else if mem k ["retry_delay"; "execution_timeout"] then (timedelta_of_seconds v, v, k)
  else if endswith k "_date" then (from_timestamp v, v, k)
  else if mem k (_decorated_fields SerializedDAG)
  then let (r, v') := _deserialize v in (r, v', k)
  else (Return v, v, k).

(** [for k, v in encoded_dag.items(): ... setattr(dag, k, v)] *)
Definition decode_dag_fields (deserialize_operator _deserialize : value -> decoding)
    (E : environment) : attributes -> dict_items -> outcome attributes * dict_items :=
  fix loop (dag : attributes) (l : dict_items) : outcome attributes * dict_items :=
    match l with
    | [] => (Return dag, [])
    | (KInt _, _) :: _ => (Raise (AttributeError "endswith"), l)
    | (KStr k as key, v) :: tl =>
        let '(r, v', k) := decode_dag_field deserialize_operator _deserialize E k v in
        match r with
        | Raise e => (Raise e, (key, v') :: tl)
        | Return x =>
            let (rs, tl') := loop (setattr dag k x) tl in (rs, (key, v') :: tl')
        end
    end.

(** [SerializedDAG.deserialize_dag(encoded_dag)] *)
Definition deserialize_dag_with (deserialize_operator _deserialize : value -> decoding)
    (E : environment) (encoded_dag : value) : decoding :=
  match encoded_dag with
  | VDict items =>
      match dag_id <- getitem items "_dag_id" ;; new_dag E dag_id with
      | Raise e => (Raise e, encoded_dag)
      | Return dag =>
          let (r, items') :=
            decode_dag_fields deserialize_operator _deserialize E dag items in
          (dag <- r ;;
           dag <- link_tasks (set_missing_to_None E SerializedDAG
                                (dag_serialized_fields E) items dag) ;;
           Return (VInst CDag dag),
           VDict items')
      end
  | _ => (Raise TypeError, encoded_dag)
  end.

Fixpoint _deserialize (E : environment) (encoded_var : value) {struct encoded_var} : decoding :=
  match encoded_var with
  | VNone | VBool _ | VInt _ | VFloat _ | VStr _ | VEnum _ => (Return encoded_var, encoded_var)
  | VList l =>
      let (r, l') := traverse (_deserialize E) l in
      (decoded <- r ;; Return (VList decoded), VList l')
  | VDict items =>
      let (r, items') :=
        with_item VAR
          (fun var =>
             match dict_get TYPE items with
             | None => (Raise (KeyError "__type"), var)
             | Some type_ =>
                 if py_eq type_ (DAT DICT) then
                   match var with
                   | VDict d =>
                       let (r, d') := traverse_items (_deserialize E) d in (r, VDict d')
                   | _ => (Raise (AttributeError "items"), var)
                   end
                 else if py_eq type_ (DAT DAG) then deserialize_dag E var
                 else if py_eq type_ (DAT OP) then deserialize_operator E var
                 else if py_eq type_ (DAT DATETIME) then (from_timestamp var, var)
                 else if py_eq type_ (DAT TIMEDELTA) then (timedelta_of_seconds var, var)
                 else if py_eq type_ (DAT TIMEZONE) then (timezone E var, var)
                 else if py_eq type_ (DAT RELATIVEDELTA) then deserialize_relativedelta var
                 else if py_eq type_ (DAT SET) then traverse_iterable_set (_deserialize E) var
                 else if py_eq type_ (DAT TUPLE) then
                   let (r, var') := traverse_iterable (_deserialize E) var in
                   (decoded <- r ;; Return (VTuple decoded), var')
                 else (Raise TypeError, var)
             end)
          (Raise (KeyError "__var")) items in
      (r, VDict items')
  | _ => (Raise AssertionError, encoded_var)
  end

with deserialize_operator (E : environment) (encoded_op : value) {struct encoded_op} : decoding :=
  deserialize_operator_with (deserialize_dag E) (_deserialize E) E encoded_op

with deserialize_dag (E : environment) (encoded_dag : value) {struct encoded_dag} : decoding :=
  deserialize_dag_with (deserialize_operator E) (_deserialize E) E encoded_dag.

(** [SerializedDAG.from_dict(serialized_obj)] *)
Definition from_dict (E : environment) (serialized_obj : value) : decoding :=
  match serialized_obj with
  | VDict items =>
      let ver := match dict_get (KStr "__version") items with
                 | Some v => v
                 | None => VStr "<not present>"
                 end in
      if negb (py_eq ver SERIALIZER_VERSION) then (Raise ValueError, serialized_obj)
      else
        let (r, items') :=
          with_item (KStr "dag") (fun dag => deserialize_dag E dag) (Raise (KeyError "dag")) items in
        (r, VDict items')
  | _ => (Raise (AttributeError "get"), serialized_obj)
  end.

(** ** A small installation

    A concrete choice for what the codec takes from the rest of the code
    base, used to run the codec on examples: operators and DAGs with a few
    fields, two of them with a hard-coded constructor default, no plugin. *)
Module Demo.

Definition default_owner : slot := (Some 1%nat, VStr "airflow").
Definition default_retry_delay : slot := (Some 2%nat, VTimedelta 300000000).
Definition default_concurrency : slot := (Some 3%nat, VInt 16).

Definition operator_fields : list string :=
  ["task_id"; "owner"; "start_date"; "end_date"; "retry_delay"; "execution_timeout";
   "schedule"; "pool"; "executor_config"; "params"; "_downstream_task_ids"; "subdag"].

Definition dag_fields : list string :=
  ["_dag_id"; "fileloc"; "start_date"; "end_date"; "timezone"; "schedule_interval";
   "default_args"; "_concurrency"].

Definition fresh (v : value) : slot := (None, v).

Definition make_operator (task_id : value) : outcome attributes :=
  match task_id with
  | VStr _ =>
      Return [ ("task_id", fresh task_id); ("owner", default_owner);
               ("start_date", fresh VNone); ("end_date", fresh VNone);
               ("retry_delay", default_retry_delay);
               ("execution_timeout", fresh VNone); ("schedule", fresh VNone);
               ("pool", fresh VNone);
               ("executor_config", fresh (VDict [])); ("params", fresh (VDict []));
               ("_upstream_task_ids", fresh (VSet []));
               ("_downstream_task_ids", fresh (VSet []));
               ("subdag", fresh VNone) ]
  | _ => Raise TypeError
  end.

Definition make_dag (dag_id : value) : outcome attributes :=
  match dag_id with
  | VStr _ =>
      Return [ ("_dag_id", fresh dag_id); ("fileloc", fresh (VStr "dags/example.py"));
               ("start_date", fresh VNone); ("end_date", fresh VNone);
               ("timezone", fresh (VTimezone "UTC"));
               ("schedule_interval", fresh (VTimedelta 86400000000));
               ("default_args", fresh VNone);
               ("_concurrency", default_concurrency);
               ("task_dict", fresh (VDict [])) ]
  | _ => Raise TypeError
  end.

Definition env : environment :=
  mk_environment operator_fields dag_fields
    [("owner", default_owner); ("retry_delay", default_retry_delay)]
    [("_concurrency", default_concurrency)]
    make_operator make_dag []
    (fun name => String.eqb name "UTC" || String.eqb name "Europe/Paris").

(** The graph ["g1"] of the scenario: node ["a"] without dependents and
    node ["b"] whose [_downstream_task_ids] is [{"a"}], as a payload. *)
Definition task_a : value :=
  VDict [ (KStr "task_id", VStr "a"); (KStr "_downstream_task_ids", VList []);
          (KStr "_task_type", VStr "DummyOperator");
          (KStr "_task_module", VStr "airflow.operators.dummy_operator") ].

Definition task_b : value :=
  VDict [ (KStr "task_id", VStr "b"); (KStr "_downstream_task_ids", VList [VStr "a"]);
          (KStr "_task_type", VStr "DummyOperator");
          (KStr "_task_module", VStr "airflow.operators.dummy_operator") ].

Definition g1 : value :=
  VDict [ (KStr "_dag_id", VStr "g1"); (KStr "fileloc", VStr "dags/g1.py");
          (KStr "tasks", VList [task_a; task_b]) ].

Definition g1_payload : value :=
  VDict [ (KStr "__version", VInt 1); (KStr "dag", g1) ].

(** An operator of DAG ["g2"] whose owner is the hard-coded default object,
    whose retry delay equals the default but is another object, and which has
    a set and a mapping among its fields. *)
Definition notify_attrs : attributes :=
  [ ("task_id", (Some 10%nat, VStr "notify")); ("owner", default_owner);
    ("start_date", (Some 20%nat, VDatetime 1546300800000000 "UTC"));
    ("end_date", fresh VNone);
    ("retry_delay", (Some 11%nat, VTimedelta 300000000));
    ("execution_timeout", (Some 12%nat, VTimedelta 90000000));
    ("schedule", (Some 13%nat, VSet [VInt 1; VInt 2; VInt 3]));
    ("pool", (Some 14%nat, VDict [(KStr "slots", VInt 2)]));
    ("executor_config", (Some 15%nat, VDict [(KStr "cpu", VInt 2)]));
    ("params", (Some 16%nat, VDict []));
    ("_upstream_task_ids", fresh (VSet []));
    ("_downstream_task_ids", (Some 17%nat, VSet []));
    ("subdag", fresh VNone);
    ("_dag", fresh (VInst CDag
       [ ("_dag_id", fresh (VStr "g2"));
         ("start_date", (Some 20%nat, VDatetime 1546300800000000 "UTC"));
         ("end_date", fresh VNone) ])) ].

Definition notify_class : pyclass := COp "BashOperator" "airflow.operators.bash_operator".

(** The fields of that operator, as [serialize_to_json] encodes them. *)
Definition notify_payload : dict_items :=
  Eval vm_compute in
    match serialize_to_json env SerializedBaseOperator notify_class notify_attrs
            (_decorated_fields SerializedBaseOperator) with
    | Return d => d
    | Raise _ => []
    end.

(** The DAG ["g2"] that owns that operator: the start date of the operator
    is the start date of the DAG, the same object. *)
Definition g2_attrs : attributes :=
  [ ("_dag_id", fresh (VStr "g2")); ("fileloc", fresh (VStr "dags/g2.py"));
    ("start_date", (Some 20%nat, VDatetime 1546300800000000 "UTC"));
    ("end_date", fresh VNone);
    ("timezone", fresh (VTimezone "UTC"));
    ("schedule_interval", fresh (VTimedelta 86400000000));
    ("default_args", fresh VNone);
    ("_concurrency", default_concurrency);
    ("task_dict", fresh (VDict [(KStr "notify", VInst notify_class notify_attrs)])) ].

Definition g2_items : dict_items :=
  Eval vm_compute in
    match serialize_dag env g2_attrs with
    | Return (VDict d) => d
    | _ => []
    end.

Definition notify_items : dict_items :=
  Eval vm_compute in
    match serialize_operator env "BashOperator" "airflow.operators.bash_operator"
            notify_attrs with
    | Return (VDict d) => d
    | _ => []
    end.

(** The rule "at midnight": the absolute hour is 0. *)
Definition at_midnight : relativedelta :=
  mk_relativedelta 0 0 0 0 0 0 0 0 None None None (Some 0) None None None None.

(** The rule with every component at its default. *)
Definition no_rule : relativedelta :=
  mk_relativedelta 0 0 0 0 0 0 0 0 None None None None None None None None.

(** A value that nests the supported kinds. *)
Definition nested : value :=
  VDict [ (KStr "timeout", VTimedelta 90000000);
          (KStr "days", VSet [VInt 1; VInt 2; VInt 3]);
          (KStr "window", VTuple [VDatetime 1546300800000000 "Europe/Paris"; VNone]);
          (KStr "zone", VTimezone "Europe/Paris");
          (KStr "every", VRelativedelta
             (mk_relativedelta 0 1 (-2) 0 0 0 0 0 None None None (Some 9) None None None
                (Some (4, Some 2))));
          (KStr "levels", VList [VEnum (SInt 3); VStr "high"; VBool true; VFloat (1 # 2)]) ].

(** A callable whose source cannot be read, and which has a display
    string. *)
Definition unreadable_callable : pyobject :=
  mk_pyobject false true
    (Raise (UserError "could not get source code"))
    (Return "<function notify>").

End Demo.

(** What a decoded DAG holds: its table of tasks, and the forward-dependency
    set of one of them. *)
Definition decoded_task_dict (r : outcome value) : dict_items :=
  match r with
  | Return (VInst CDag dag) =>
      match attr_get "task_dict" dag with
      | Some (_, VDict task_dict) => task_dict
      | _ => []
      end
  | _ => []
  end.

Definition task_attr (task_dict : dict_items) (task_id name : string) : option value :=
  match dict_get (KStr task_id) task_dict with
  | Some (VInst _ task) => option_map snd (attr_get name task)
  | _ => None
  end.

(** What [serialize_to_json] stores for one field: nothing when the value is
    excluded, the encoded value for a decorated field, the encoded value
    after the shortcut for any other field. *)
Definition serialized_field (E : environment) (cls : codec) (attrs : attributes)
    (decorated_fields : list string) (key : string) : option (outcome value) :=
  let value := getattr_or_None (VInst CDag attrs) key in
  if _is_excluded E cls value key attrs then None
  else if mem key decorated_fields then Some (_serialize E (snd value))
  else Some (v <- _serialize E (snd value) ;; unwrap v).

(** The two date fields a task inherits from its DAG. *)
Definition date_attrs : list string := ["start_date"; "end_date"].

(** A task after the repairs, against the task before them: a date that was
    [None] is now the date of the DAG, any other date is as it was. *)
Definition dates_linked (dag before after : attributes) : Prop :=
  forall date_attr s,
    In date_attr date_attrs -> attr_get date_attr before = Some s ->
    attr_get date_attr after =
      (if is_None (snd s) then attr_get date_attr dag else Some s).

Definition dates_kept (before after : attributes) : Prop :=
  forall date_attr, In date_attr date_attrs ->
    attr_get date_attr after = attr_get date_attr before.

(** A member of the table of tasks during the repairs, against the member the
    table held at first. *)
Definition task_followed (dag : attributes) (before after : value) : Prop :=
  after = before \/
  exists c n n', before = VInst c n /\ after = VInst c n' /\
                 (dates_kept n n' \/ dates_linked dag n n').

Definition task_linked (dag : attributes) (before after : value) : Prop :=
  exists c n n', before = VInst c n /\ after = VInst c n' /\ dates_linked dag n n'.

(** The table of tasks [now], while the keys [done] have been visited,
    against the table [first] the repairs started from. *)
Definition tasks_followed (dag : attributes) (first : dict_items) (done : list dict_key)
    (now : dict_items) : Prop :=
  forall key node,
    dict_get key now = Some node ->
    exists orig, dict_get key first = Some orig /\ task_followed dag orig node /\
                 (In key done -> task_linked dag orig node).

(** The members a sequence of task payloads holds. *)
Definition payload_members (v : value) : list value :=
  match v with
  | VList l | VTuple l | VSet l => l
  | _ => []
  end.

(** The table of tasks [td] holds nothing but decoded members of a [tasks]
    entry of the DAG payload [items]. *)
Definition tasks_from_payload (decode : value -> decoding) (items td : dict_items) : Prop :=
  forall key node,
    dict_get key td = Some node ->
    exists v titems,
      In (KStr "tasks", v) items /\ In (VDict titems) (payload_members v) /\
      fst (decode (VDict titems)) = Return node.

(** An entry of [__dict__] as the filter of the relativedelta rule leaves
    it: kept when its value is truthy. *)
Definition truthy_entry (v : option value) : option value :=
  match v with
  | Some v => if py_truthy v then Some v else None
  | None => None
  end.

(** The test [relativedelta_new] makes on each keyword. *)
Definition known_keyword (kv : dict_key * value) : bool :=
  match fst kv with
  | KStr name => existsb (String.eqb name) rd_parameters
  | KInt _ => false
  end.

(** *** The values the round trip is stated for *)

(** What comes back from encoding then decoding: a member of an enumeration
    comes back as its value, a datetime as the same instant in UTC, a
    container with its members so treated, anything else as it is. *)
Fixpoint normal (v : value) : value :=
  match v with
  | VEnum p => scalar_value p
  | VDatetime us _ => VDatetime us "UTC"
  | VDict items => VDict (map (fun kv => (fst kv, normal (snd kv))) items)
  | VList l => VList (map normal l)
  | VSet l => VSet (map normal l)
  | VTuple l => VTuple (map normal l)
  | _ => v
  end.

(** A recurrence rule as the constructor leaves it: normalised components, a
    weekday whose occurrence count is not 0; and with no absolute component
    equal to 0. *)
Definition rd_supported (rd : relativedelta) : Prop :=
  _fix rd = rd /\
  match rd_weekday rd with
  | Some (_, Some n) => n <> 0
  | _ => True
  end /\
  rd_year rd <> Some 0 /\ rd_month rd <> Some 0 /\ rd_day rd <> Some 0 /\
  rd_hour rd <> Some 0 /\ rd_minute rd <> Some 0 /\ rd_second rd <> Some 0 /\
  rd_microsecond rd <> Some 0.

(** The supported values without opaque fragment: primitives, members of
    enumerations, text-keyed mappings, lists, sets, tuples, datetimes and
    durations within the range of their type, known time zones, recurrence
    rules as above; at any depth.  A mapping has each key once, a set holds
    hashable members once. *)
Unset Elimination Schemes.
Inductive supported (E : environment) : value -> Prop :=
| supported_None : supported E VNone
| supported_Bool b : supported E (VBool b)
| supported_Int n : supported E (VInt n)
| supported_Float q : supported E (VFloat q)
| supported_Str s : supported E (VStr s)
| supported_Enum p : supported E (VEnum p)
| supported_Dict items :
    Forall (fun kv => exists s, fst kv = KStr s) items ->
    NoDup (dict_keys items) ->
    Forall (fun kv => supported E (snd kv)) items ->
    supported E (VDict items)
| supported_List l : Forall (supported E) l -> supported E (VList l)
| supported_Set l :
    Forall (supported E) l -> set_of_list l = Return (VSet l) -> supported E (VSet l)
| supported_Tuple l : Forall (supported E) l -> supported E (VTuple l)
| supported_Datetime us tz :
    datetime_min <= us <= datetime_max -> supported E (VDatetime us tz)
| supported_Timedelta us :
    timedelta_min <= us <= timedelta_max -> supported E (VTimedelta us)
| supported_Timezone name : timezone_known E name = true -> supported E (VTimezone name)
| supported_Relativedelta rd : rd_supported rd -> supported E (VRelativedelta rd).
Set Elimination Schemes.

(** *** What can be written as JSON *)

(** The values [json.dumps] writes without a custom encoder: [None],
    Booleans, numbers, text (a tag of [DagAttributeTypes] is text), lists of
    such values and dictionaries with text keys and such values. *)
Fixpoint json_value (v : value) : bool :=
  match v with
  | VNone | VBool _ | VInt _ | VFloat _ | VStr _ => true
  | VEnum (SStr _) => true
  | VList l => forallb json_value l
  | VDict items =>
      forallb (fun kv : dict_key * value => let (k, x) := kv in
                         match k with
                         | KStr _ => json_value x
                         | KInt _ => false
                         end) items
  | _ => false
  end.

(** The test [json_value] makes on the entry of a dictionary. *)
Definition json_entry (kv : dict_key * value) : bool :=
  match fst kv with
  | KStr _ => json_value (snd kv)
  | KInt _ => false
  end.

(** *** A second operator

    An operator that belongs to no DAG, with a start date of its own, two
    dependents, a longest retry delay and a non-empty configuration. *)
Definition report_attrs : attributes :=
  [ ("task_id", (None, VStr "report")); ("owner", (None, VStr "data"));
    ("start_date", (None, VDatetime 1546300800000000 "Europe/Paris"));
    ("end_date", (None, VNone));
    ("retry_delay", (None, VTimedelta 60000000));
    ("execution_timeout", (None, VNone));
    ("schedule", (None, VTimedelta 3600000000));
    ("pool", (None, VStr "default_pool"));
    ("executor_config", (None, VDict [(KStr "cpu", VTuple [VInt 1; VInt 2])]));
    ("params", (None, VDict []));
    ("_upstream_task_ids", (None, VSet []));
    ("_downstream_task_ids", (None, VSet [VStr "notify"; VStr "archive"]));
    ("subdag", (None, VNone)) ].

Definition report_items : dict_items :=
  Eval vm_compute in
    match serialize_operator Demo.env "PythonOperator" "airflow.operators.python_operator"
            report_attrs with
    | Return (VDict d) => d
    | _ => []
    end.

Definition report_node : value :=
  Eval vm_compute in
    match fst (deserialize_operator Demo.env (VDict report_items)) with
    | Return node => node
    | Raise _ => VNone
    end.

(** The fields of an operator payload that [deserialize_operator] assigns as
    they are: serialized fields under none of the names it has a rule for. *)
Definition assigned_as_it_is (E : environment) (k : string) : bool :=
  negb (String.eqb k "_downstream_task_ids") && negb (String.eqb k "subdag") &&
  negb (mem k ["retry_delay"; "execution_timeout"]) && negb (endswith k "_date") &&
  negb (mem k (_decorated_fields SerializedBaseOperator)) &&
  mem k (operator_serialized_fields E).

(** The identifiers in the [_upstream_task_ids] set of a task. *)
Definition upstream_ids (node : value) : option (list value) :=
  match node with
  | VInst _ task =>
      match attr_get "_upstream_task_ids" task with
      | Some (_, VSet ids) => Some ids
      | _ => None
      end
  | _ => None
  end.

(** The table of tasks [now] during the repairs, while the keys [done] have
    been visited, against the table [first] the repairs started from: a
    visited task refers back to the DAG, and the set of upstream identifiers
    of a task holds what it held at first and, at most, the key of the task
    itself. *)
Definition refers_to (dag : attributes) (node : value) : Prop :=
  exists c task, node = VInst c task /\ attr_get "_dag" task = Some (None, dag_view dag).

Definition upstream_grown (key : dict_key) (before after : value) : Prop :=
  forall ids', upstream_ids after = Some ids' ->
    exists ids, upstream_ids before = Some ids /\
      forall x, In x ids' -> In x ids \/ as_key x = Return key.

Definition tasks_repaired (dag : attributes) (first : dict_items) (done : list dict_key)
    (now : dict_items) : Prop :=
  forall key node,
    dict_get key now = Some node ->
    (In key done -> refers_to dag node) /\
    exists orig, dict_get key first = Some orig /\ upstream_grown key orig node.

(** *** An installation with a plugin

    The installation above with one extra link, registered by a plugin for
    the operator class [DummyOperator]. *)
Definition docs_link : extra_link :=
  mk_extra_link "docs" [("DummyOperator", "airflow.operators.dummy_operator")]
    (mk_pyobject false false (Raise TypeError) (Return "<DocsLink>")).

Definition plugin_env : environment :=
  mk_environment Demo.operator_fields Demo.dag_fields
    [("owner", Demo.default_owner); ("retry_delay", Demo.default_retry_delay)]
    [("_concurrency", Demo.default_concurrency)]
    Demo.make_operator Demo.make_dag [docs_link]
    (fun name => String.eqb name "UTC" || String.eqb name "Europe/Paris").

(** An extra link of the registry that applies to the operator class an
    operator payload records. *)
Definition link_applies (E : environment) (encoded_op : dict_items)
    (entry : string * pyobject) : Prop :=
  exists ope operator task_type task_module,
    In ope (operator_extra_links E) /\ In operator (link_operators ope) /\
    link_name ope = fst entry /\ link_object ope = snd entry /\
    dict_get (KStr "_task_type") encoded_op = Some task_type /\
    py_eq (VStr (fst operator)) task_type = true /\
    dict_get (KStr "_task_module") encoded_op = Some task_module /\
    py_eq (VStr (snd operator)) task_module = true.

(** ** The entry point with a schema

    The validator that [load_dag_schema()] returns and [json.loads] are not
    part of this module: [validate] stands for the [validate] method of that
    validator, which returns nothing or raises, [loads] for [json.loads]. *)

(** [cls._json_schema]: [SerializedDAG] sets one, the other classes keep
    [None]. *)
Definition _json_schema (validate : value -> outcome unit) (cls : codec)
    : option (value -> outcome unit) :=
  match cls with
  | SerializedDAG => Some validate
  | _ => None
  end.

(** [cls.validate_schema(serialized_obj)] *)
Definition validate_schema (validate : value -> outcome unit)
    (loads : string -> outcome value) (cls : codec) (serialized_obj : value) : outcome unit :=
  match _json_schema validate cls with
  | None => Raise AirflowException
  | Some schema =>
      match serialized_obj with
      | VDict _ => schema serialized_obj
      | VStr s | VEnum (SStr s) => obj <- loads s ;; schema obj
      | _ => Raise TypeError
      end
  end.

(** [SerializedDAG.to_dict(var)], for a DAG [var] with the attribute table
    [attrs]. *)
Definition to_dict (E : environment) (validate : value -> outcome unit)
    (loads : string -> outcome value) (attrs : attributes) : outcome value :=
  dag <- serialize_dag E attrs ;;
  let json_dict := VDict [(KStr "__version", SERIALIZER_VERSION); (KStr "dag", dag)] in
  _ <- validate_schema validate loads SerializedDAG json_dict ;;
  Return json_dict.

(** * Properties *)

(** ** Outcomes and lookups *)

Lemma try_except_returns {A : Type} (body : outcome A) (handler : A) :
  exists w, try_except body handler = Return w.
Proof. destruct body; simpl; eauto. Qed.

Lemma serialize_returns (E : environment) (var : value) :
  exists w, _serialize E var = Return w.
Proof. destruct var; apply try_except_returns. Qed.

Lemma comprehension_returns {A B : Type} (f : A -> outcome B) (l : list A) :
  (forall x, exists y, f x = Return y) ->
  exists l', comprehension f l = Return l' /\ length l' = length l.
Proof.
  intros Hf. induction l as [|x tl [l' [Hl' Hlen]]]; simpl.
  - exists []. split; reflexivity.
  - destruct (Hf x) as [y Hy]. rewrite Hy, Hl'. simpl.
    exists (y :: l'). simpl. split; congruence.
Qed.

Lemma with_item_get {R : Type} key (present : value -> R * value) (absent : R) items :
  fst (with_item key present absent items) =
  match dict_get key items with
  | Some v => fst (present v)
  | None => absent
  end.
Proof.
  induction items as [|[k v] tl IH]; simpl; [reflexivity|].
  destruct (dict_key_eqb key k).
  - destruct (present v); reflexivity.
  - destruct (with_item key present absent tl); simpl in *. exact IH.
Qed.

Lemma with_item_unchanged {R : Type} key (present : value -> R * value) (absent : R) items :
  (forall v, dict_get key items = Some v -> snd (present v) = v) ->
  snd (with_item key present absent items) = items.
Proof.
  induction items as [|[k v] tl IH]; simpl; intros H; [reflexivity|].
  destruct (dict_key_eqb key k) eqn:Hk.
  - specialize (H v eq_refl). destruct (present v); simpl in *. congruence.
  - specialize (IH H). destruct (with_item key present absent tl); simpl in *. congruence.
Qed.

(** ** C7: encoding never raises *)

(** C7. [_serialize] returns a wire value on every input and never raises.
    When the string conversion of an object raises, the value returned is the
    sentinel ['serialization_failed'], and a list that holds such an object is
    still encoded, member by member. *)
Theorem serialize_never_raises (E : environment) :
  (forall var, exists w, _serialize E var = Return w) /\
  (forall excluded source e,
     _serialize E (VObj (mk_pyobject excluded false source (Raise e))) = Return FAILED) /\
  (forall l, exists l',
     _serialize E (VList l) = Return (VList l') /\ length l' = length l).
Proof.
  split; [exact (serialize_returns E)|]. split.
  - reflexivity.
  - intros l.
    destruct (comprehension_returns (_serialize E) l (serialize_returns E)) as [l' [Hl' Hlen]].
    exists l'. split; [|exact Hlen].
    cbn [_serialize]. rewrite Hl'. reflexivity.
Qed.

(** ** C9: callables *)

(** C9, as the claim states it, fails: the callable of the small
    installation has a display string, its source cannot be read, and
    [_serialize] does not return the display string. *)
Lemma callable_without_source_is_not_displayed :
  obj_callable Demo.unreadable_callable = true /\
  obj_source Demo.unreadable_callable = Raise (UserError "could not get source code") /\
  obj_str Demo.unreadable_callable = Return "<function notify>" /\
  _serialize Demo.env (VObj Demo.unreadable_callable) <> Return (VStr "<function notify>").
Proof. repeat split; try reflexivity. vm_compute. discriminate. Qed.

(** C9, amended.  For a callable, [_serialize] returns the sentinel
    ['serialization_failed'] when reading the source raises, whatever the
    display string; when the source is read it returns the source text as a
    plain string, which [_deserialize] returns unchanged, as text. *)
Theorem callable_is_serialized_as_source_text (E : environment)
    (excluded : bool) (display : outcome string) :
  (forall e, _serialize E (VObj (mk_pyobject excluded true (Raise e) display)) = Return FAILED) /\
  (forall source,
     _serialize E (VObj (mk_pyobject excluded true (Return source) display))
       = Return (VStr source) /\
     _deserialize E (VStr source) = (Return (VStr source), VStr source)).
Proof. split; [reflexivity|]. intros source. split; reflexivity. Qed.

(** ** C3: unknown tags *)

(** C3. Decoding an envelope whose [__type] is none of the nine tags raises
    [TypeError]; nothing is returned and the envelope is left as it was. *)
Theorem unknown_tag_is_rejected (E : environment) (items : dict_items) (var type_ : value) :
  dict_get VAR items = Some var ->
  dict_get TYPE items = Some type_ ->
  (forall t, py_eq type_ (DAT t) = false) ->
  _deserialize E (VDict items) = (Raise TypeError, VDict items).
Proof.
  intros Hvar Htype Htag.
  cbn [_deserialize].
  match goal with
  | |- (let (r, items') := ?w in _) = _ =>
      assert (Hf : fst w = Raise TypeError);
      [| assert (Hs : snd w = items); [| destruct w; simpl in *; congruence]]
  end.
  - rewrite with_item_get, Hvar, Htype, !Htag. reflexivity.
  - apply with_item_unchanged. intros v _. rewrite Htype, !Htag. reflexivity.
Qed.

Lemma unknown_tag_is_rejected_witness :
  _deserialize Demo.env (VDict [(VAR, VInt 7); (TYPE, VStr "not_a_real_tag")])
  = (Raise TypeError, VDict [(VAR, VInt 7); (TYPE, VStr "not_a_real_tag")]).
Proof.
  apply (unknown_tag_is_rejected Demo.env _ (VInt 7) (VStr "not_a_real_tag")).
  - reflexivity.
  - reflexivity.
  - intros t. destruct t; reflexivity.
Defined.

(** ** C2: the version gate *)

(** C2. [from_dict] raises [ValueError], leaving the payload untouched, when
    the dictionary has no [__version] or a [__version] that differs from 1;
    when the version equals 1 its outcome is that of [deserialize_dag] on
    [serialized_obj['dag']]. *)
Theorem from_dict_checks_the_version (E : environment) (items : dict_items) :
  (dict_get (KStr "__version") items = None ->
   from_dict E (VDict items) = (Raise ValueError, VDict items)) /\
  (forall ver, dict_get (KStr "__version") items = Some ver ->
     py_eq ver SERIALIZER_VERSION = false ->
     from_dict E (VDict items) = (Raise ValueError, VDict items)) /\
  (forall ver dag, dict_get (KStr "__version") items = Some ver ->
     py_eq ver SERIALIZER_VERSION = true ->
     dict_get (KStr "dag") items = Some dag ->
     fst (from_dict E (VDict items)) = fst (deserialize_dag E dag)).
Proof.
  unfold from_dict. repeat split.
  - intros ->. reflexivity.
  - intros ver -> ->. reflexivity.
  - intros ver dag -> -> Hdag. simpl negb. cbv iota.
    pose proof (with_item_get (KStr "dag") (fun dag => deserialize_dag E dag)
                  (Raise (KeyError "dag")) items) as Hget.
    rewrite Hdag in Hget.
    destruct (with_item (KStr "dag") _ _ items). exact Hget.
Qed.

Lemma from_dict_checks_the_version_witness :
  from_dict Demo.env (VDict [(KStr "dag", Demo.g1)])
    = (Raise ValueError, VDict [(KStr "dag", Demo.g1)]) /\
  from_dict Demo.env (VDict [(KStr "__version", VInt 2); (KStr "dag", Demo.g1)])
    = (Raise ValueError, VDict [(KStr "__version", VInt 2); (KStr "dag", Demo.g1)]) /\
  fst (from_dict Demo.env Demo.g1_payload) = fst (deserialize_dag Demo.env Demo.g1).
Proof.
  split; [|split].
  - apply (from_dict_checks_the_version Demo.env [(KStr "dag", Demo.g1)]). reflexivity.
  - apply (proj1 (proj2 (from_dict_checks_the_version Demo.env
             [(KStr "__version", VInt 2); (KStr "dag", Demo.g1)])) (VInt 2));
      reflexivity.
  - apply (proj2 (proj2 (from_dict_checks_the_version Demo.env
             [(KStr "__version", VInt 1); (KStr "dag", Demo.g1)])) (VInt 1) Demo.g1);
      reflexivity.
Defined.

(** ** C10: decoding updates its argument *)

Lemma dict_key_eqb_refl (k : dict_key) : dict_key_eqb k k = true.
Proof. destruct k; simpl; [apply String.eqb_refl | apply Z.eqb_refl]. Qed.

Lemma dict_key_eqb_eq (a b : dict_key) : dict_key_eqb a b = true <-> a = b.
Proof.
  destruct a, b; simpl; split; intros H; try discriminate.
  - apply String.eqb_eq in H. congruence.
  - injection H as ->. apply String.eqb_refl.
  - apply Z.eqb_eq in H. congruence.
  - injection H as ->. apply Z.eqb_refl.
Qed.

Lemma dict_get_set_same (k : dict_key) (v : value) (d : dict_items) :
  dict_get k (dict_set k v d) = Some v.
Proof.
  induction d as [|[k' v'] tl IH]; simpl.
  - rewrite dict_key_eqb_refl. reflexivity.
  - destruct (dict_key_eqb k k') eqn:Hk; simpl; rewrite Hk; [reflexivity | exact IH].
Qed.

Lemma dict_get_set_other (k k' : dict_key) (v : value) (d : dict_items) :
  dict_key_eqb k' k = false ->
  dict_get k' (dict_set k v d) = dict_get k' d.
Proof.
  intros Hne. induction d as [|[k0 v0] tl IH]; simpl.
  - rewrite Hne. reflexivity.
  - destruct (dict_key_eqb k k0) eqn:Hk; simpl.
    + apply dict_key_eqb_eq in Hk. subst k0. rewrite Hne. reflexivity.
    + rewrite IH. reflexivity.
Qed.

Lemma attr_get_set_same (name : string) (s : slot) (attrs : attributes) :
  attr_get name (attr_set name s attrs) = Some s.
Proof.
  induction attrs as [|[name' s'] tl IH]; simpl.
  - rewrite String.eqb_refl. reflexivity.
  - destruct (String.eqb name name') eqn:Hn; simpl; rewrite Hn; [reflexivity | exact IH].
Qed.

Lemma attr_get_set_other (name name' : string) (s : slot) (attrs : attributes) :
  String.eqb name' name = false ->
  attr_get name' (attr_set name s attrs) = attr_get name' attrs.
Proof.
  intros Hne. induction attrs as [|[name0 s0] tl IH]; simpl.
  - rewrite Hne. reflexivity.
  - destruct (String.eqb name name0) eqn:Hn; simpl.
    + apply String.eqb_eq in Hn. subst name0. rewrite Hne. reflexivity.
    + rewrite IH. reflexivity.
Qed.

(** Testing a tag held as text, or as the enumeration member. *)
Lemma tag_test (type_ : value) (s : string) (t : DagAttributeTypes) :
  unenum type_ = VStr s -> py_eq type_ (DAT t) = String.eqb s (tag_text t).
Proof.
  destruct type_; simpl; try discriminate.
  - intros [= ->]. reflexivity.
  - destruct payload; simpl; try discriminate. intros [= ->]. reflexivity.
Qed.

Lemma weekday_new_is_weekday (args : list value) (weekday : value) :
  weekday_new args = Return weekday -> exists wd n, weekday = VWeekday wd n.
Proof.
  unfold weekday_new. intros H.
  repeat match type of H with
         | match ?x with _ => _ end = _ => destruct x; try discriminate
         | (if ?c then _ else _) = _ => destruct c; try discriminate
         end; injection H as <-; eauto.
Qed.



(** ** C1: forward-dependency sets after decoding *)

(** What line 441 does: the key looked up in the table of tasks is also the
    key added to the set found there. *)
Lemma add_upstream_adds_the_key_itself (task_dict task_dict' : dict_items) (task_id : value) :
  add_upstream task_dict task_id = Return task_dict' ->
  exists key c target ids,
    as_key task_id = Return key /\
    dict_get key task_dict' = Some (VInst c target) /\
    attr_get "_upstream_task_ids" target = Some ids /\
    exists before, snd ids = VSet (set_add task_id before).
Proof.
  unfold add_upstream. destruct (as_key task_id) as [key|]; simpl; [|discriminate].
  destruct (dict_get key task_dict) as [[]|]; try discriminate.
  unfold getattr. destruct (attr_get "_upstream_task_ids" attrs) as [[a up]|] eqn:Hup;
    simpl; [|discriminate].
  destruct up; try discriminate. intros [= <-].
  exists key, c, (attr_set "_upstream_task_ids" (a, VSet (set_add task_id elems)) attrs),
    (a, VSet (set_add task_id elems)).
  split; [reflexivity|]. split; [apply dict_get_set_same|]. split.
  - apply attr_get_set_same.
  - exists elems. reflexivity.
Qed.

(** C1, on the graph ["g1"]: node ["b"] has [_downstream_task_ids = {"a"}];
    after [deserialize_dag] the forward-dependency set of node ["a"] is
    [{"a"}], without ["b"], and that of ["b"] is empty. *)
Theorem decoded_upstream_of_g1 :
  let task_dict := decoded_task_dict (fst (deserialize_dag Demo.env Demo.g1)) in
  task_attr task_dict "b" "_downstream_task_ids" = Some (VSet [VStr "a"]) /\
  task_attr task_dict "a" "_upstream_task_ids" = Some (VSet [VStr "a"]) /\
  task_attr task_dict "b" "_upstream_task_ids" = Some (VSet []).
Proof. vm_compute. repeat split. Qed.

(** ** The payload of [serialize_to_json], field by field *)

Lemma with_attr_spec {R : Type} (key : string) (present : slot -> R) (absent : R)
    (attrs : attributes) :
  with_attr key present absent attrs =
  match attr_get key attrs with
  | Some s => present s
  | None => absent
  end.
Proof.
  induction attrs as [|[name s] tl IH]; simpl; [reflexivity|].
  destruct (String.eqb key name); [reflexivity | exact IH].
Qed.

Lemma mem_cons (key k : string) (keys : list string) :
  mem key (k :: keys) = String.eqb key k || mem key keys.
Proof. reflexivity. Qed.

Lemma mem_In (key : string) (keys : list string) : mem key keys = true <-> In key keys.
Proof.
  unfold mem. rewrite existsb_exists. split.
  - intros [x [Hin Heq]]. apply String.eqb_eq in Heq. subst. exact Hin.
  - intros Hin. exists key. split; [exact Hin | apply String.eqb_refl].
Qed.

Lemma KStr_eqb (a b : string) : dict_key_eqb (KStr a) (KStr b) = String.eqb a b.
Proof. reflexivity. Qed.

(** The loop stores under each key it visits what [serialized_field] says,
    and leaves the other keys as they were; when it returns, no visited
    field has raised. *)
Lemma serialize_to_json_loop_lookup (E : environment) (cls : codec) (attrs : attributes)
    (decorated_fields : list string) (keys : list string) :
  forall (acc d : dict_items),
    serialize_to_json_loop (_serialize E) E cls attrs decorated_fields keys acc = Return d ->
    forall key,
      dict_get (KStr key) d =
      match (if mem key keys
             then serialized_field E cls attrs decorated_fields key else None) with
      | Some (Return v) => Some v
      | _ => dict_get (KStr key) acc
      end /\
      (mem key keys = true ->
       forall e, serialized_field E cls attrs decorated_fields key <> Some (Raise e)).
Proof.
  induction keys as [|k rest IH]; intros acc d Hloop key.
  - simpl in Hloop. injection Hloop as <-. split; [reflexivity | discriminate].
  - cbn [serialize_to_json_loop] in Hloop. rewrite with_attr_spec in Hloop.
    fold (serialize_to_json_loop (_serialize E) E cls attrs decorated_fields) in Hloop.
    rewrite mem_cons.
    assert (Hstep : exists acc',
              serialize_to_json_loop (_serialize E) E cls attrs decorated_fields rest acc'
                = Return d /\
              match serialized_field E cls attrs decorated_fields k with
              | Some (Return v) => acc' = dict_set (KStr k) v acc
              | Some (Raise _) => False
              | None => acc' = acc
              end).
    { unfold serialized_field, getattr_or_None.
      destruct (attr_get k attrs) as [value|].
      - destruct (_is_excluded E cls value k attrs); [eauto|].
        destruct (serialize_returns E (snd value)) as [w Hw]. rewrite Hw in *.
        destruct (mem k decorated_fields); simpl in *; [eauto|].
        destruct (unwrap w); simpl in *; [eauto | discriminate].
      - destruct (_is_excluded E cls (None, VNone) k attrs); [eauto|].
        destruct (mem k decorated_fields); simpl; eauto. }
    destruct Hstep as [acc' [Hrest Hacc']].
    destruct (IH _ _ Hrest key) as [IHget IHraise]. rewrite IHget.
    destruct (String.eqb key k) eqn:Hk; simpl.
    + apply String.eqb_eq in Hk. subst k.
      destruct (serialized_field E cls attrs decorated_fields key) as [[v|e]|].
      * split; [|discriminate]. destruct (mem key rest); [reflexivity|].
        subst acc'. apply dict_get_set_same.
      * contradiction.
      * split; [|discriminate]. subst acc'. destruct (mem key rest); reflexivity.
    + assert (Hsame : dict_get (KStr key) acc' = dict_get (KStr key) acc).
      { destruct (serialized_field E cls attrs decorated_fields k) as [[v|e]|].
        - subst acc'. apply dict_get_set_other. rewrite KStr_eqb. exact Hk.
        - contradiction.
        - subst acc'. reflexivity. }
      rewrite Hsame. split; [reflexivity | exact IHraise].
Qed.

Lemma serialize_to_json_lookup (E : environment) (cls : codec) (c : pyclass)
    (attrs : attributes) (decorated_fields : list string) (d : dict_items) (key : string) :
  serialize_to_json E cls c attrs decorated_fields = Return d ->
  mem key (get_serialized_fields E c) = true ->
  match serialized_field E cls attrs decorated_fields key with
  | Some (Return v) => dict_get (KStr key) d = Some v
  | Some (Raise _) => False
  | None => dict_get (KStr key) d = None
  end.
Proof.
  intros H Hmem.
  destruct (serialize_to_json_loop_lookup E cls attrs decorated_fields _ _ _ H key)
    as [Hget Hraise].
  rewrite Hmem in Hget. specialize (Hraise Hmem).
  destruct (serialized_field E cls attrs decorated_fields key) as [[v|e]|].
  - exact Hget.
  - exact (Hraise e eq_refl).
  - exact Hget.
Qed.

Lemma hardcoded_default_is_excluded (E : environment) (cls : codec) (value : slot)
    (key : string) (attrs : attributes) :
  _value_is_hardcoded_default E cls key value = true ->
  _is_excluded E cls value key attrs = true.
Proof.
  intros H. unfold _is_excluded, base_is_excluded. rewrite H.
  rewrite !orb_true_r. destruct cls; try reflexivity.
  destruct (matches_dag_date value key attrs); [reflexivity|].
  destruct (empty_config value key); reflexivity.
Qed.

(** ** C5: defaults are recognised by identity *)

(** C5. In [serialize_to_json], the value of a serializable field is taken
    for the constructor default exactly when it is the same object as the
    entry of that field in [_CONSTRUCTOR_PARAMS]; such a field is absent from
    the payload.  A field whose value is another object (be it equal to the
    default), is not [None], is not of an excluded type and, for an
    operator, neither the date of its DAG nor an empty configuration, is
    present in the payload. *)
Theorem default_is_elided_by_identity (E : environment) (cls : codec) (c : pyclass)
    (attrs : attributes) (decorated_fields : list string) (d : dict_items) (key : string) :
  serialize_to_json E cls c attrs decorated_fields = Return d ->
  In key (get_serialized_fields E c) ->
  let value := getattr_or_None (VInst c attrs) key in
  (_value_is_hardcoded_default E cls key value = true <->
   exists default, attr_get key (_CONSTRUCTOR_PARAMS E cls) = Some default /\
                   is_ default value = true) /\
  (_value_is_hardcoded_default E cls key value = true -> dict_get (KStr key) d = None) /\
  (_value_is_hardcoded_default E cls key value = false ->
   is_None (snd value) = false ->
   is_excluded_type (snd value) = false ->
   (cls = SerializedBaseOperator ->
    matches_dag_date value key attrs = false /\ empty_config value key = false) ->
   exists v, dict_get (KStr key) d = Some v).
Proof.
  intros Hjson Hin value.
  apply mem_In in Hin.
  pose proof (serialize_to_json_lookup E cls c attrs decorated_fields d key Hjson Hin) as Hget.
  unfold serialized_field in Hget.
  change (getattr_or_None (VInst CDag attrs) key) with value in Hget.
  split; [|split].
  - unfold _value_is_hardcoded_default.
    destruct (attr_get key (_CONSTRUCTOR_PARAMS E cls)) as [default|].
    + split; [intros H; exists default; auto | intros [x [[= <-] H]]; exact H].
    + split; [discriminate | intros [x [Hx _]]; discriminate].
  - intros Hdefault.
    rewrite (hardcoded_default_is_excluded E cls value key attrs Hdefault) in Hget.
    exact Hget.
  - intros Hdefault Hnone Htype Hop.
    assert (Hexcl : _is_excluded E cls value key attrs = false).
    { unfold _is_excluded, base_is_excluded. rewrite Hdefault, Hnone, Htype.
      destruct cls; try reflexivity.
      destruct (Hop eq_refl) as [-> ->]. reflexivity. }
    rewrite Hexcl in Hget.
    destruct (mem key decorated_fields).
    + destruct (_serialize E (snd value)); [eauto | contradiction].
    + destruct (v <- _serialize E (snd value) ;; unwrap v); [eauto | contradiction].
Qed.

Lemma default_is_elided_by_identity_witness :
  is_ Demo.default_owner (getattr_or_None (VInst Demo.notify_class Demo.notify_attrs) "owner")
    = true /\
  dict_get (KStr "owner") Demo.notify_payload = None /\
  py_eq (snd Demo.default_retry_delay)
        (snd (getattr_or_None (VInst Demo.notify_class Demo.notify_attrs) "retry_delay"))
    = true /\
  is_ Demo.default_retry_delay
      (getattr_or_None (VInst Demo.notify_class Demo.notify_attrs) "retry_delay") = false /\
  exists v, dict_get (KStr "retry_delay") Demo.notify_payload = Some v.
Proof.
  assert (H : serialize_to_json Demo.env SerializedBaseOperator Demo.notify_class
                Demo.notify_attrs (_decorated_fields SerializedBaseOperator)
              = Return Demo.notify_payload) by (vm_compute; reflexivity).
  split; [reflexivity|]. split; [|split; [reflexivity|split; [reflexivity|]]].
  - apply (proj1 (proj2 (default_is_elided_by_identity Demo.env SerializedBaseOperator
             Demo.notify_class Demo.notify_attrs _ _ "owner" H
             (or_intror (or_introl eq_refl))))).
    reflexivity.
  - apply (proj2 (proj2 (default_is_elided_by_identity Demo.env SerializedBaseOperator
             Demo.notify_class Demo.notify_attrs _ _ "retry_delay" H
             (or_intror (or_intror (or_intror (or_intror (or_introl eq_refl))))))));
      try reflexivity.
    intros _. split; reflexivity.
Defined.

(** ** C6: the shortcut of [serialize_to_json] *)

(** C6, as the claim states it, fails: [execution_timeout] is not a
    decorated field, its value encodes to a duration envelope, and the payload
    holds the bare number of seconds, not the envelope with its tag. *)
Lemma duration_field_is_stored_without_its_tag :
  serialize_to_json Demo.env SerializedBaseOperator Demo.notify_class Demo.notify_attrs
    (_decorated_fields SerializedBaseOperator) = Return Demo.notify_payload /\
  mem "execution_timeout" (_decorated_fields SerializedBaseOperator) = false /\
  _serialize Demo.env (VTimedelta 90000000)
    = Return (_encode (total_seconds 90000000) TIMEDELTA) /\
  dict_get (KStr "execution_timeout") Demo.notify_payload = Some (total_seconds 90000000) /\
  dict_get (KStr "execution_timeout") Demo.notify_payload
    <> Some (_encode (total_seconds 90000000) TIMEDELTA).
Proof.
  split; [vm_compute; reflexivity|]. split; [reflexivity|].
  split; [vm_compute; reflexivity|]. split; [vm_compute; reflexivity|].
  vm_compute. discriminate.
Qed.

(** C6, amended.  For a serializable field that is not excluded, with [w]
    its encoded value: a decorated field stores [w]; any other field stores
    the bare payload whenever [w] is an envelope, of whatever tag (mapping,
    timestamp, duration, set, tuple, time zone, recurrence rule), and stores
    [w] when [w] is not a dictionary with a [__type] key. *)
Theorem shortcut_unwraps_every_envelope (E : environment) (cls : codec) (c : pyclass)
    (attrs : attributes) (decorated_fields : list string) (d : dict_items)
    (key : string) (w : value) :
  serialize_to_json E cls c attrs decorated_fields = Return d ->
  In key (get_serialized_fields E c) ->
  let value := getattr_or_None (VInst c attrs) key in
  _is_excluded E cls value key attrs = false ->
  _serialize E (snd value) = Return w ->
  (mem key decorated_fields = true -> dict_get (KStr key) d = Some w) /\
  (mem key decorated_fields = false ->
   forall x t, w = _encode x t -> dict_get (KStr key) d = Some x) /\
  (mem key decorated_fields = false ->
   (forall items, w = VDict items -> dict_contains TYPE items = false) ->
   dict_get (KStr key) d = Some w).
Proof.
  intros Hjson Hin value Hexcl Hw.
  apply mem_In in Hin.
  pose proof (serialize_to_json_lookup E cls c attrs decorated_fields d key Hjson Hin) as Hget.
  unfold serialized_field in Hget.
  change (getattr_or_None (VInst CDag attrs) key) with value in Hget.
  rewrite Hexcl, Hw in Hget.
  split; [|split].
  - intros Hdec. rewrite Hdec in Hget. exact Hget.
  - intros Hdec x t ->. rewrite Hdec in Hget. exact Hget.
  - intros Hdec Hplain. rewrite Hdec in Hget. simpl in Hget.
    destruct w; try exact Hget.
    simpl in Hget. rewrite (Hplain items eq_refl) in Hget. exact Hget.
Qed.

Lemma shortcut_unwraps_every_envelope_witness :
  dict_get (KStr "execution_timeout") Demo.notify_payload = Some (total_seconds 90000000) /\
  dict_get (KStr "schedule") Demo.notify_payload = Some (VList [VInt 1; VInt 2; VInt 3]) /\
  dict_get (KStr "executor_config") Demo.notify_payload
    = Some (_encode (VDict [(KStr "cpu", VInt 2)]) DICT) /\
  dict_get (KStr "task_id") Demo.notify_payload = Some (VStr "notify").
Proof.
  assert (H : serialize_to_json Demo.env SerializedBaseOperator Demo.notify_class
                Demo.notify_attrs (_decorated_fields SerializedBaseOperator)
              = Return Demo.notify_payload) by (vm_compute; reflexivity).
  split; [|split; [|split]].
  - apply (proj1 (proj2 (shortcut_unwraps_every_envelope Demo.env SerializedBaseOperator
             Demo.notify_class Demo.notify_attrs _ _ "execution_timeout"
             (_encode (total_seconds 90000000) TIMEDELTA) H
             ltac:(simpl; tauto) eq_refl eq_refl)) eq_refl _ TIMEDELTA eq_refl).
  - apply (proj1 (proj2 (shortcut_unwraps_every_envelope Demo.env SerializedBaseOperator
             Demo.notify_class Demo.notify_attrs _ _ "schedule"
             (_encode (VList [VInt 1; VInt 2; VInt 3]) SET) H
             ltac:(simpl; tauto) eq_refl eq_refl)) eq_refl _ SET eq_refl).
  - apply (proj1 (shortcut_unwraps_every_envelope Demo.env SerializedBaseOperator
             Demo.notify_class Demo.notify_attrs _ _ "executor_config"
             (_encode (VDict [(KStr "cpu", VInt 2)]) DICT) H
             ltac:(simpl; tauto) eq_refl eq_refl) eq_refl).
  - apply (proj2 (proj2 (shortcut_unwraps_every_envelope Demo.env SerializedBaseOperator
             Demo.notify_class Demo.notify_attrs _ _ "task_id"
             (VStr "notify") H
             ltac:(simpl; tauto) eq_refl eq_refl)) eq_refl).
    intros items Hitems. discriminate.
Defined.

(** ** C8: dates inherited from the DAG *)

Lemma date_attr_cases (date_attr : string) :
  In date_attr date_attrs -> date_attr = "start_date" \/ date_attr = "end_date".
Proof. simpl. intuition. Qed.

Lemma inherit_date_spec (dag task task' : attributes) (d : string) :
  inherit_date dag task d = Return task' ->
  (forall name, String.eqb name d = false -> attr_get name task' = attr_get name task) /\
  exists s, attr_get d task = Some s /\
            attr_get d task' = (if is_None (snd s) then attr_get d dag else Some s).
Proof.
  unfold inherit_date, getattr.
  destruct (attr_get d task) as [s|] eqn:Hs; simpl; [|discriminate].
  destruct (is_None (snd s)) eqn:Hnone.
  - destruct (attr_get d dag) as [dd|] eqn:Hdd; simpl; [|discriminate].
    intros [= <-]. split.
    + intros name Hne. apply attr_get_set_other. exact Hne.
    + exists s. rewrite Hnone. split; [reflexivity | apply attr_get_set_same].
  - intros [= <-]. split; [reflexivity|].
    exists s. rewrite Hnone. split; [reflexivity | exact Hs].
Qed.

Lemma link_subdag_spec (dag task task' : attributes) :
  link_subdag dag task = Return task' ->
  forall name, String.eqb name "subdag" = false -> attr_get name task' = attr_get name task.
Proof.
  unfold link_subdag, getattr.
  destruct (attr_get "subdag" task) as [s|]; simpl; [|discriminate].
  destruct (snd s); try discriminate; intros [= <-] name Hne;
    [reflexivity | apply attr_get_set_other; exact Hne].
Qed.

Lemma set_task_dag_spec (dag task task' : attributes) :
  set_task_dag dag task = Return task' ->
  forall name, String.eqb name "_dag" = false -> attr_get name task' = attr_get name task.
Proof.
  unfold set_task_dag. destruct (has_dag task); [discriminate|].
  intros [= <-] name Hne. apply attr_get_set_other. exact Hne.
Qed.

(** The four steps on the task itself: its dates are linked to the DAG's. *)
Lemma task_steps_link_dates (dag task t1 t2 t3 t4 : attributes) :
  set_task_dag dag task = Return t1 ->
  inherit_date dag t1 "start_date" = Return t2 ->
  inherit_date dag t2 "end_date" = Return t3 ->
  link_subdag dag t3 = Return t4 ->
  forall date_attr, In date_attr date_attrs ->
    exists s, attr_get date_attr task = Some s /\
              attr_get date_attr t4 =
                (if is_None (snd s) then attr_get date_attr dag else Some s).
Proof.
  intros H1 H2 H3 H4 date_attr Hin.
  pose proof (set_task_dag_spec _ _ _ H1) as F1.
  destruct (inherit_date_spec _ _ _ _ H2) as [F2 [s2 [G2 G2']]].
  destruct (inherit_date_spec _ _ _ _ H3) as [F3 [s3 [G3 G3']]].
  pose proof (link_subdag_spec _ _ _ H4) as F4.
  destruct (date_attr_cases _ Hin) as [-> | ->].
  - exists s2. rewrite <- (F1 "start_date" eq_refl). split; [exact G2|].
    rewrite (F4 "start_date" eq_refl), (F3 "start_date" eq_refl). exact G2'.
  - exists s3. rewrite <- (F1 "end_date" eq_refl), <- (F2 "end_date" eq_refl).
    split; [exact G3|].
    rewrite (F4 "end_date" eq_refl). exact G3'.
Qed.

Lemma dates_linked_again (dag n n' n'' : attributes) :
  (dates_kept n n' \/ dates_linked dag n n') ->
  (forall date_attr, In date_attr date_attrs ->
     exists s, attr_get date_attr n' = Some s /\
               attr_get date_attr n'' =
                 (if is_None (snd s) then attr_get date_attr dag else Some s)) ->
  dates_linked dag n n''.
Proof.
  intros Hrel Hstep date_attr s Hin Hs.
  destruct (Hstep date_attr Hin) as [s' [Hs' Hs'']].
  destruct Hrel as [Hkept | Hlinked].
  - rewrite (Hkept date_attr Hin), Hs in Hs'. injection Hs' as <-. exact Hs''.
  - rewrite (Hlinked date_attr s Hin Hs) in Hs'.
    destruct (is_None (snd s)) eqn:Hnone.
    + rewrite Hs''. destruct (is_None (snd s')); [reflexivity | symmetry; exact Hs'].
    + injection Hs' as <-. rewrite Hnone in Hs''. exact Hs''.
Qed.

Lemma fold_outcome_raise {A B : Type} (f : A -> B -> outcome A) (l : list B) (e : exn) :
  fold_left (fun acc b => a <- acc ;; f a b) l (Raise e) = Raise e.
Proof. induction l as [|b tl IH]; simpl; [reflexivity | exact IH]. Qed.

(** A loop that stops at the first exception carries an invariant that
    follows the members already visited. *)
Lemma fold_outcome_invariant {A B : Type} (f : A -> B -> outcome A)
    (P : list B -> A -> Prop) :
  (forall done a b a', P done a -> f a b = Return a' -> P (b :: done) a') ->
  forall l done a a',
    P done a ->
    fold_left (fun acc b => a <- acc ;; f a b) l (Return a) = Return a' ->
    P (rev l ++ done) a'.
Proof.
  intros Hstep. induction l as [|b tl IH]; intros done a a' HP Hfold; simpl in *.
  - injection Hfold as <-. exact HP.
  - destruct (f a b) as [a1|e] eqn:Hf.
    + rewrite <- app_assoc. simpl. exact (IH (b :: done) a1 a' (Hstep _ _ _ _ HP Hf) Hfold).
    + rewrite fold_outcome_raise in Hfold. discriminate.
Qed.

Lemma add_upstream_frame (task_dict task_dict' : dict_items) (task_id : value) :
  add_upstream task_dict task_id = Return task_dict' ->
  forall key node',
    dict_get key task_dict' = Some node' ->
    exists node, dict_get key task_dict = Some node /\
      (node' = node \/
       exists c t x, node = VInst c t /\ node' = VInst c (attr_set "_upstream_task_ids" x t)).
Proof.
  unfold add_upstream. destruct (as_key task_id) as [k|]; simpl; [|discriminate].
  destruct (dict_get k task_dict) as [[]|] eqn:Hk; try discriminate.
  unfold getattr. destruct (attr_get "_upstream_task_ids" attrs) as [[a up]|];
    simpl; [|discriminate].
  destruct up; try discriminate. intros [= <-] key node' Hget.
  destruct (dict_key_eqb key k) eqn:Heq.
  - apply dict_key_eqb_eq in Heq. subst key. rewrite dict_get_set_same in Hget.
    injection Hget as <-. exists (VInst c attrs). split; [exact Hk|]. right. eauto.
  - rewrite (dict_get_set_other _ _ _ _ Heq) in Hget. eauto.
Qed.

Lemma upstream_keeps_dates (x : slot) (t : attributes) (date_attr : string) :
  In date_attr date_attrs ->
  attr_get date_attr (attr_set "_upstream_task_ids" x t) = attr_get date_attr t.
Proof.
  intros Hin. apply attr_get_set_other.
  destruct (date_attr_cases _ Hin) as [-> | ->]; reflexivity.
Qed.

Lemma task_followed_upstream (dag : attributes) (orig : value) (c : pyclass)
    (t : attributes) (x : slot) :
  task_followed dag orig (VInst c t) ->
  task_followed dag orig (VInst c (attr_set "_upstream_task_ids" x t)).
Proof.
  intros [Heq | [c0 [n [n' [Horig [Hnode Hdates]]]]]]; right.
  - exists c, t, (attr_set "_upstream_task_ids" x t). repeat split; auto.
    left. intros date_attr Hin. apply upstream_keeps_dates. exact Hin.
  - injection Hnode as -> ->.
    exists c0, n, (attr_set "_upstream_task_ids" x n'). repeat split; auto.
    destruct Hdates as [Hkept | Hlinked]; [left | right].
    + intros date_attr Hin. rewrite upstream_keeps_dates by exact Hin. auto.
    + intros date_attr s Hin Hs. rewrite upstream_keeps_dates by exact Hin. auto.
Qed.

Lemma task_linked_upstream (dag : attributes) (orig : value) (c : pyclass)
    (t : attributes) (x : slot) :
  task_linked dag orig (VInst c t) ->
  task_linked dag orig (VInst c (attr_set "_upstream_task_ids" x t)).
Proof.
  intros [c0 [n [n' [Horig [Hnode Hlinked]]]]]. injection Hnode as -> ->.
  exists c0, n, (attr_set "_upstream_task_ids" x n'). repeat split; auto.
  intros date_attr s Hin Hs. rewrite upstream_keeps_dates by exact Hin. auto.
Qed.

Lemma add_upstream_follows (dag : attributes) (first : dict_items) (done : list dict_key)
    (task_dict task_dict' : dict_items) (task_id : value) :
  tasks_followed dag first done task_dict ->
  add_upstream task_dict task_id = Return task_dict' ->
  tasks_followed dag first done task_dict'.
Proof.
  intros Hinv Hadd key node' Hget.
  destruct (add_upstream_frame _ _ _ Hadd key node' Hget) as [node [Hnode Htouch]].
  destruct (Hinv key node Hnode) as [orig [Horig [Hfollowed Hlinked]]].
  exists orig. split; [exact Horig|].
  destruct Htouch as [-> | [c [t [x [-> ->]]]]]; [auto|].
  split; [apply task_followed_upstream; exact Hfollowed|].
  intros Hin. apply task_linked_upstream. auto.
Qed.

Lemma link_task_follows (dag : attributes) (first : dict_items) (done : list dict_key)
    (task_dict task_dict' : dict_items) (key : dict_key) :
  tasks_followed dag first done task_dict ->
  link_task dag task_dict key = Return task_dict' ->
  tasks_followed dag first (key :: done) task_dict'.
Proof.
  intros Hinv. unfold link_task.
  destruct (dict_get key task_dict) as [[]|] eqn:Hkey; try discriminate.
  destruct (set_task_dag dag attrs) as [t1|] eqn:H1; simpl; [|discriminate].
  destruct (inherit_date dag t1 "start_date") as [t2|] eqn:H2; simpl; [|discriminate].
  destruct (inherit_date dag t2 "end_date") as [t3|] eqn:H3; simpl; [|discriminate].
  destruct (link_subdag dag t3) as [t4|] eqn:H4; simpl; [|discriminate].
  destruct (getattr t4 "_downstream_task_ids") as [downstream|]; simpl; [|discriminate].
  destruct (py_iter (snd downstream)) as [ids|]; simpl; [|discriminate].
  intros Hfold.
  assert (Hstart : tasks_followed dag first (key :: done)
                     (dict_set key (VInst c t4) task_dict)).
  { intros k node Hget.
    destruct (dict_key_eqb k key) eqn:Heq.
    - apply dict_key_eqb_eq in Heq. subst k. rewrite dict_get_set_same in Hget.
      injection Hget as <-.
      destruct (Hinv key _ Hkey) as [orig [Horig [Hfollowed _]]].
      exists orig. split; [exact Horig|].
      assert (Hlinked : task_linked dag orig (VInst c t4)).
      { pose proof (task_steps_link_dates _ _ _ _ _ _ H1 H2 H3 H4) as Hsteps.
        destruct Hfollowed as [Heq | [c0 [n [n' [Ho [Hn Hdates]]]]]].
        - exists c, attrs, t4. repeat split; auto.
          apply (dates_linked_again dag attrs attrs t4); [|exact Hsteps].
          left. intros d _. reflexivity.
        - injection Hn as -> ->. exists c0, n, t4. repeat split; auto.
          apply (dates_linked_again dag n n' t4); assumption. }
      split; [|intros _; exact Hlinked].
      destruct Hlinked as [c0 [n [n' [Ho [Hn Hl]]]]]. right. exists c0, n, n'. auto.
    - rewrite (dict_get_set_other _ _ _ _ Heq) in Hget.
      destruct (Hinv k node Hget) as [orig [Horig [Hfollowed Hlinked]]].
      exists orig. repeat split; auto.
      intros [<- | Hin]; [|auto].
      rewrite dict_key_eqb_refl in Heq. discriminate. }
  pose proof (fold_outcome_invariant add_upstream
                (fun _ td => tasks_followed dag first (key :: done) td)
                (fun _ td tid td' Htd Hadd => add_upstream_follows _ _ _ _ _ _ Htd Hadd)
                ids [] _ _ Hstart Hfold) as Hend.
  exact Hend.
Qed.

Lemma dict_get_in_keys (key : dict_key) (d : dict_items) (v : value) :
  dict_get key d = Some v -> In key (dict_keys d).
Proof.
  induction d as [|[k x] tl IH]; simpl; [discriminate|].
  destruct (dict_key_eqb key k) eqn:Heq.
  - apply dict_key_eqb_eq in Heq. auto.
  - auto.
Qed.

Lemma dates_linked_same_dag (dag dag' n n' : attributes) :
  (forall date_attr, In date_attr date_attrs ->
     attr_get date_attr dag' = attr_get date_attr dag) ->
  dates_linked dag n n' -> dates_linked dag' n n'.
Proof.
  intros Hsame Hlinked date_attr s Hin Hs.
  rewrite (Hlinked date_attr s Hin Hs), (Hsame date_attr Hin). reflexivity.
Qed.

(** The repairs at the end of [deserialize_dag]: every task of the table is
    the task the table held before, with its dates linked to the dates of
    the DAG, which the repairs leave as they were. *)
Lemma link_tasks_spec (dag dag' : attributes) :
  link_tasks dag = Return dag' ->
  exists a first last,
    attr_get "task_dict" dag = Some (a, VDict first) /\
    attr_get "task_dict" dag' = Some (a, VDict last) /\
    (forall date_attr, In date_attr date_attrs ->
       attr_get date_attr dag' = attr_get date_attr dag) /\
    forall key node,
      dict_get key last = Some node ->
      exists orig, dict_get key first = Some orig /\ task_linked dag' orig node.
Proof.
  unfold link_tasks, getattr.
  destruct (attr_get "fileloc" dag) as [fileloc|]; simpl; [|discriminate].
  rewrite (attr_get_set_other "full_filepath" "task_dict" fileloc dag eq_refl).
  destruct (attr_get "task_dict" dag) as [[a tasks]|] eqn:Htasks; simpl; [|discriminate].
  destruct tasks; try discriminate.
  match goal with
  | |- context [fold_left ?f ?l ?a0] =>
      destruct (fold_left f l a0) as [last|] eqn:Hfold; simpl; [|discriminate]
  end.
  intros [= <-].
  set (dagF := attr_set "full_filepath" fileloc dag) in *.
  assert (Hdates : forall date_attr, In date_attr date_attrs ->
            attr_get date_attr (attr_set "task_dict" (a, VDict last) dagF)
              = attr_get date_attr dagF).
  { intros d Hin. apply attr_get_set_other.
    destruct (date_attr_cases _ Hin) as [-> | ->]; reflexivity. }
  assert (HdatesF : forall date_attr, In date_attr date_attrs ->
            attr_get date_attr dagF = attr_get date_attr dag).
  { intros d Hin. apply attr_get_set_other.
    destruct (date_attr_cases _ Hin) as [-> | ->]; reflexivity. }
  exists a, items, last. split; [reflexivity|]. split; [apply attr_get_set_same|].
  split; [intros d Hin; rewrite (Hdates d Hin); exact (HdatesF d Hin)|].
  assert (Hstart : tasks_followed dagF items [] items).
  { intros key node Hget. exists node. split; [exact Hget|]. split; [left; reflexivity|].
    intros []. }
  pose proof (fold_outcome_invariant (link_task dagF)
                (fun done td => tasks_followed dagF items done td)
                (fun done td k td' Htd Hl => link_task_follows _ _ _ _ _ _ Htd Hl)
                (dict_keys items) [] _ _ Hstart Hfold) as Hend.
  intros key node Hget.
  destruct (Hend key node Hget) as [orig [Horig [_ Hlinked]]].
  exists orig. split; [exact Horig|].
  rewrite app_nil_r in Hlinked.
  destruct (Hlinked (proj1 (in_rev _ _) (dict_get_in_keys _ _ _ Horig)))
    as [c [n [n' [Ho [Hn Hl]]]]].
  exists c, n, n'. repeat split; auto.
  apply (dates_linked_same_dag dagF); [|exact Hl].
  intros d Hin. exact (Hdates d Hin).
Qed.

(** *** Fields the payload leaves out *)

Lemma set_missing_to_None_attr (E : environment) (cls : codec) (fields : list string)
    (encoded : dict_items) (k : string) :
  forall obj,
    attr_get k (set_missing_to_None E cls fields encoded obj) = attr_get k obj \/
    attr_get k (set_missing_to_None E cls fields encoded obj) = Some (None, VNone).
Proof.
  unfold set_missing_to_None.
  induction fields as [|f tl IH]; intros obj; simpl; [left; reflexivity|].
  destruct (dict_contains (KStr f) encoded); [apply IH|].
  destruct (attr_get f (_CONSTRUCTOR_PARAMS E cls)); [apply IH|].
  destruct (IH (setattr obj f VNone)) as [H | H]; [|right; exact H].
  rewrite H. unfold setattr.
  destruct (String.eqb k f) eqn:Heq.
  - apply String.eqb_eq in Heq. subst f. right. apply attr_get_set_same.
  - left. apply attr_get_set_other. exact Heq.
Qed.

Lemma set_missing_to_None_sets (E : environment) (cls : codec) (fields : list string)
    (encoded : dict_items) (k : string) :
  dict_contains (KStr k) encoded = false ->
  attr_get k (_CONSTRUCTOR_PARAMS E cls) = None ->
  forall obj,
    mem k fields = true \/ attr_get k obj = Some (None, VNone) ->
    attr_get k (set_missing_to_None E cls fields encoded obj) = Some (None, VNone).
Proof.
  intros Hkey Hparam. unfold set_missing_to_None.
  induction fields as [|f tl IH]; intros obj Hobj; simpl.
  - destruct Hobj as [Hmem | Hobj]; [discriminate | exact Hobj].
  - destruct (String.eqb k f) eqn:Heq.
    + apply String.eqb_eq in Heq. subst f. rewrite Hkey, Hparam.
      apply IH. right. apply attr_get_set_same.
    + assert (Hnext : forall obj', attr_get k obj' = attr_get k obj ->
                mem k tl = true \/ attr_get k obj' = Some (None, VNone)).
      { intros obj' Hsame. destruct Hobj as [Hmem | Hobj].
        - rewrite mem_cons, Heq in Hmem. left. exact Hmem.
        - right. rewrite Hsame. exact Hobj. }
      destruct (dict_contains (KStr f) encoded); [apply IH; auto|].
      destruct (attr_get f (_CONSTRUCTOR_PARAMS E cls)); [apply IH; auto|].
      apply IH. apply Hnext. apply attr_get_set_other. exact Heq.
Qed.

Lemma dict_contains_get (k : dict_key) (d : dict_items) :
  dict_contains k d = false <-> dict_get k d = None.
Proof. unfold dict_contains. destruct (dict_get k d); split; congruence. Qed.

(** Decoding an operator payload that has no entry for a serializable field
    without constructor default leaves that field [None]. *)
Lemma deserialize_operator_missing_field (E : environment) (items : dict_items)
    (node : value) (k : string) :
  fst (deserialize_operator E (VDict items)) = Return node ->
  dict_get (KStr k) items = None ->
  mem k (operator_serialized_fields E) = true ->
  attr_get k (operator_constructor_params E) = None ->
  exists attrs, node = VInst SerializedBaseOperator_class attrs /\
                attr_get k attrs = Some (None, VNone).
Proof.
  intros Hdec Hkey Hfield Hparam.
  cbn [deserialize_operator] in Hdec. unfold deserialize_operator_with in Hdec.
  destruct (task_id <- getitem items "task_id" ;; _) as [op0|]; [|discriminate].
  destruct (decode_operator_fields _ _ E op0 items) as [[op|] items']; [|discriminate].
  simpl in Hdec. injection Hdec as <-.
  eexists. split; [reflexivity|].
  apply set_missing_to_None_sets; auto.
  apply dict_contains_get. exact Hkey.
Qed.

(** *** Where the decoded tasks come from *)

(** Every member of the table [decode_tasks] builds was in the table it
    started from, or is a decoded member of the sequence. *)
Lemma decode_tasks_members (f : value -> decoding) (l : list value) :
  forall d v,
    fst (decode_tasks f d l) = Return v ->
    exists td, v = VDict td /\
      forall key node,
        dict_get key td = Some node ->
        dict_get key d = Some node \/
        exists titems, In (VDict titems) l /\ fst (f (VDict titems)) = Return node.
Proof.
  induction l as [|task tl IH]; intros d v Hdec; simpl in Hdec.
  - injection Hdec as <-. exists d. split; [reflexivity | auto].
  - destruct task; try discriminate.
    destruct (getitem items "task_id") as [task_id|]; [|discriminate].
    destruct (f (VDict items)) as [[op|] task'] eqn:Hf; simpl in Hdec; [|discriminate].
    destruct (as_key task_id) as [key|]; simpl in Hdec; [|discriminate].
    destruct (decode_tasks f (dict_set key op d) tl) as [rs tl'] eqn:Hrest.
    simpl in Hdec.
    destruct (IH (dict_set key op d) v) as [td [-> Htd]]; [rewrite Hrest; exact Hdec|].
    exists td. split; [reflexivity|].
    intros key0 node Hget.
    destruct (Htd key0 node Hget) as [Hset | [titems [Hin Hnode]]].
    + destruct (dict_key_eqb key0 key) eqn:Heq.
      * apply dict_key_eqb_eq in Heq. subst key0. rewrite dict_get_set_same in Hset.
        injection Hset as <-. right. exists items. split; [left; reflexivity|].
        rewrite Hf. reflexivity.
      * rewrite (dict_get_set_other _ _ _ _ Heq) in Hset. auto.
    + right. exists titems. split; [right; exact Hin | exact Hnode].
Qed.

(** The attribute a field of the DAG payload is assigned to. *)
Lemma decode_dag_field_name (f g : value -> decoding) (E : environment)
    (k : string) (v : value) :
  snd (decode_dag_field f g E k v) = if String.eqb k "tasks" then "task_dict" else k.
Proof.
  unfold decode_dag_field.
  destruct (String.eqb k "_downstream_task_ids") eqn:H1.
  - apply String.eqb_eq in H1. subst k. reflexivity.
  - destruct (String.eqb k "tasks").
    + destruct v; try reflexivity;
        destruct (decode_tasks f [] elems); reflexivity.
    + destruct (String.eqb k "timezone"); [reflexivity|].
      destruct (mem k ["retry_delay"; "execution_timeout"]); [reflexivity|].
      destruct (endswith k "_date"); [reflexivity|].
      destruct (mem k (_decorated_fields SerializedDAG)); [|reflexivity].
      destruct (g v); reflexivity.
Qed.

(** What the [tasks] field decodes to. *)
Lemma decode_dag_field_tasks (f g : value -> decoding) (E : environment) (v x : value) :
  fst (fst (decode_dag_field f g E "tasks" v)) = Return x ->
  exists td, x = VDict td /\
    forall key node,
      dict_get key td = Some node ->
      exists titems, In (VDict titems) (payload_members v) /\
                     fst (f (VDict titems)) = Return node.
Proof.
  unfold decode_dag_field. simpl String.eqb. cbv iota.
  assert (Hseq : forall l,
            fst (decode_tasks f [] l) = Return x ->
            exists td, x = VDict td /\
              forall key node,
                dict_get key td = Some node ->
                exists titems, In (VDict titems) l /\ fst (f (VDict titems)) = Return node).
  { intros l Hl. destruct (decode_tasks_members f l [] x Hl) as [td [-> Htd]].
    exists td. split; [reflexivity|]. intros key node Hget.
    destruct (Htd key node Hget) as [Hempty | H]; [discriminate | exact H]. }
  destruct v; simpl;
    try (destruct (decode_tasks f [] elems) eqn:Hd; simpl; intros Hx;
         apply Hseq; rewrite Hd; exact Hx);
    try discriminate.
  - destruct (characters s); [|discriminate]. intros [= <-].
    exists []. split; [reflexivity | discriminate].
  - destruct (map key_value (dict_keys items)); [|discriminate]. intros [= <-].
    exists []. split; [reflexivity | discriminate].
Qed.

(** After the fields of a DAG payload with a [tasks] entry and no
    [task_dict] entry are assigned, the table of tasks is the decoded
    [tasks]. *)
Lemma decode_dag_fields_task_dict (f g : value -> decoding) (E : environment)
    (items : dict_items) (l : dict_items) :
  forall dag dag1,
    fst (decode_dag_fields f g E dag l) = Return dag1 ->
    (forall kv, In kv l -> In kv items) ->
    (forall v, ~ In (KStr "task_dict", v) l) ->
    (exists a td, attr_get "task_dict" dag = Some (a, VDict td) /\
                  tasks_from_payload f items td) \/
    (exists v, In (KStr "tasks", v) l) ->
    exists a td, attr_get "task_dict" dag1 = Some (a, VDict td) /\
                 tasks_from_payload f items td.
Proof.
  induction l as [|[[k|n] v] tl IH]; intros dag dag1 Hdec Hsub Hno Hstart.
  - simpl in Hdec. injection Hdec as <-.
    destruct Hstart as [H | [v []]]. exact H.
  - cbn [decode_dag_fields] in Hdec.
    pose proof (decode_dag_field_name f g E k v) as Hname.
    pose proof (decode_dag_field_tasks f g E v) as Htasks.
    destruct (decode_dag_field f g E k v) as [[r v'] k'] eqn:Hfield.
    simpl in Hname.
    destruct r as [x|]; [|discriminate].
    fold (decode_dag_fields f g E) in Hdec.
    destruct (decode_dag_fields f g E (setattr dag k' x) tl) as [rs tl'] eqn:Hrest.
    simpl in Hdec.
    apply (IH (setattr dag k' x) dag1).
    + rewrite Hrest. exact Hdec.
    + intros kv Hin. apply Hsub. right. exact Hin.
    + intros v0 Hin. apply (Hno v0). right. exact Hin.
    + destruct (String.eqb k "tasks") eqn:Hk.
      * apply String.eqb_eq in Hk. subst k k'. left.
        rewrite Hfield in Htasks. destruct (Htasks x eq_refl) as [td [-> Htd]].
        exists None, td. split; [apply attr_get_set_same|].
        intros key node Hget. destruct (Htd key node Hget) as [titems [Hin Hnode]].
        exists v, titems. split; [apply Hsub; left; reflexivity | auto].
      * subst k'.
        assert (Hother : String.eqb "task_dict" k = false).
        { destruct (String.eqb "task_dict" k) eqn:Heq; [|reflexivity].
          apply String.eqb_eq in Heq. subst k. exfalso. apply (Hno v). left. reflexivity. }
        destruct Hstart as [[a [td [Hattr Htd]]] | [v0 [Hhead | Hin]]].
        -- left. exists a, td. split; [|exact Htd].
           unfold setattr. rewrite (attr_get_set_other _ _ _ _ Hother). exact Hattr.
        -- injection Hhead as -> _. rewrite String.eqb_refl in Hk. discriminate.
        -- right. exists v0. exact Hin.
  - simpl in Hdec. discriminate.
Qed.

(** *** Encoding: the date of the DAG is not stored again *)

Lemma operator_date_of_dag_is_omitted (E : environment) (name module : string)
    (attrs : attributes) (d : dict_items) (date_attr : string) (value dag_date : slot)
    (a : addr) (c : pyclass) (dag_attrs : attributes) :
  serialize_operator E name module attrs = Return (VDict d) ->
  In date_attr date_attrs ->
  attr_get date_attr attrs = Some value ->
  is_None (snd value) = false ->
  attr_get "_dag" attrs = Some (a, VInst c dag_attrs) ->
  attr_get date_attr dag_attrs = Some dag_date ->
  is_ value dag_date || py_eq (snd value) (snd dag_date) = true ->
  dict_get (KStr date_attr) d = None.
Proof.
  intros Hser Hin Hvalue Hnone Hdag Hdate Hsame.
  unfold serialize_operator, serialize_operator_with in Hser.
  destruct (serialize_to_json_with (_serialize E) E SerializedBaseOperator
              (COp name module) attrs (_decorated_fields SerializedBaseOperator))
    as [d0|] eqn:Hjson; simpl in Hser; [|discriminate].
  injection Hser as <-.
  assert (Hexcluded : _is_excluded E SerializedBaseOperator value date_attr attrs = true).
  { assert (Hd : getattr_or_None (VInst CDag attrs) "_dag" = (a, VInst c dag_attrs))
      by (unfold getattr_or_None; rewrite Hdag; reflexivity).
    assert (Hdd : getattr_or_None (VInst c dag_attrs) date_attr = dag_date)
      by (unfold getattr_or_None; rewrite Hdate; reflexivity).
    unfold _is_excluded, matches_dag_date, has_dag.
    rewrite Hd. cbn [snd]. rewrite !Hdd, Hsame, Hnone.
    destruct (date_attr_cases _ Hin) as [-> | ->]; reflexivity. }
  destruct (serialize_to_json_loop_lookup E SerializedBaseOperator attrs _ _ _ _ Hjson date_attr)
    as [Hget _].
  unfold serialized_field, getattr_or_None in Hget. rewrite Hvalue, Hexcluded in Hget.
  rewrite !dict_get_set_other.
  - rewrite Hget. destruct (mem date_attr _); reflexivity.
  - destruct (date_attr_cases _ Hin) as [-> | ->]; reflexivity.
  - destruct (date_attr_cases _ Hin) as [-> | ->]; reflexivity.
Qed.

Lemma deserialize_dag_unfold (E : environment) (encoded_dag : value) :
  deserialize_dag E encoded_dag =
  deserialize_dag_with (deserialize_operator E) (_deserialize E) E encoded_dag.
Proof. destruct encoded_dag; reflexivity. Qed.



(** ** C4: the round trip *)

(** *** Seconds and microseconds *)

Lemma round_half_even_integer (q : Q) (n : Z) :
  (q == inject_Z n)%Q -> round_half_even q = n.
Proof.
  intros Hq. unfold round_half_even.
  assert (Hfloor : Qfloor q = n) by (rewrite Hq; apply Qfloor_Z).
  rewrite Hfloor.
  assert (Hcmp : ((q - inject_Z n) ?= (1 # 2))%Q = Lt).
  { rewrite Hq. apply Qlt_alt. setoid_replace (inject_Z n - inject_Z n)%Q with 0%Q by ring.
    reflexivity. }
  rewrite Hcmp. reflexivity.
Qed.

Lemma micro_of_seconds_of_micro (us : Z) : micro_of_seconds (seconds_of_micro us) = us.
Proof.
  unfold micro_of_seconds, seconds_of_micro. apply round_half_even_integer.
  field. discriminate.
Qed.

Lemma Qeq_bool_same (q : Q) : Qeq_bool q q = true.
Proof. apply Qeq_bool_iff. reflexivity. Qed.

Lemma timedelta_round_trip (us : Z) :
  timedelta_min <= us <= timedelta_max ->
  timedelta_of_seconds (total_seconds us) = Return (VTimedelta us).
Proof.
  intros [Hmin Hmax]. unfold timedelta_of_seconds, total_seconds. simpl.
  rewrite micro_of_seconds_of_micro.
  apply Z.leb_le in Hmin, Hmax. rewrite Hmin, Hmax. reflexivity.
Qed.

Lemma datetime_round_trip (us : Z) :
  datetime_min <= us <= datetime_max ->
  from_timestamp (timestamp us) = Return (VDatetime us "UTC").
Proof.
  intros [Hmin Hmax]. unfold from_timestamp, timestamp. simpl.
  rewrite micro_of_seconds_of_micro.
  apply Z.leb_le in Hmin, Hmax. rewrite Hmin, Hmax. reflexivity.
Qed.

(** *** Decoding an envelope, tag by tag *)

Lemma deserialize_envelope (E : environment) (x : value) (t : DagAttributeTypes) :
  fst (_deserialize E (_encode x t)) =
  match t with
  | DICT => match x with
            | VDict d => fst (traverse_items (_deserialize E) d)
            | _ => Raise (AttributeError "items")
            end
  | DAG => fst (deserialize_dag E x)
  | OP => fst (deserialize_operator E x)
  | DATETIME => from_timestamp x
  | TIMEDELTA => timedelta_of_seconds x
  | TIMEZONE => timezone E x
  | RELATIVEDELTA => fst (deserialize_relativedelta x)
  | SET => fst (traverse_iterable_set (_deserialize E) x)
  | TUPLE => decoded <- fst (traverse_iterable (_deserialize E) x) ;; Return (VTuple decoded)
  end.
Proof.
  destruct t; cbn [_deserialize _encode with_item VAR TYPE dict_key_eqb String.eqb
                   Ascii.eqb Bool.eqb dict_get];
    simpl py_eq; cbv iota.
  - destruct x; try reflexivity. destruct (traverse_items (_deserialize E) items); reflexivity.
  - destruct (deserialize_dag E x); reflexivity.
  - destruct (deserialize_operator E x); reflexivity.
  - reflexivity.
  - reflexivity.
  - reflexivity.
  - destruct (deserialize_relativedelta x); reflexivity.
  - destruct (traverse_iterable_set (_deserialize E) x); reflexivity.
  - destruct (traverse_iterable (_deserialize E) x); reflexivity.
Qed.

(** *** Comprehensions over members that all return *)

Lemma comprehension_Forall2 {A B : Type} (f : A -> outcome B) (l : list A) (ws : list B) :
  Forall2 (fun x w => f x = Return w) l ws -> comprehension f l = Return ws.
Proof.
  induction 1 as [|x w l ws Hx _ IH]; simpl; [reflexivity|].
  rewrite Hx, IH. reflexivity.
Qed.

Lemma traverse_Forall2 (f : value -> decoding) (ws ns : list value) :
  Forall2 (fun w n => fst (f w) = Return n) ws ns -> fst (traverse f ws) = Return ns.
Proof.
  induction 1 as [|w n ws ns Hw _ IH]; simpl; [reflexivity|].
  destruct (f w) as [r w']. simpl in Hw. subst r.
  destruct (traverse f ws) as [rs ws']. simpl in *. rewrite IH. reflexivity.
Qed.

Lemma traverse_set_Forall2 (f : value -> decoding) (ws ns : list value) :
  Forall2 (fun w n => fst (f w) = Return n) ws ns ->
  forall acc, fst (traverse_set_from f acc ws) = set_add_all ns acc.
Proof.
  induction 1 as [|w n ws ns Hw _ IH]; intros acc; simpl; [reflexivity|].
  destruct (f w) as [r w']. simpl in Hw. subst r.
  destruct (hashable n); [|reflexivity].
  specialize (IH (set_add n acc)).
  destruct (traverse_set_from f (set_add n acc) ws) as [rs ws']. exact IH.
Qed.

(** Members that each have an encoding with a known decoding. *)
Lemma members_encoded {A B : Type} (P : A -> B -> Prop) (l : list A) :
  Forall (fun x => exists w, P x w) l -> exists ws, Forall2 P l ws.
Proof.
  induction 1 as [|x l [w Hw] _ [ws Hws]].
  - exists []. constructor.
  - exists (w :: ws). constructor; assumption.
Qed.

Lemma Forall2_map_of_left {A B C : Type} (P : A -> B -> Prop) (Q : B -> C -> Prop)
    (g : A -> C) (l : list A) (ws : list B) :
  Forall2 P l ws -> (forall x w, P x w -> Q w (g x)) -> Forall2 Q ws (map g l).
Proof.
  intros H HPQ. induction H; simpl; constructor; auto.
Qed.

(** *** Dictionaries with each key once *)

Lemma dict_set_fresh (k : dict_key) (v : value) (d : dict_items) :
  dict_get k d = None -> dict_set k v d = d ++ [(k, v)].
Proof.
  induction d as [|[k' v'] tl IH]; simpl; [reflexivity|].
  destruct (dict_key_eqb k k'); [discriminate|].
  intros H. rewrite (IH H). reflexivity.
Qed.

Lemma dict_get_app (k : dict_key) (d d' : dict_items) :
  dict_get k (d ++ d') =
  match dict_get k d with
  | Some v => Some v
  | None => dict_get k d'
  end.
Proof.
  induction d as [|[k' v'] tl IH]; simpl; [reflexivity|].
  destruct (dict_key_eqb k k'); [reflexivity | exact IH].
Qed.

Lemma dict_get_fresh_after (k k2 : dict_key) (v : value) (acc : dict_items) :
  dict_get k2 acc = None -> k2 <> k -> dict_get k2 (acc ++ [(k, v)]) = None.
Proof.
  intros Hacc Hne. rewrite dict_get_app, Hacc. simpl.
  destruct (dict_key_eqb k2 k) eqn:Heq; [|reflexivity].
  apply dict_key_eqb_eq in Heq. contradiction.
Qed.

Lemma dict_comprehension_entries (f : value -> outcome value) (items ws : dict_items) :
  Forall2 (fun kv kw => fst kw = fst kv /\ f (snd kv) = Return (snd kw)) items ws ->
  Forall (fun kv => exists s, fst kv = KStr s) items ->
  NoDup (dict_keys items) ->
  forall acc,
    (forall k, In k (dict_keys items) -> dict_get k acc = None) ->
    dict_comprehension_from (fun k => KStr (str_key k)) f items acc = Return (acc ++ ws).
Proof.
  induction 1 as [|[k v] [k' w] items ws [Hk Hf] _ IH];
    intros Htext Hnodup acc Hfresh; simpl.
  - rewrite app_nil_r. reflexivity.
  - simpl in Hk, Hf. subst k'. rewrite Hf. simpl.
    inversion Htext as [|? ? [s Hs] Htext']; subst. simpl in Hs. subst k. simpl str_key.
    inversion Hnodup as [|? ? Hnotin Hnodup']; subst.
    rewrite dict_set_fresh by (apply Hfresh; left; reflexivity).
    rewrite (IH Htext' Hnodup').
    + rewrite <- app_assoc. reflexivity.
    + intros k2 Hin. apply dict_get_fresh_after.
      * apply Hfresh. right. exact Hin.
      * intros ->. contradiction.
Qed.

Lemma traverse_items_entries (f : value -> decoding) (ws ns : dict_items) :
  Forall2 (fun kw kn => fst kn = fst kw /\ fst (f (snd kw)) = Return (snd kn)) ws ns ->
  NoDup (dict_keys ws) ->
  forall acc,
    (forall k, In k (dict_keys ws) -> dict_get k acc = None) ->
    fst (traverse_items_from f acc ws) = Return (VDict (acc ++ ns)).
Proof.
  induction 1 as [|[k w] [k' n] ws ns [Hk Hf] _ IH]; intros Hnodup acc Hfresh; simpl.
  - rewrite app_nil_r. reflexivity.
  - simpl in Hk, Hf. subst k'. destruct (f w) as [r w']. simpl in Hf. subst r.
    inversion Hnodup as [|? ? Hnotin Hnodup']; subst.
    rewrite dict_set_fresh by (apply Hfresh; left; reflexivity).
    specialize (IH Hnodup' (acc ++ [(k, n)])).
    destruct (traverse_items_from f (acc ++ [(k, n)]) ws) as [rs ws'].
    simpl in *. rewrite IH.
    + rewrite <- app_assoc. reflexivity.
    + intros k2 Hin. apply dict_get_fresh_after.
      * apply Hfresh. right. exact Hin.
      * intros ->. contradiction.
Qed.

Lemma Forall2_same_keys (P : dict_key * value -> dict_key * value -> Prop)
    (items ws : dict_items) :
  Forall2 P items ws -> (forall kv kw, P kv kw -> fst kw = fst kv) ->
  dict_keys ws = dict_keys items.
Proof.
  intros H Hk. induction H; simpl; [reflexivity|].
  rewrite IHForall2, (Hk _ _ H). reflexivity.
Qed.

(** *** Recurrence rules *)

Lemma dict_get_absent (k : dict_key) (d : dict_items) :
  ~ In k (dict_keys d) -> dict_get k d = None.
Proof.
  induction d as [|[k' v] tl IH]; simpl; [reflexivity|].
  intros Hnotin. destruct (dict_key_eqb k k') eqn:Heq.
  - apply dict_key_eqb_eq in Heq. subst. exfalso. apply Hnotin. left. reflexivity.
  - apply IH. intros Hin. apply Hnotin. right. exact Hin.
Qed.

Lemma dict_get_filter (p : value -> bool) (k : dict_key) (l : dict_items) :
  NoDup (dict_keys l) ->
  dict_get k (filter (fun kv => p (snd kv)) l) =
  match dict_get k l with
  | Some v => if p v then Some v else None
  | None => None
  end.
Proof.
  induction l as [|[k' v] tl IH]; simpl; [reflexivity|].
  intros Hnodup. inversion Hnodup as [|? ? Hnotin Hnodup']; subst.
  destruct (p v) eqn:Hp; simpl.
  - destruct (dict_key_eqb k k'); [rewrite Hp; reflexivity | exact (IH Hnodup')].
  - destruct (dict_key_eqb k k') eqn:Heq.
    + apply dict_key_eqb_eq in Heq. subst k'. rewrite Hp, (IH Hnodup').
      rewrite (dict_get_absent _ _ Hnotin). reflexivity.
    + exact (IH Hnodup').
Qed.

Lemma relativedelta_dict_keys (rd : relativedelta) : NoDup (dict_keys (relativedelta_dict rd)).
Proof.
  unfold relativedelta_dict, dict_keys. simpl map.
  repeat (constructor; [simpl; intuition discriminate|]). constructor.
Qed.

(** The entries of the payload other than the weekday. *)
Lemma payload_get (rd : relativedelta) (name : string) :
  String.eqb name "weekday" = false ->
  dict_get (KStr name) (relativedelta_payload rd) =
  truthy_entry (dict_get (KStr name) (relativedelta_dict rd)).
Proof.
  intros Hname. unfold relativedelta_payload.
  assert (H : dict_get (KStr name) (filter (fun kv => py_truthy (snd kv)) (relativedelta_dict rd))
              = truthy_entry (dict_get (KStr name) (relativedelta_dict rd))).
  { apply dict_get_filter. apply relativedelta_dict_keys. }
  destruct (rd_weekday rd) as [[wd [n|]]|]; [destruct (n =? 0)| |];
    try rewrite dict_get_set_other by exact Hname; exact H.
Qed.

Lemma payload_get_weekday (rd : relativedelta) :
  dict_get (KStr "weekday") (relativedelta_payload rd) =
  match rd_weekday rd with
  | Some (wd, Some n) => Some (VList (if n =? 0 then [VInt wd] else [VInt wd; VInt n]))
  | Some (wd, None) => Some (VList [VInt wd])
  | None => None
  end.
Proof.
  unfold relativedelta_payload.
  destruct (rd_weekday rd) as [[wd [n|]]|] eqn:Hw.
  - destruct (n =? 0); apply dict_get_set_same.
  - apply dict_get_set_same.
  - rewrite dict_get_filter by apply relativedelta_dict_keys.
    unfold relativedelta_dict. cbn [dict_get dict_key_eqb String.eqb Ascii.eqb Bool.eqb].
    rewrite Hw. reflexivity.
Qed.

Lemma forallb_dict_set (q : dict_key * value -> bool) (k : dict_key) (v : value)
    (d : dict_items) :
  (forall k' v1 v2, q (k', v1) = q (k', v2)) ->
  q (k, v) = true -> forallb q d = true -> forallb q (dict_set k v d) = true.
Proof.
  intros Hq Hk. induction d as [|[k' v'] tl IH]; simpl.
  - intros _. rewrite Hk. reflexivity.
  - intros H. apply andb_prop in H. destruct H as [H1 H2].
    destruct (dict_key_eqb k k'); simpl.
    + rewrite (Hq k' v v'), H1, H2. reflexivity.
    + rewrite H1, (IH H2). reflexivity.
Qed.

Lemma forallb_filter {A : Type} (q p : A -> bool) (l : list A) :
  forallb q l = true -> forallb q (filter p l) = true.
Proof.
  induction l as [|x tl IH]; simpl; [reflexivity|].
  intros H. apply andb_prop in H. destruct H as [H1 H2].
  destruct (p x); simpl; [rewrite H1|]; auto.
Qed.

Lemma payload_keywords (rd : relativedelta) :
  forallb known_keyword (relativedelta_payload rd) = true.
Proof.
  assert (H : forallb known_keyword
                (filter (fun kv => py_truthy (snd kv)) (relativedelta_dict rd)) = true)
    by (apply forallb_filter; reflexivity).
  unfold relativedelta_payload.
  destruct (rd_weekday rd) as [[wd [n|]]|]; [destruct (n =? 0)| |];
    try (apply forallb_dict_set; [reflexivity | reflexivity | exact H]); exact H.
Qed.

Lemma relative_keyword (n : Z) :
  as_int (match truthy_entry (Some (VInt n)) with Some v => v | None => VInt 0 end) = Return n.
Proof.
  simpl. destruct (n =? 0) eqn:H; simpl; [|reflexivity].
  apply Z.eqb_eq in H. subst. reflexivity.
Qed.

Lemma absolute_keyword (o : option Z) :
  o <> Some 0 ->
  as_optional_int (match truthy_entry (Some (option_value o)) with Some v => v | None => VNone end)
  = Return o.
Proof.
  destruct o as [n|]; simpl; [|reflexivity].
  intros Hn. destruct (n =? 0) eqn:H; simpl; [|reflexivity].
  apply Z.eqb_eq in H. subst. contradiction.
Qed.

(** The constructor, on keywords that are the truthy components of a
    supported rule and its weekday, builds that rule. *)
Lemma relativedelta_new_payload (rd : relativedelta) (d : dict_items) :
  rd_supported rd ->
  forallb known_keyword d = true ->
  (forall name, String.eqb name "weekday" = false ->
     dict_get (KStr name) d = truthy_entry (dict_get (KStr name) (relativedelta_dict rd))) ->
  dict_get (KStr "weekday") d =
    match rd_weekday rd with
    | Some (wd, n) => Some (VWeekday wd n)
    | None => None
    end ->
  relativedelta_new (VDict d) = Return (VRelativedelta rd).
Proof.
  intros [Hfix [Hwd [Hy [Hmo [Hd [Hh [Hmi [Hs Hus]]]]]]]] Hkeys Hget Hweekday.
  unfold relativedelta_new.
  change (fun kv : dict_key * value => match fst kv with
            | KStr name => existsb (String.eqb name) rd_parameters
            | KInt _ => false end) with known_keyword.
  rewrite Hkeys. unfold keyword.
  rewrite !Hget by reflexivity. rewrite Hweekday.
  cbn [relativedelta_dict dict_get dict_key_eqb String.eqb Ascii.eqb Bool.eqb].
  rewrite !relative_keyword. cbn [bind].
  rewrite (absolute_keyword _ Hy), (absolute_keyword _ Hmo), (absolute_keyword _ Hd),
    (absolute_keyword _ Hh), (absolute_keyword _ Hmi), (absolute_keyword _ Hs),
    (absolute_keyword _ Hus). cbn [bind truthy_entry as_int unenum].
  replace (rd_days rd + 0 * 7) with (rd_days rd) by lia.
  destruct rd. cbn [rd_weekday rd_years rd_months rd_days rd_leapdays rd_hours rd_minutes
                    rd_seconds rd_microseconds rd_year rd_month rd_day rd_hour rd_minute
                    rd_second rd_microsecond] in *.
  destruct rd_weekday0 as [[wd n]|]; cbn [as_weekday bind]; rewrite Hfix; reflexivity.
Qed.

Lemma relativedelta_round_trip (rd : relativedelta) :
  rd_supported rd ->
  fst (deserialize_relativedelta (VDict (relativedelta_payload rd)))
    = Return (VRelativedelta rd).
Proof.
  intros Hrd. unfold deserialize_relativedelta. rewrite payload_get_weekday.
  assert (Hset : forall wd n,
            rd_weekday rd = Some (wd, n) ->
            relativedelta_new
              (VDict (dict_set (KStr "weekday") (VWeekday wd n) (relativedelta_payload rd)))
            = Return (VRelativedelta rd)).
  { intros wd n Hw. apply relativedelta_new_payload.
    - exact Hrd.
    - apply forallb_dict_set; [reflexivity | reflexivity | apply payload_keywords].
    - intros name Hname. rewrite dict_get_set_other by exact Hname.
      apply payload_get. exact Hname.
    - rewrite dict_get_set_same, Hw. reflexivity. }
  destruct (rd_weekday rd) as [[wd [n|]]|] eqn:Hw.
  - assert (Hn : (n =? 0) = false).
    { destruct Hrd as [_ [Hwd _]]. rewrite Hw in Hwd. apply Z.eqb_neq. exact Hwd. }
    rewrite Hn. cbn [py_iter bind weekday_new]. rewrite Hn. cbn [fst].
    apply Hset. reflexivity.
  - cbn [py_iter bind weekday_new fst]. apply Hset. reflexivity.
  - cbn [fst]. apply relativedelta_new_payload.
    + exact Hrd.
    + apply payload_keywords.
    + intros name Hname. apply payload_get. exact Hname.
    + rewrite payload_get_weekday, Hw. reflexivity.
Qed.

(** *** Equality and the value that comes back *)

Lemma hashable_normal (a : value) : hashable (normal a) = hashable a.
Proof.
  induction a using value_ind; try reflexivity.
  - destruct p; reflexivity.
  - simpl. induction H as [|x l Hx _ IH]; simpl; [reflexivity|].
    rewrite Hx, IH. reflexivity.
Qed.

Lemma unenum_scalar (p : scalar) : unenum (scalar_value p) = scalar_value p.
Proof. destruct p; reflexivity. Qed.

Lemma scalar_eq_normal (a b : value) :
  _is_primitive a = true ->
  scalar_eq (unenum a) (unenum (normal b)) = scalar_eq (unenum a) (unenum b).
Proof.
  intros Ha.
  destruct b; try reflexivity;
    try (simpl normal; rewrite unenum_scalar; reflexivity);
    destruct a; try discriminate; try reflexivity;
    destruct payload; reflexivity.
Qed.

Lemma sequence_eq_normal (l : list value) :
  Forall (fun x => forall y, py_eq (normal x) (normal y) = py_eq x y) l ->
  forall m, sequence_eq py_eq (map normal l) (map normal m) = sequence_eq py_eq l m.
Proof.
  induction 1 as [|x l Hx _ IH]; intros [|y m]; simpl; try reflexivity.
  rewrite Hx, IH. reflexivity.
Qed.

(** Between hashable values, equality does not see the difference between a
    value and the value that comes back for it. *)
Lemma py_eq_normal (a : value) :
  hashable a = true -> forall y, py_eq (normal a) (normal y) = py_eq a y.
Proof.
  induction a as [ | | | | |p| | | |l H| | | | | | | ] using value_ind;
    intros Hhash y; try discriminate;
    try exact (scalar_eq_normal _ y eq_refl);
    try (destruct y; try reflexivity; destruct payload; reflexivity);
    try (destruct y; reflexivity).
  - simpl normal.
    assert (Hp : py_eq (scalar_value p) (normal y)
                 = scalar_eq (unenum (VEnum p)) (unenum (normal y)))
      by (destruct p; reflexivity).
    rewrite Hp. exact (scalar_eq_normal (VEnum p) y eq_refl).
  - destruct y; try reflexivity; [destruct payload; reflexivity|].
    simpl. apply sequence_eq_normal.
    simpl in Hhash. rewrite forallb_forall in Hhash. rewrite Forall_forall in *.
    intros x Hin. exact (H x Hin (Hhash x Hin)).
Qed.

Lemma set_add_normal (x : value) (acc : list value) :
  forallb hashable acc = true ->
  set_add (normal x) (map normal acc) = map normal (set_add x acc).
Proof.
  intros Hacc. unfold set_add.
  assert (Hsame : existsb (fun y => py_eq y (normal x)) (map normal acc)
                  = existsb (fun y => py_eq y x) acc).
  { induction acc as [|y tl IH]; simpl; [reflexivity|].
    simpl in Hacc. apply andb_prop in Hacc. destruct Hacc as [Hy Htl].
    rewrite (py_eq_normal y Hy x), (IH Htl). reflexivity. }
  rewrite Hsame. destruct (existsb (fun y => py_eq y x) acc); [reflexivity|].
  rewrite map_app. reflexivity.
Qed.

Lemma set_add_hashable (x : value) (acc : list value) :
  hashable x = true -> forallb hashable acc = true ->
  forallb hashable (set_add x acc) = true.
Proof.
  intros Hx Hacc. unfold set_add.
  destruct (existsb (fun y => py_eq y x) acc); [exact Hacc|].
  rewrite forallb_app, Hacc. simpl. rewrite Hx. reflexivity.
Qed.

(** Building a set from the values that come back gives the set that comes
    back. *)
Lemma set_add_all_normal (l : list value) :
  forall acc v,
    forallb hashable acc = true ->
    set_add_all l acc = Return v ->
    set_add_all (map normal l) (map normal acc) = Return (normal v).
Proof.
  induction l as [|x tl IH]; intros acc v Hacc Hset; simpl in *.
  - injection Hset as <-. reflexivity.
  - rewrite hashable_normal. destruct (hashable x) eqn:Hx; [|discriminate].
    rewrite set_add_normal by exact Hacc.
    apply IH; [apply set_add_hashable; assumption | exact Hset].
Qed.

Lemma option_Z_eqb_same (o : option Z) : option_Z_eqb o o = true.
Proof. destruct o; simpl; [apply Z.eqb_refl | reflexivity]. Qed.

Lemma relativedelta_eqb_same (rd : relativedelta) : relativedelta_eqb rd rd = true.
Proof.
  unfold relativedelta_eqb. rewrite !Z.eqb_refl, !option_Z_eqb_same.
  destruct (rd_weekday rd) as [[wd n]|]; [|reflexivity].
  rewrite Z.eqb_refl, option_Z_eqb_same. reflexivity.
Qed.

Lemma dict_get_member (k : dict_key) (v : value) (items : dict_items) :
  NoDup (dict_keys items) -> In (k, v) items -> dict_get k items = Some v.
Proof.
  induction items as [|[k' v'] tl IH]; simpl; [contradiction|].
  intros Hnodup [Heq | Hin]; inversion Hnodup as [|? ? Hnotin Hnodup']; subst.
  - injection Heq as -> ->. rewrite dict_key_eqb_refl. reflexivity.
  - destruct (dict_key_eqb k k') eqn:Hk.
    + apply dict_key_eqb_eq in Hk. subst k'. exfalso. apply Hnotin.
      apply (in_map fst) in Hin. exact Hin.
    + exact (IH Hnodup' Hin).
Qed.

Lemma supported_Dict_inv (E : environment) (items : dict_items) :
  supported E (VDict items) ->
  Forall (fun kv => exists s, fst kv = KStr s) items /\
  NoDup (dict_keys items) /\
  Forall (fun kv => supported E (snd kv)) items.
Proof. inversion 1; auto. Qed.

Lemma supported_List_inv (E : environment) (l : list value) :
  supported E (VList l) -> Forall (supported E) l.
Proof. inversion 1; auto. Qed.

Lemma supported_Tuple_inv (E : environment) (l : list value) :
  supported E (VTuple l) -> Forall (supported E) l.
Proof. inversion 1; auto. Qed.

Lemma supported_Set_inv (E : environment) (l : list value) :
  supported E (VSet l) -> Forall (supported E) l /\ set_of_list l = Return (VSet l).
Proof. inversion 1; auto. Qed.

Lemma sequence_eq_members (l : list value) :
  Forall (fun x => py_eq (normal x) x = true) l ->
  sequence_eq py_eq (map normal l) l = true.
Proof.
  induction 1 as [|x l Hx _ IH]; simpl; [reflexivity|].
  rewrite Hx, IH. reflexivity.
Qed.

Lemma Forall_modus_ponens {A : Type} (P Q : A -> Prop) (l : list A) :
  Forall (fun x => P x -> Q x) l -> Forall P l -> Forall Q l.
Proof.
  intros H HP. rewrite Forall_forall in *. auto.
Qed.

(** What comes back is equal, in Python's sense, to what was encoded. *)
Lemma normal_is_equal (E : environment) (v : value) :
  supported E v -> py_eq (normal v) v = true.
Proof.
  induction v as [ |b|n|q|s|p|items IH|l IH|l IH|l IH|us tz|us|name|rd|wd n|o|c attrs IH]
    using value_ind; intros Hsup; simpl.
  - reflexivity.
  - apply Qeq_bool_same.
  - apply Qeq_bool_same.
  - apply Qeq_bool_same.
  - apply String.eqb_refl.
  - destruct p; simpl; [apply Qeq_bool_same | apply Qeq_bool_same | apply String.eqb_refl].
  - destruct (supported_Dict_inv _ _ Hsup) as [_ [Hnodup Hvalues]].
    rewrite length_map, Nat.eqb_refl. simpl.
    rewrite forallb_forall. intros [k w] Hin. apply in_map_iff in Hin.
    destruct Hin as [[k' v] [Heq Hin]]. simpl in Heq. injection Heq as <- <-.
    unfold entry_in. simpl. rewrite (dict_get_member k' v items) by assumption.
    rewrite Forall_forall in *. exact (IH (k', v) Hin (Hvalues (k', v) Hin)).
  - apply sequence_eq_members.
    exact (Forall_modus_ponens _ _ _ IH (supported_List_inv _ _ Hsup)).
  - destruct (supported_Set_inv _ _ Hsup) as [Hmembers _].
    pose proof (Forall_modus_ponens _ _ _ IH Hmembers) as Heq.
    rewrite Forall_forall in Heq. apply andb_true_intro. split.
    + rewrite forallb_forall. intros x Hin. apply in_map_iff in Hin.
      destruct Hin as [y [<- Hin]]. rewrite existsb_exists. exists y. auto.
    + rewrite forallb_forall. intros y Hin. rewrite existsb_exists.
      exists (normal y). split; [apply in_map; exact Hin | auto].
  - apply sequence_eq_members.
    exact (Forall_modus_ponens _ _ _ IH (supported_Tuple_inv _ _ Hsup)).
  - apply Z.eqb_refl.
  - apply Z.eqb_refl.
  - apply String.eqb_refl.
  - apply relativedelta_eqb_same.
  - inversion Hsup.
  - inversion Hsup.
  - inversion Hsup.
Qed.

(** *** Encoding then decoding *)

Lemma round_trip_normal (E : environment) (v : value) :
  supported E v ->
  exists w, _serialize E v = Return w /\ fst (_deserialize E w) = Return (normal v).
Proof.
  induction v as [ |b|n|q|s|p|items IH|l IH|l IH|l IH|us tz|us|name|rd|wd n|o|c attrs IH]
    using value_ind; intros Hsup.
  - exists VNone. split; reflexivity.
  - exists (VBool b). split; reflexivity.
  - exists (VInt n). split; reflexivity.
  - exists (VFloat q). split; reflexivity.
  - exists (VStr s). split; reflexivity.
  - exists (scalar_value p). split; [reflexivity | destruct p; reflexivity].
  - destruct (supported_Dict_inv _ _ Hsup) as [Htext [Hnodup Hvalues]].
    pose proof (Forall_modus_ponens _ _ _ IH Hvalues) as Hall.
    destruct (members_encoded
                (fun kv kw => fst kw = fst kv /\ _serialize E (snd kv) = Return (snd kw) /\
                              fst (_deserialize E (snd kw)) = Return (normal (snd kv)))
                items) as [ws Hws].
    { rewrite Forall_forall in *. intros kv Hin.
      destruct (Hall kv Hin) as [w [Hw Hd]]. exists (fst kv, w). auto. }
    exists (_encode (VDict ws) DICT). split.
    + cbn [_serialize]. unfold dict_comprehension.
      rewrite (dict_comprehension_entries (_serialize E) items ws).
      * reflexivity.
      * eapply Forall2_impl; [|exact Hws]. intros kv kw [H1 [H2 _]]. auto.
      * exact Htext.
      * exact Hnodup.
      * reflexivity.
    + rewrite deserialize_envelope. unfold traverse_items.
      rewrite (traverse_items_entries (_deserialize E) ws
                 (map (fun kv => (fst kv, normal (snd kv))) items)).
      * reflexivity.
      * apply (Forall2_map_of_left _ _ _ _ _ Hws). intros kv kw [H1 [_ H3]]. simpl. auto.
      * rewrite (Forall2_same_keys _ _ _ Hws) by (intros kv kw [H1 _]; exact H1).
        exact Hnodup.
      * reflexivity.
  - pose proof (Forall_modus_ponens _ _ _ IH (supported_List_inv _ _ Hsup)) as Hall.
    destruct (members_encoded
                (fun x w => _serialize E x = Return w /\
                            fst (_deserialize E w) = Return (normal x)) l Hall) as [ws Hws].
    exists (VList ws). split.
    + cbn [_serialize].
      rewrite (comprehension_Forall2 (_serialize E) l ws)
        by (eapply Forall2_impl; [|exact Hws]; intros x w [H1 _]; exact H1).
      reflexivity.
    + cbn [_deserialize].
      pose proof (traverse_Forall2 (_deserialize E) ws (map normal l)
                    (Forall2_map_of_left _ _ _ _ _ Hws (fun x w H => proj2 H))) as Ht.
      destruct (traverse (_deserialize E) ws) as [r ws']. simpl in *. rewrite Ht. reflexivity.
  - destruct (supported_Set_inv _ _ Hsup) as [Hmembers Hset].
    pose proof (Forall_modus_ponens _ _ _ IH Hmembers) as Hall.
    destruct (members_encoded
                (fun x w => _serialize E x = Return w /\
                            fst (_deserialize E w) = Return (normal x)) l Hall) as [ws Hws].
    exists (_encode (VList ws) SET). split.
    + cbn [_serialize].
      rewrite (comprehension_Forall2 (_serialize E) l ws)
        by (eapply Forall2_impl; [|exact Hws]; intros x w [H1 _]; exact H1).
      reflexivity.
    + rewrite deserialize_envelope. cbn [traverse_iterable_set]. unfold traverse_set.
      pose proof (traverse_set_Forall2 (_deserialize E) ws (map normal l)
                    (Forall2_map_of_left _ _ _ _ _ Hws (fun x w H => proj2 H)) []) as Ht.
      destruct (traverse_set_from (_deserialize E) [] ws) as [r ws']. simpl in *.
      rewrite Ht. exact (set_add_all_normal l [] (VSet l) eq_refl Hset).
  - pose proof (Forall_modus_ponens _ _ _ IH (supported_Tuple_inv _ _ Hsup)) as Hall.
    destruct (members_encoded
                (fun x w => _serialize E x = Return w /\
                            fst (_deserialize E w) = Return (normal x)) l Hall) as [ws Hws].
    exists (_encode (VList ws) TUPLE). split.
    + cbn [_serialize].
      rewrite (comprehension_Forall2 (_serialize E) l ws)
        by (eapply Forall2_impl; [|exact Hws]; intros x w [H1 _]; exact H1).
      reflexivity.
    + rewrite deserialize_envelope. cbn [traverse_iterable].
      pose proof (traverse_Forall2 (_deserialize E) ws (map normal l)
                    (Forall2_map_of_left _ _ _ _ _ Hws (fun x w H => proj2 H))) as Ht.
      destruct (traverse (_deserialize E) ws) as [r ws']. simpl in *. rewrite Ht. reflexivity.
  - exists (_encode (timestamp us) DATETIME). split; [reflexivity|].
    rewrite deserialize_envelope. apply datetime_round_trip. inversion Hsup. assumption.
  - exists (_encode (total_seconds us) TIMEDELTA). split; [reflexivity|].
    rewrite deserialize_envelope. apply timedelta_round_trip. inversion Hsup. assumption.
  - exists (_encode (VStr name) TIMEZONE). split; [reflexivity|].
    rewrite deserialize_envelope. unfold timezone. simpl.
    inversion Hsup as [| | | | | | | | | | | |? Hknown|]. rewrite Hknown. reflexivity.
  - exists (encode_relativedelta rd). split; [reflexivity|].
    unfold encode_relativedelta. rewrite deserialize_envelope.
    apply relativedelta_round_trip. inversion Hsup. assumption.
  - inversion Hsup.
  - inversion Hsup.
  - inversion Hsup.
Qed.




(** The two scenarios of the round trip: a duration of 90 seconds is encoded
    as a duration envelope whose payload equals 90 and comes back as a
    duration of 90 seconds; the set [{1, 2, 3}] is encoded as a set envelope
    whose payload lists 1, 2 and 3 and comes back as that set. *)
Example duration_of_90_seconds :
  _serialize Demo.env (VTimedelta 90000000)
    = Return (_encode (total_seconds 90000000) TIMEDELTA) /\
  py_eq (total_seconds 90000000) (VInt 90) = true /\
  fst (_deserialize Demo.env (_encode (total_seconds 90000000) TIMEDELTA))
    = Return (VTimedelta 90000000).
Proof. repeat split; vm_compute; reflexivity. Qed.

Example set_of_three :
  _serialize Demo.env (VSet [VInt 1; VInt 2; VInt 3])
    = Return (_encode (VList [VInt 1; VInt 2; VInt 3]) SET) /\
  fst (_deserialize Demo.env (_encode (VList [VInt 1; VInt 2; VInt 3]) SET))
    = Return (VSet [VInt 1; VInt 2; VInt 3]).
Proof. split; vm_compute; reflexivity. Qed.

(** * Further properties *)

(** ** What the encoder returns is JSON *)

Lemma json_value_dict (items : dict_items) :
  json_value (VDict items) = forallb json_entry items.
Proof.
  simpl. induction items as [|[k x] tl IH]; [reflexivity|].
  cbn [forallb]. rewrite IH. destruct k; reflexivity.
Qed.

Lemma try_except_cases {A : Type} (body : outcome A) (handler w : A) :
  try_except body handler = Return w -> body = Return w \/ w = handler.
Proof. destruct body; simpl; intros H; injection H as <-; auto. Qed.

Lemma json_entry_set (k : string) (v : value) (d : dict_items) :
  json_value v = true -> forallb json_entry d = true ->
  forallb json_entry (dict_set (KStr k) v d) = true.
Proof.
  intros Hv. induction d as [|[k' x] tl IH]; cbn [dict_set forallb]; intros Hd.
  - unfold json_entry. simpl. rewrite Hv. reflexivity.
  - apply andb_prop in Hd. destruct Hd as [Hx Htl].
    destruct (dict_key_eqb (KStr k) k') eqn:Hk; cbn [forallb].
    + rewrite Htl, andb_true_r. unfold json_entry in *. cbn [fst snd] in *.
      destruct k'; [exact Hv | discriminate].
    + rewrite Hx, (IH Htl). reflexivity.
Qed.

Lemma json_entry_get (k : dict_key) (d : dict_items) (x : value) :
  forallb json_entry d = true -> dict_get k d = Some x -> json_value x = true.
Proof.
  induction d as [|[k' y] tl IH]; cbn [dict_get forallb]; intros Hd Hget; [discriminate|].
  apply andb_prop in Hd. destruct Hd as [Hy Htl].
  destruct (dict_key_eqb k k').
  - injection Hget as <-. unfold json_entry in Hy. cbn [fst snd] in Hy.
    destruct k'; [exact Hy | discriminate].
  - exact (IH Htl Hget).
Qed.

Lemma json_encode (x : value) (t : DagAttributeTypes) :
  json_value x = true -> json_value (_encode x t) = true.
Proof. intros Hx. simpl. rewrite Hx. reflexivity. Qed.

Lemma json_unwrap (w x : value) :
  json_value w = true -> unwrap w = Return x -> json_value x = true.
Proof.
  intros Hw Hu. destruct w; simpl in Hu; try (injection Hu as <-; exact Hw).
  destruct (dict_contains TYPE items).
  - destruct (dict_get VAR items) as [y|] eqn:Hget; [|discriminate].
    injection Hu as <-. rewrite json_value_dict in Hw.
    exact (json_entry_get _ _ _ Hw Hget).
  - injection Hu as <-. exact Hw.
Qed.

Lemma comprehension_json {A : Type} (f : A -> outcome value) (l : list A) (ws : list value) :
  Forall (fun x => forall w, f x = Return w -> json_value w = true) l ->
  comprehension f l = Return ws -> forallb json_value ws = true.
Proof.
  intros Hall. revert ws. induction Hall as [|x tl Hx _ IH]; intros ws Hc; simpl in Hc.
  - injection Hc as <-. reflexivity.
  - destruct (f x) as [w|e] eqn:Hfx; simpl in Hc; [|discriminate].
    destruct (comprehension f tl) as [ws'|e] eqn:Htl; simpl in Hc; [|discriminate].
    injection Hc as <-. simpl. rewrite (Hx w eq_refl), (IH ws' eq_refl). reflexivity.
Qed.

Lemma attr_get_In (name : string) (attrs : attributes) (s : slot) :
  attr_get name attrs = Some s -> In (name, s) attrs.
Proof.
  induction attrs as [|[name' s'] tl IH]; simpl; intros Hget; [discriminate|].
  destruct (String.eqb name name') eqn:Hname.
  - apply String.eqb_eq in Hname. injection Hget as <-. subst. left. reflexivity.
  - right. exact (IH Hget).
Qed.

(** The fields [serialize_to_json] stores are JSON when the encoder returns
    JSON for every attribute of the object. *)
Lemma serialize_to_json_loop_json (E : environment) (cls : codec) (attrs : attributes)
    (decorated_fields : list string) (keys : list string) :
  Forall (fun kv => forall w, _serialize E (snd (snd kv)) = Return w -> json_value w = true)
    attrs ->
  forall acc d,
    forallb json_entry acc = true ->
    serialize_to_json_loop (_serialize E) E cls attrs decorated_fields keys acc = Return d ->
    forallb json_entry d = true.
Proof.
  intros Hattrs. rewrite Forall_forall in Hattrs.
  induction keys as [|key rest IH]; intros acc d Hacc Hloop; cbn [serialize_to_json_loop] in Hloop.
  - injection Hloop as <-. exact Hacc.
  - rewrite with_attr_spec in Hloop.
    destruct (attr_get key attrs) as [value|] eqn:Hget.
    + pose proof (Hattrs _ (attr_get_In _ _ _ Hget)) as Hjson. cbn [snd] in Hjson.
      destruct (_is_excluded E cls value key attrs); [exact (IH _ _ Hacc Hloop)|].
      destruct (_serialize E (snd value)) as [w|e] eqn:Hw;
        [|destruct (mem key decorated_fields); discriminate].
      specialize (Hjson w eq_refl).
      destruct (mem key decorated_fields); cbn [bind] in Hloop.
      * exact (IH _ _ (json_entry_set _ _ _ Hjson Hacc) Hloop).
      * destruct (unwrap w) as [x|e] eqn:Hx; cbn [bind] in Hloop; [|discriminate].
        exact (IH _ _ (json_entry_set _ _ _ (json_unwrap _ _ Hjson Hx) Hacc) Hloop).
    + destruct (_is_excluded E cls (None, VNone) key attrs); [exact (IH _ _ Hacc Hloop)|].
      exact (IH _ _ (json_entry_set key VNone acc eq_refl Hacc) Hloop).
Qed.

(** What [serialize_dag] returns, step by step. *)
Lemma serialize_dag_with_inv (f : value -> outcome value) (E : environment)
    (attrs : attributes) (w : value) :
  serialize_dag_with f E attrs = Return w ->
  exists d a task_dict tasks,
    serialize_to_json_with f E SerializedDAG CDag attrs (_decorated_fields SerializedDAG)
      = Return d /\
    attr_get "task_dict" attrs = Some (a, VDict task_dict) /\
    comprehension (fun kv => f (snd kv)) task_dict = Return tasks /\
    w = VDict (dict_set (KStr "tasks") (VList tasks) d).
Proof.
  unfold serialize_dag_with.
  destruct (serialize_to_json_with f E SerializedDAG CDag attrs (_decorated_fields SerializedDAG))
    as [d|e]; cbn [bind]; [|discriminate].
  intros H. exists d.
  induction attrs as [|[name [a v]] tl IH]; [discriminate|].
  cbn [attr_get]. destruct (String.eqb "task_dict" name) eqn:Hname.
  - cbn [snd] in H. destruct v; try discriminate.
    destruct (comprehension (fun kv => f (snd kv)) items) as [tasks|e] eqn:Hc;
      cbn [bind] in H; [|discriminate].
    injection H as <-. exists a, items, tasks. auto.
  - exact (IH H).
Qed.

Lemma dict_comprehension_json (f : value -> outcome value) (items : dict_items) :
  Forall (fun kv => forall w, f (snd kv) = Return w -> json_value w = true) items ->
  forall acc d,
    forallb json_entry acc = true ->
    dict_comprehension_from (fun k => KStr (str_key k)) f items acc = Return d ->
    forallb json_entry d = true.
Proof.
  induction 1 as [|[k v] tl Hv _ IH]; intros acc d Hacc Hc; cbn [dict_comprehension_from] in Hc.
  - injection Hc as <-. exact Hacc.
  - cbn [snd] in Hv. destruct (f v) as [w|e] eqn:Hw; cbn [bind] in Hc; [|discriminate].
    exact (IH _ _ (json_entry_set _ _ _ (Hv w eq_refl) Hacc) Hc).
Qed.

Lemma dict_get_filter_absent (p : dict_key * value -> bool) (k : dict_key) (l : dict_items) :
  dict_get k l = None -> dict_get k (filter p l) = None.
Proof.
  induction l as [|[k' v] tl IH]; simpl; [reflexivity|].
  destruct (dict_key_eqb k k') eqn:Hk; [discriminate|]. intros Hget.
  destruct (p (k', v)); simpl; [rewrite Hk|]; exact (IH Hget).
Qed.

Lemma dict_set_last (k : dict_key) (v w : value) (d : dict_items) :
  dict_get k d = None -> dict_set k v (d ++ [(k, w)]) = d ++ [(k, v)].
Proof.
  induction d as [|[k' x] tl IH]; simpl.
  - rewrite dict_key_eqb_refl. reflexivity.
  - destruct (dict_key_eqb k k'); [discriminate|]. intros Hget. rewrite (IH Hget). reflexivity.
Qed.

(** The payload of a recurrence rule is JSON: the weekday object among the
    entries of [__dict__] is replaced by a list of integers. *)
Lemma relativedelta_payload_json (rd : relativedelta) :
  forallb json_entry (relativedelta_payload rd) = true.
Proof.
  unfold relativedelta_payload, relativedelta_dict.
  match goal with
  | |- context [filter ?p [?a1; ?a2; ?a3; ?a4; ?a5; ?a6; ?a7; ?a8; ?a9; ?a10; ?a11; ?a12;
                           ?a13; ?a14; ?a15; ?a16]] =>
      change [a1; a2; a3; a4; a5; a6; a7; a8; a9; a10; a11; a12; a13; a14; a15; a16]
        with ([a1; a2; a3; a4; a5; a6; a7; a8; a9; a10; a11; a12; a13; a14; a15] ++ [a16]);
      rewrite (filter_app p);
      assert (Hjson : forallb json_entry
                        (filter p [a1; a2; a3; a4; a5; a6; a7; a8; a9; a10; a11; a12; a13;
                                   a14; a15]) = true)
        by (apply forallb_filter;
            destruct (rd_year rd), (rd_month rd), (rd_day rd), (rd_hour rd), (rd_minute rd),
                     (rd_second rd), (rd_microsecond rd); reflexivity);
      assert (Habsent : dict_get (KStr "weekday")
                          (filter p [a1; a2; a3; a4; a5; a6; a7; a8; a9; a10; a11; a12; a13;
                                     a14; a15]) = None)
        by (apply dict_get_filter_absent; reflexivity);
      set (front := filter p [a1; a2; a3; a4; a5; a6; a7; a8; a9; a10; a11; a12; a13; a14; a15])
        in *
  end.
  destruct (rd_weekday rd) as [[wd [n|]]|]; cbn [filter snd py_truthy].
  - destruct (n =? 0); rewrite (dict_set_last _ _ _ _ Habsent), forallb_app, Hjson; reflexivity.
  - rewrite (dict_set_last _ _ _ _ Habsent), forallb_app, Hjson. reflexivity.
  - rewrite app_nil_r. exact Hjson.
Qed.

(** The encoder, together with what it returns for the members of a
    dictionary. *)
Lemma serialize_json_members (E : environment) (var : value) :
  (forall w, _serialize E var = Return w -> json_value w = true) /\
  match var with
  | VDict items =>
      Forall (fun kv => forall w, _serialize E (snd kv) = Return w -> json_value w = true) items
  | _ => True
  end.
Proof.
  induction var as [ |b|n|q|s|p|items IH|l IH|l IH|l IH|us tz|us|name|rd|wd n|o|c attrs IH]
    using value_ind;
    (split; [intros w Hw; cbn [_serialize] in Hw; apply try_except_cases in Hw; destruct Hw as [Hw| ->]; [|reflexivity]
            | try exact I]).
  - injection Hw as <-. reflexivity.
  - injection Hw as <-. reflexivity.
  - injection Hw as <-. reflexivity.
  - injection Hw as <-. reflexivity.
  - injection Hw as <-. reflexivity.
  - injection Hw as <-. destruct p; reflexivity.
  - unfold dict_comprehension in Hw.
    destruct (dict_comprehension_from _ _ items []) as [d|e] eqn:Hd; cbn [bind] in Hw;
      [|discriminate].
    injection Hw as <-. apply json_encode. rewrite json_value_dict.
    refine (dict_comprehension_json _ items _ [] d eq_refl Hd).
    eapply Forall_impl; [|exact IH]. intros kv H. exact (proj1 H).
  - eapply Forall_impl; [|exact IH]. intros kv H. exact (proj1 H).
  - destruct (comprehension (_serialize E) l) as [ws|e] eqn:Hc; cbn [bind] in Hw; [|discriminate].
    injection Hw as <-. cbn [json_value].
    refine (comprehension_json _ l ws _ Hc).
    eapply Forall_impl; [|exact IH]. intros x H. exact (proj1 H).
  - destruct (comprehension (_serialize E) l) as [ws|e] eqn:Hc; cbn [bind] in Hw; [|discriminate].
    injection Hw as <-. apply json_encode. cbn [json_value].
    refine (comprehension_json _ l ws _ Hc).
    eapply Forall_impl; [|exact IH]. intros x H. exact (proj1 H).
  - destruct (comprehension (_serialize E) l) as [ws|e] eqn:Hc; cbn [bind] in Hw; [|discriminate].
    injection Hw as <-. apply json_encode. cbn [json_value].
    refine (comprehension_json _ l ws _ Hc).
    eapply Forall_impl; [|exact IH]. intros x H. exact (proj1 H).
  - injection Hw as <-. reflexivity.
  - injection Hw as <-. reflexivity.
  - injection Hw as <-. reflexivity.
  - injection Hw as <-. apply json_encode. rewrite json_value_dict.
    apply relativedelta_payload_json.
  - destruct (weekday_str wd n); cbn [bind] in Hw; [|discriminate]. injection Hw as <-. reflexivity.
  - destruct (obj_callable o);
      [destruct (obj_source o) | destruct (obj_str o)]; cbn [bind] in Hw; try discriminate;
      injection Hw as <-; reflexivity.
  - assert (Hattrs : Forall (fun kv => forall w, _serialize E (snd (snd kv)) = Return w ->
                                          json_value w = true) attrs).
    { eapply Forall_impl; [|exact IH]. intros kv H. exact (proj1 H). }
    destruct c as [|name module].
    + apply serialize_dag_with_inv in Hw.
      destruct Hw as [d [a [task_dict [tasks [Hd [Htd [Htasks ->]]]]]]].
      rewrite json_value_dict. apply json_entry_set.
      * cbn [json_value]. refine (comprehension_json _ task_dict tasks _ Htasks).
        rewrite Forall_forall in IH.
        exact (proj2 (IH _ (attr_get_In _ _ _ Htd))).
      * exact (serialize_to_json_loop_json E _ attrs _ _ Hattrs [] d eq_refl Hd).
    + unfold serialize_operator_with in Hw.
      destruct (serialize_to_json_with _ E SerializedBaseOperator (COp name module) attrs _)
        as [d|e] eqn:Hd; cbn [bind] in Hw; [|discriminate].
      injection Hw as <-. rewrite json_value_dict.
      apply json_entry_set; [reflexivity|]. apply json_entry_set; [reflexivity|].
      exact (serialize_to_json_loop_json E _ attrs _ _ Hattrs [] d eq_refl Hd).
Qed.

(** The wire invariant: whatever the encoder returns can be written as JSON.
    Every value it returns is [None], a Boolean, a number, text, a list or a
    dictionary with text keys, at any depth; in particular no set, tuple,
    date, duration or object reaches the wire outside an envelope, and a
    member of an enumeration is replaced by its value. *)
Theorem serialize_returns_json (E : environment) (var : value) :
  exists w, _serialize E var = Return w /\ json_value w = true.
Proof.
  destruct (serialize_returns E var) as [w Hw]. exists w.
  split; [exact Hw | exact (proj1 (serialize_json_members E var) w Hw)].
Qed.


(** ** The payload of an object *)

Lemma dict_get_present (k : dict_key) (d : dict_items) :
  In k (dict_keys d) -> exists v, dict_get k d = Some v.
Proof.
  induction d as [|[k' x] tl IH]; simpl; [intros []|].
  intros [Heq | Hin].
  - subst k'. rewrite dict_key_eqb_refl. eauto.
  - destruct (dict_key_eqb k k'); [eauto | exact (IH Hin)].
Qed.

Lemma dict_set_keys (k : dict_key) (v : value) (d : dict_items) :
  dict_keys (dict_set k v d) = if dict_contains k d then dict_keys d else dict_keys d ++ [k].
Proof.
  unfold dict_contains.
  induction d as [|[k' x] tl IH]; simpl; [reflexivity|].
  destruct (dict_key_eqb k k'); simpl; [reflexivity|].
  rewrite IH. destruct (dict_get k tl); reflexivity.
Qed.

Lemma dict_set_NoDup (k : dict_key) (v : value) (d : dict_items) :
  NoDup (dict_keys d) -> NoDup (dict_keys (dict_set k v d)).
Proof.
  intros Hd. rewrite dict_set_keys. destruct (dict_contains k d) eqn:Hk; [exact Hd|].
  apply dict_contains_get in Hk.
  apply NoDup_app; [exact Hd | repeat constructor; intros [] |].
  intros x Hin [<- | []].
  destruct (dict_get_present _ _ Hin) as [y Hy]. congruence.
Qed.

Lemma dict_get_In (k : dict_key) (d : dict_items) (v : value) :
  dict_get k d = Some v -> In (k, v) d.
Proof.
  induction d as [|[k' x] tl IH]; simpl; [discriminate|].
  destruct (dict_key_eqb k k') eqn:Hk.
  - apply dict_key_eqb_eq in Hk. intros H. injection H as <-. subst. left. reflexivity.
  - intros H. right. exact (IH H).
Qed.

(** Whatever holds of the dictionary [serialize_to_json] starts from and is
    kept by an assignment to a text key holds of the one it returns. *)
Lemma serialize_to_json_loop_preserves (P : dict_items -> Prop)
    (f : value -> outcome value) (E : environment) (cls : codec) (attrs : attributes)
    (decorated_fields : list string) (keys : list string) :
  (forall key v acc, P acc -> P (dict_set (KStr key) v acc)) ->
  forall acc d,
    P acc ->
    serialize_to_json_loop f E cls attrs decorated_fields keys acc = Return d ->
    P d.
Proof.
  intros Hset.
  induction keys as [|key rest IH]; intros acc d Hacc Hloop; cbn [serialize_to_json_loop] in Hloop.
  - injection Hloop as <-. exact Hacc.
  - rewrite with_attr_spec in Hloop.
    destruct (attr_get key attrs) as [value|].
    + destruct (_is_excluded E cls value key attrs); [exact (IH _ _ Hacc Hloop)|].
      destruct (f (snd value)) as [w|e];
        [|destruct (mem key decorated_fields); discriminate].
      destruct (mem key decorated_fields); cbn [bind] in Hloop.
      * exact (IH _ _ (Hset _ _ _ Hacc) Hloop).
      * destruct (unwrap w) as [x|e]; cbn [bind] in Hloop; [|discriminate].
        exact (IH _ _ (Hset _ _ _ Hacc) Hloop).
    + destruct (_is_excluded E cls (None, VNone) key attrs); [exact (IH _ _ Hacc Hloop)|].
      exact (IH _ _ (Hset _ _ _ Hacc) Hloop).
Qed.

Lemma serialize_to_json_keys (E : environment) (cls : codec) (c : pyclass)
    (attrs : attributes) (decorated_fields : list string) (d : dict_items) :
  serialize_to_json E cls c attrs decorated_fields = Return d ->
  NoDup (dict_keys d) /\ Forall (fun kv => exists key, fst kv = KStr key) d.
Proof.
  intros Hd. split.
  - refine (serialize_to_json_loop_preserves (fun d => NoDup (dict_keys d))
              _ E cls attrs _ _ _ [] d _ Hd).
    + intros key v acc. apply dict_set_NoDup.
    + constructor.
  - refine (serialize_to_json_loop_preserves
              (Forall (fun kv => exists key, fst kv = KStr key))
              _ E cls attrs _ _ _ [] d _ Hd).
    + intros key v acc Hacc. induction Hacc as [|[k x] tl Hk Htl IH]; cbn [dict_set].
      * constructor; [exists key; reflexivity | constructor].
      * destruct (dict_key_eqb (KStr key) k); constructor; auto.
    + constructor.
Qed.

Lemma getattr_or_None_inst (c : pyclass) (attrs : attributes) (key : string) (s : slot) :
  attr_get key attrs = Some s -> getattr_or_None (VInst c attrs) key = s.
Proof. intros H. simpl. rewrite H. reflexivity. Qed.

Lemma is_excluded_base (E : environment) (cls : codec) (value : slot) (key : string)
    (attrs : attributes) :
  _is_excluded E cls value key attrs = false ->
  is_None (snd value) = false /\ is_excluded_type (snd value) = false /\
  _value_is_hardcoded_default E cls key value = false.
Proof.
  intros H.
  assert (Hbase : base_is_excluded E cls value key = false).
  { destruct cls; simpl in H; try exact H.
    destruct (matches_dag_date value key attrs); [discriminate|].
    destruct (empty_config value key); [discriminate | exact H]. }
  unfold base_is_excluded in Hbase.
  apply orb_false_elim in Hbase. destruct Hbase as [Hbase Hdefault].
  apply orb_false_elim in Hbase. destruct Hbase as [Hnone Htype]. auto.
Qed.

(** [serialize_to_json] stores nothing but serialized fields: every entry of
    the payload is under the name of a field of [get_serialized_fields()],
    and the attribute of that name is not [None] (a missing attribute counts
    as [None]), not of an excluded type and not the hard-coded default of the
    constructor. *)
Theorem serialize_to_json_stores_fields_only (E : environment) (cls : codec) (c : pyclass)
    (attrs : attributes) (decorated_fields : list string) (d : dict_items)
    (k : dict_key) (v : value) :
  serialize_to_json E cls c attrs decorated_fields = Return d ->
  In (k, v) d ->
  exists key,
    k = KStr key /\ In key (get_serialized_fields E c) /\
    let value := getattr_or_None (VInst c attrs) key in
    is_None (snd value) = false /\ is_excluded_type (snd value) = false /\
    _value_is_hardcoded_default E cls key value = false.
Proof.
  intros Hd Hin.
  destruct (serialize_to_json_keys _ _ _ _ _ _ Hd) as [_ Htext].
  rewrite Forall_forall in Htext. destruct (Htext _ Hin) as [key Hkey].
  simpl in Hkey. subst k. exists key. split; [reflexivity|].
  destruct (dict_get_present (KStr key) d) as [x Hx].
  { apply in_map_iff. exists (KStr key, v). auto. }
  destruct (serialize_to_json_loop_lookup E cls attrs decorated_fields _ [] d Hd key)
    as [Hget _].
  rewrite Hx in Hget.
  destruct (mem key (get_serialized_fields E c)) eqn:Hmem; [|discriminate].
  split; [apply mem_In; exact Hmem|].
  unfold serialized_field in Hget. cbv zeta.
  change (getattr_or_None (VInst c attrs) key) with (getattr_or_None (VInst CDag attrs) key).
  destruct (_is_excluded E cls (getattr_or_None (VInst CDag attrs) key) key attrs) eqn:Hex;
    [discriminate|].
  exact (is_excluded_base _ _ _ _ _ Hex).
Qed.

Lemma serialize_to_json_stores_fields_only_witness :
  exists key,
    KStr "execution_timeout" = KStr key /\
    In key (get_serialized_fields Demo.env Demo.notify_class) /\
    let value := getattr_or_None (VInst Demo.notify_class Demo.notify_attrs) key in
    is_None (snd value) = false /\ is_excluded_type (snd value) = false /\
    _value_is_hardcoded_default Demo.env SerializedBaseOperator key value = false.
Proof.
  apply (serialize_to_json_stores_fields_only Demo.env SerializedBaseOperator
           Demo.notify_class Demo.notify_attrs (_decorated_fields SerializedBaseOperator)
           Demo.notify_payload (KStr "execution_timeout") (total_seconds 90000000)).
  - vm_compute. reflexivity.
  - vm_compute. right. right. left. reflexivity.
Defined.

(** ** An operator, encoded then decoded *)

(** The loop of [deserialize_operator] over the payload: an attribute the
    payload does not name is as it was; an attribute it names holds what the
    rule of that field returned. *)
Lemma decode_operator_fields_lookup (f g : value -> decoding) (E : environment)
    (items : dict_items) :
  forall op op',
    fst (decode_operator_fields f g E op items) = Return op' ->
    (forall k, dict_get (KStr k) items = None -> attr_get k op' = attr_get k op) /\
    (NoDup (dict_keys items) ->
     forall k v, dict_get (KStr k) items = Some v ->
       exists x, fst (decode_operator_field f g E k v) = Return x /\
                 attr_get k op' = Some (None, x)).
Proof.
  induction items as [|[[k0|n] v0] tl IH]; intros op op' Hloop;
    cbn [decode_operator_fields] in Hloop.
  - injection Hloop as <-. split; [reflexivity | discriminate].
  - destruct (decode_operator_field f g E k0 v0) as [[x0|e] v0'] eqn:Hfield; [|discriminate].
    destruct (decode_operator_fields f g E (setattr op k0 x0) tl) as [r tl'] eqn:Htl.
    cbn [fst] in Hloop.
    assert (Hrest : fst (decode_operator_fields f g E (setattr op k0 x0) tl) = Return op')
      by (rewrite Htl; exact Hloop).
    destruct (IH _ _ Hrest) as [Hother Hnamed]. split.
    + intros k Hk. cbn [dict_get] in Hk. rewrite KStr_eqb in Hk.
      destruct (String.eqb k k0) eqn:Heq; [discriminate|].
      rewrite (Hother k Hk). apply attr_get_set_other. exact Heq.
    + intros Hnodup k v Hk. cbn [dict_get] in Hk. rewrite KStr_eqb in Hk.
      cbn [dict_keys map fst] in Hnodup. inversion Hnodup as [|? ? Hfresh Hnodup']. subst.
      destruct (String.eqb k k0) eqn:Heq.
      * apply String.eqb_eq in Heq. subst k0. injection Hk as <-.
        exists x0. rewrite Hfield. split; [reflexivity|].
        rewrite (Hother k (dict_get_absent _ _ Hfresh)). apply attr_get_set_same.
      * exact (Hnamed Hnodup' k v Hk).
  - discriminate.
Qed.

(** What [deserialize_operator] returns, step by step. *)
Lemma deserialize_operator_inv (E : environment) (items : dict_items) (node : value) :
  fst (deserialize_operator E (VDict items)) = Return node ->
  exists task_id op0 links op1,
    getitem items "task_id" = Return task_id /\
    new_operator E task_id = Return op0 /\
    op_extra_links_from_plugin E items = Return links /\
    fst (decode_operator_fields (deserialize_dag E) (_deserialize E) E
           (setattr op0 "operator_extra_links" (VList (map (fun l => VObj (snd l)) links)))
           items) = Return op1 /\
    node = VInst SerializedBaseOperator_class
             (set_missing_to_None E SerializedBaseOperator (operator_serialized_fields E)
                items op1).
Proof.
  intros Hdec. cbn [deserialize_operator] in Hdec. unfold deserialize_operator_with in Hdec.
  destruct (getitem items "task_id") as [task_id|e] eqn:Hid; cbn [bind] in Hdec;
    [|discriminate].
  destruct (new_operator E task_id) as [op0|e] eqn:Hnew; cbn [bind] in Hdec; [|discriminate].
  destruct (op_extra_links_from_plugin E items) as [links|e] eqn:Hlinks; cbn [bind] in Hdec;
    [|discriminate].
  destruct (decode_operator_fields _ _ E _ items) as [[op1|e] items'] eqn:Hloop;
    [|discriminate].
  cbn [fst bind] in Hdec. injection Hdec as <-.
  exists task_id, op0, links, op1. rewrite Hloop. auto.
Qed.

Lemma set_missing_to_None_keeps (E : environment) (cls : codec) (fields : list string)
    (encoded : dict_items) (k : string) :
  dict_contains (KStr k) encoded = true \/ attr_get k (_CONSTRUCTOR_PARAMS E cls) <> None ->
  forall obj, attr_get k (set_missing_to_None E cls fields encoded obj) = attr_get k obj.
Proof.
  intros Hk. unfold set_missing_to_None.
  induction fields as [|f tl IH]; intros obj; simpl; [reflexivity|].
  destruct (dict_contains (KStr f) encoded) eqn:Hf; [apply IH|].
  destruct (attr_get f (_CONSTRUCTOR_PARAMS E cls)) eqn:Hp; [apply IH|].
  rewrite IH. apply attr_get_set_other.
  destruct (String.eqb k f) eqn:Heq; [|reflexivity].
  apply String.eqb_eq in Heq. subst f. destruct Hk as [Hk | Hk]; congruence.
Qed.

(** What [serialize_operator] returns, step by step. *)
Lemma serialize_operator_inv (E : environment) (name module : string) (attrs : attributes)
    (w : value) :
  serialize_operator E name module attrs = Return w ->
  exists d,
    serialize_to_json E SerializedBaseOperator (COp name module) attrs
      (_decorated_fields SerializedBaseOperator) = Return d /\
    w = VDict (dict_set (KStr "_task_module") (VStr module)
                 (dict_set (KStr "_task_type") (VStr name) d)).
Proof.
  unfold serialize_operator, serialize_operator_with, serialize_to_json.
  destruct (serialize_to_json_with _ E SerializedBaseOperator (COp name module) attrs _)
    as [d|e]; cbn [bind]; [|discriminate].
  intros H. injection H as <-. exists d. auto.
Qed.

(** A field of an operator through [serialize_operator] and
    [deserialize_operator]: the decoded operator holds, under the name of a
    stored field, what the rule of that field makes of the stored payload. *)
Lemma operator_field_decoded (E : environment) (name module : string) (attrs : attributes)
    (d : dict_items) (node : value) (key : string) (v : value) :
  serialize_operator E name module attrs = Return (VDict d) ->
  fst (deserialize_operator E (VDict d)) = Return node ->
  mem key (operator_serialized_fields E) = true ->
  String.eqb key "_task_type" = false -> String.eqb key "_task_module" = false ->
  serialized_field E SerializedBaseOperator attrs (_decorated_fields SerializedBaseOperator) key
    = Some (Return v) ->
  exists attrs' x,
    node = VInst SerializedBaseOperator_class attrs' /\
    fst (decode_operator_field (deserialize_dag E) (_deserialize E) E key v) = Return x /\
    attr_get key attrs' = Some (None, x).
Proof.
  intros Hser Hdec Hmem Htype Hmodule Hfield.
  destruct (serialize_operator_inv _ _ _ _ _ Hser) as [d0 [Hd0 Hd]].
  injection Hd as ->.
  pose proof (serialize_to_json_lookup E _ _ attrs _ d0 key Hd0 Hmem) as Hget.
  rewrite Hfield in Hget.
  destruct (serialize_to_json_keys _ _ _ _ _ _ Hd0) as [Hnodup _].
  set (d := dict_set (KStr "_task_module") (VStr module)
              (dict_set (KStr "_task_type") (VStr name) d0)) in *.
  assert (Hd : dict_get (KStr key) d = Some v).
  { unfold d. rewrite !dict_get_set_other by (rewrite KStr_eqb; assumption). exact Hget. }
  assert (Hkeys : NoDup (dict_keys d)) by (unfold d; do 2 apply dict_set_NoDup; exact Hnodup).
  destruct (deserialize_operator_inv _ _ _ Hdec)
    as [task_id [op0 [links [op1 [_ [_ [_ [Hloop ->]]]]]]]].
  destruct (decode_operator_fields_lookup _ _ _ _ _ _ Hloop) as [_ Hnamed].
  destruct (Hnamed Hkeys key v Hd) as [x [Hx Hattr]].
  eexists. exists x. split; [reflexivity|]. split; [exact Hx|].
  rewrite set_missing_to_None_keeps; [exact Hattr|].
  left. unfold dict_contains. rewrite Hd. reflexivity.
Qed.

Lemma serialized_field_plain (E : environment) (cls : codec) (attrs : attributes)
    (decorated_fields : list string) (key : string) (s : slot) (w x : value) :
  attr_get key attrs = Some s ->
  _is_excluded E cls s key attrs = false ->
  mem key decorated_fields = false ->
  _serialize E (snd s) = Return w ->
  unwrap w = Return x ->
  serialized_field E cls attrs decorated_fields key = Some (Return x).
Proof.
  intros Hget Hex Hdec Hw Hx. unfold serialized_field.
  rewrite (getattr_or_None_inst _ _ _ _ Hget), Hex, Hdec, Hw. cbn [bind]. rewrite Hx.
  reflexivity.
Qed.

Lemma serialized_field_decorated (E : environment) (cls : codec) (attrs : attributes)
    (decorated_fields : list string) (key : string) (s : slot) (w : value) :
  attr_get key attrs = Some s ->
  _is_excluded E cls s key attrs = false ->
  mem key decorated_fields = true ->
  _serialize E (snd s) = Return w ->
  serialized_field E cls attrs decorated_fields key = Some (Return w).
Proof.
  intros Hget Hex Hdec Hw. unfold serialized_field.
  rewrite (getattr_or_None_inst _ _ _ _ Hget), Hex, Hdec, Hw. reflexivity.
Qed.



Lemma date_field_rule (f g : value -> decoding) (E : environment) (key : string) (v : value) :
  endswith key "_date" = true ->
  fst (decode_operator_field f g E key v) = from_timestamp v.
Proof.
  intros Hdate. unfold decode_operator_field.
  destruct (String.eqb key "_downstream_task_ids") eqn:H1;
    [apply String.eqb_eq in H1; subst key; discriminate|].
  destruct (String.eqb key "subdag") eqn:H2;
    [apply String.eqb_eq in H2; subst key; discriminate|].
  destruct (mem key ["retry_delay"; "execution_timeout"]) eqn:H3.
  { apply mem_In in H3. destruct H3 as [<- | [<- | []]]; discriminate. }
  rewrite Hdate. reflexivity.
Qed.





Lemma strings_encode_to_themselves (E : environment) (l : list value) :
  Forall (fun x => exists s, x = VStr s) l -> comprehension (_serialize E) l = Return l.
Proof.
  induction 1 as [|x tl [s ->] _ IH]; [reflexivity|].
  unfold comprehension in *.
  change (_serialize E (VStr s)) with (Return (VStr s) : outcome value).
  cbn [bind]. rewrite IH. reflexivity.
Qed.

(** The dependents of an operator survive as a set: [_downstream_task_ids],
    a set of task identifiers, is stored as the bare list of its members, and
    [deserialize_operator] makes a set of that list again. *)
Theorem operator_downstream_round_trip (E : environment) (name module : string)
    (attrs : attributes) (d : dict_items) (node : value) (a : addr) (ids : list value) :
  serialize_operator E name module attrs = Return (VDict d) ->
  fst (deserialize_operator E (VDict d)) = Return node ->
  In "_downstream_task_ids" (operator_serialized_fields E) ->
  attr_get "_downstream_task_ids" attrs = Some (a, VSet ids) ->
  _is_excluded E SerializedBaseOperator (a, VSet ids) "_downstream_task_ids" attrs = false ->
  Forall (fun x => exists s, x = VStr s) ids ->
  set_of_list ids = Return (VSet ids) ->
  dict_get (KStr "_downstream_task_ids") d = Some (VList ids) /\
  exists attrs', node = VInst SerializedBaseOperator_class attrs' /\
                 attr_get "_downstream_task_ids" attrs' = Some (None, VSet ids).
Proof.
  intros Hser Hdec Hfield Hget Hex Hids Hset.
  assert (Hstored : serialized_field E SerializedBaseOperator attrs
                      (_decorated_fields SerializedBaseOperator) "_downstream_task_ids"
                    = Some (Return (VList ids))).
  { apply (serialized_field_plain E _ attrs _ "_downstream_task_ids" (a, VSet ids)
             (_encode (VList ids) SET)); auto.
    cbn [_serialize snd]. rewrite (strings_encode_to_themselves E ids Hids). reflexivity. }
  apply mem_In in Hfield.
  split.
  - destruct (serialize_operator_inv _ _ _ _ _ Hser) as [d0 [Hd0 Hd]]. injection Hd as ->.
    pose proof (serialize_to_json_lookup E _ _ attrs _ d0 _ Hd0 Hfield) as Hd.
    rewrite Hstored in Hd.
    rewrite !dict_get_set_other by reflexivity. exact Hd.
  - destruct (operator_field_decoded E name module attrs d node "_downstream_task_ids"
                (VList ids)) as [attrs' [x [-> [Hx Hattr]]]]; auto.
    exists attrs'. split; [reflexivity|]. rewrite Hattr.
    change (fst (decode_operator_field (deserialize_dag E) (_deserialize E) E
                   "_downstream_task_ids" (VList ids)))
      with (set_of_list ids) in Hx.
    rewrite Hset in Hx. injection Hx as <-. reflexivity.
Qed.

Lemma operator_downstream_round_trip_witness :
  dict_get (KStr "_downstream_task_ids") report_items
    = Some (VList [VStr "notify"; VStr "archive"]) /\
  exists attrs', report_node = VInst SerializedBaseOperator_class attrs' /\
                 attr_get "_downstream_task_ids" attrs'
                   = Some (None, VSet [VStr "notify"; VStr "archive"]).
Proof.
  apply (operator_downstream_round_trip Demo.env "PythonOperator"
           "airflow.operators.python_operator" report_attrs report_items report_node None
           [VStr "notify"; VStr "archive"]).
  - vm_compute. reflexivity.
  - vm_compute. reflexivity.
  - simpl. auto 15.
  - reflexivity.
  - vm_compute. reflexivity.
  - repeat constructor; eexists; reflexivity.
  - vm_compute. reflexivity.
Defined.

Lemma assigned_as_it_is_rule (f g : value -> decoding) (E : environment) (k : string)
    (v : value) :
  assigned_as_it_is E k = true -> decode_operator_field f g E k v = (Return v, v).
Proof.
  unfold assigned_as_it_is, decode_operator_field. intros H.
  repeat (apply andb_prop in H; destruct H as [H ?]).
  repeat match goal with
         | H : negb ?b = true |- _ => apply negb_true_iff in H; rewrite H
         end.
  match goal with H : mem k (operator_serialized_fields E) = true |- _ => rewrite H end.
  reflexivity.
Qed.

(** Any other field of an operator comes back as it was stored, not as it
    was: a serialized field that is not decorated and has no rule of its own
    in [deserialize_operator] is stored without its envelope and assigned as
    it is.  Text comes back as the same text; a duration comes back as a
    number of seconds and a set as a list. *)
Theorem operator_plain_field_is_decoded_as_stored (E : environment) (name module : string)
    (attrs : attributes) (d : dict_items) (node : value) (key : string) (s : slot) :
  serialize_operator E name module attrs = Return (VDict d) ->
  fst (deserialize_operator E (VDict d)) = Return node ->
  assigned_as_it_is E key = true ->
  String.eqb key "_task_type" = false -> String.eqb key "_task_module" = false ->
  attr_get key attrs = Some s ->
  _is_excluded E SerializedBaseOperator s key attrs = false ->
  exists w x attrs',
    _serialize E (snd s) = Return w /\ unwrap w = Return x /\
    dict_get (KStr key) d = Some x /\
    node = VInst SerializedBaseOperator_class attrs' /\
    attr_get key attrs' = Some (None, x) /\
    (forall text, snd s = VStr text -> x = VStr text) /\
    (forall us, snd s = VTimedelta us -> x = total_seconds us) /\
    (forall l, snd s = VSet l -> exists l', x = VList l' /\ length l' = length l).
Proof.
  intros Hser Hdec Hplain Htype Hmodule Hget Hex.
  assert (Hfield : mem key (operator_serialized_fields E) = true).
  { unfold assigned_as_it_is in Hplain. apply andb_prop in Hplain. tauto. }
  assert (Hdecorated : mem key (_decorated_fields SerializedBaseOperator) = false).
  { unfold assigned_as_it_is in Hplain.
    repeat (apply andb_prop in Hplain; destruct Hplain as [Hplain ?]).
    apply negb_true_iff. assumption. }
  destruct (serialize_returns E (snd s)) as [w Hw]. exists w.
  destruct (serialize_operator_inv _ _ _ _ _ Hser) as [d0 [Hd0 Hd]]. injection Hd as Hd.
  pose proof (serialize_to_json_lookup E _ _ attrs _ d0 key Hd0 Hfield) as Hstored.
  unfold serialized_field in Hstored.
  rewrite (getattr_or_None_inst _ _ _ _ Hget), Hex, Hdecorated, Hw in Hstored.
  cbn [bind] in Hstored.
  destruct (unwrap w) as [x|e] eqn:Hx; [|contradiction]. exists x.
  destruct (operator_field_decoded E name module attrs d node key x)
    as [attrs' [y [-> [Hy Hattr]]]]; auto.
  { apply (serialized_field_plain E _ attrs _ key s w); auto. }
  rewrite assigned_as_it_is_rule in Hy by exact Hplain. injection Hy as <-.
  exists attrs'. repeat split; auto.
  - subst d. rewrite !dict_get_set_other by (rewrite KStr_eqb; assumption). exact Hstored.
  - intros text Hs. rewrite Hs in Hw. injection Hw as <-. injection Hx as <-. reflexivity.
  - intros us Hs. rewrite Hs in Hw. injection Hw as <-. injection Hx as <-. reflexivity.
  - intros l Hs. rewrite Hs in Hw. cbn [_serialize] in Hw.
    destruct (comprehension_returns (_serialize E) l (serialize_returns E)) as [l' [Hl' Hlen]].
    rewrite Hl' in Hw. injection Hw as <-. injection Hx as <-. exists l'. auto.
Qed.

Lemma operator_plain_field_is_decoded_as_stored_witness :
  exists w x attrs',
    _serialize Demo.env (VTimedelta 3600000000) = Return w /\ unwrap w = Return x /\
    dict_get (KStr "schedule") report_items = Some x /\
    report_node = VInst SerializedBaseOperator_class attrs' /\
    attr_get "schedule" attrs' = Some (None, x) /\
    (forall text, VTimedelta 3600000000 = VStr text -> x = VStr text) /\
    (forall us, VTimedelta 3600000000 = VTimedelta us -> x = total_seconds us) /\
    (forall l, VTimedelta 3600000000 = VSet l -> exists l', x = VList l' /\ length l' = length l).
Proof.
  apply (operator_plain_field_is_decoded_as_stored Demo.env "PythonOperator"
           "airflow.operators.python_operator" report_attrs report_items report_node
           "schedule" (None, VTimedelta 3600000000)).
  - vm_compute. reflexivity.
  - vm_compute. reflexivity.
  - vm_compute. reflexivity.
  - reflexivity.
  - reflexivity.
  - reflexivity.
  - vm_compute. reflexivity.
Defined.

(** The class of an operator is recorded, not restored: [serialize_operator]
    stores the name and the module of the class under [_task_type] and
    [_task_module], whatever the fields of the operator are called;
    [deserialize_operator] returns a [SerializedBaseOperator] whose
    [_task_type], which its [task_type] property reads, and [_task_module]
    hold that name and that module. *)
Theorem operator_class_is_recorded (E : environment) (name module : string)
    (attrs : attributes) (d : dict_items) (node : value) :
  serialize_operator E name module attrs = Return (VDict d) ->
  fst (deserialize_operator E (VDict d)) = Return node ->
  dict_get (KStr "_task_type") d = Some (VStr name) /\
  dict_get (KStr "_task_module") d = Some (VStr module) /\
  exists attrs',
    node = VInst SerializedBaseOperator_class attrs' /\
    attr_get "_task_type" attrs' = Some (None, VStr name) /\
    attr_get "_task_module" attrs' = Some (None, VStr module).
Proof.
  intros Hser Hdec.
  destruct (serialize_operator_inv _ _ _ _ _ Hser) as [d0 [Hd0 Hd]]. injection Hd as Hd.
  destruct (serialize_to_json_keys _ _ _ _ _ _ Hd0) as [Hnodup _].
  assert (Htype : dict_get (KStr "_task_type") d = Some (VStr name)).
  { subst d. rewrite dict_get_set_other by reflexivity. apply dict_get_set_same. }
  assert (Hmodule : dict_get (KStr "_task_module") d = Some (VStr module)).
  { subst d. apply dict_get_set_same. }
  assert (Hkeys : NoDup (dict_keys d)) by (subst d; do 2 apply dict_set_NoDup; exact Hnodup).
  split; [exact Htype|]. split; [exact Hmodule|].
  destruct (deserialize_operator_inv _ _ _ Hdec)
    as [task_id [op0 [links [op1 [_ [_ [_ [Hloop ->]]]]]]]].
  destruct (decode_operator_fields_lookup _ _ _ _ _ _ Hloop) as [_ Hnamed].
  eexists. split; [reflexivity|]. split.
  - destruct (Hnamed Hkeys _ _ Htype) as [x [Hx Hattr]].
    rewrite set_missing_to_None_keeps
      by (left; unfold dict_contains; rewrite Htype; reflexivity).
    rewrite Hattr. unfold decode_operator_field in Hx. cbn [String.eqb Ascii.eqb Bool.eqb] in Hx.
    change (mem "_task_type" ["retry_delay"; "execution_timeout"]) with false in Hx.
    change (endswith "_task_type" "_date") with false in Hx.
    destruct (mem "_task_type" (_decorated_fields SerializedBaseOperator)
              || negb (mem "_task_type" (operator_serialized_fields E)));
      injection Hx as <-; reflexivity.
  - destruct (Hnamed Hkeys _ _ Hmodule) as [x [Hx Hattr]].
    rewrite set_missing_to_None_keeps
      by (left; unfold dict_contains; rewrite Hmodule; reflexivity).
    rewrite Hattr. unfold decode_operator_field in Hx. cbn [String.eqb Ascii.eqb Bool.eqb] in Hx.
    change (mem "_task_module" ["retry_delay"; "execution_timeout"]) with false in Hx.
    change (endswith "_task_module" "_date") with false in Hx.
    destruct (mem "_task_module" (_decorated_fields SerializedBaseOperator)
              || negb (mem "_task_module" (operator_serialized_fields E)));
      injection Hx as <-; reflexivity.
Qed.

Lemma operator_class_is_recorded_witness :
  dict_get (KStr "_task_type") report_items = Some (VStr "PythonOperator") /\
  dict_get (KStr "_task_module") report_items
    = Some (VStr "airflow.operators.python_operator") /\
  exists attrs',
    report_node = VInst SerializedBaseOperator_class attrs' /\
    attr_get "_task_type" attrs' = Some (None, VStr "PythonOperator") /\
    attr_get "_task_module" attrs' = Some (None, VStr "airflow.operators.python_operator").
Proof.
  apply (operator_class_is_recorded Demo.env "PythonOperator"
           "airflow.operators.python_operator" report_attrs report_items report_node).
  - vm_compute. reflexivity.
  - vm_compute. reflexivity.
Defined.

(** A field the payload of an operator leaves out: when the constructor has
    a hard-coded default for it, the decoded operator holds what the
    constructor of [SerializedBaseOperator] set; when it has none and the
    field is a serialized field, the decoded operator holds [None]. *)
Theorem operator_field_left_out (E : environment) (items : dict_items) (node : value)
    (key : string) :
  fst (deserialize_operator E (VDict items)) = Return node ->
  dict_get (KStr key) items = None ->
  String.eqb key "operator_extra_links" = false ->
  exists task_id op0 attrs',
    dict_get (KStr "task_id") items = Some task_id /\
    new_operator E task_id = Return op0 /\
    node = VInst SerializedBaseOperator_class attrs' /\
    (attr_get key (operator_constructor_params E) <> None ->
     attr_get key attrs' = attr_get key op0) /\
    (attr_get key (operator_constructor_params E) = None ->
     In key (operator_serialized_fields E) ->
     attr_get key attrs' = Some (None, VNone)).
Proof.
  intros Hdec Hkey Hlinks.
  destruct (deserialize_operator_inv _ _ _ Hdec)
    as [task_id [op0 [links [op1 [Hid [Hnew [_ [Hloop ->]]]]]]]].
  exists task_id, op0. eexists.
  split.
  { unfold getitem in Hid. destruct (dict_get (KStr "task_id") items); [|discriminate].
    injection Hid as <-. reflexivity. }
  split; [exact Hnew|]. split; [reflexivity|].
  destruct (decode_operator_fields_lookup _ _ _ _ _ _ Hloop) as [Hother _].
  split.
  - intros Hdefault. rewrite set_missing_to_None_keeps by (right; exact Hdefault).
    rewrite (Hother key Hkey). apply attr_get_set_other. exact Hlinks.
  - intros Hdefault Hfield. apply set_missing_to_None_sets.
    + apply dict_contains_get. exact Hkey.
    + exact Hdefault.
    + left. apply mem_In. exact Hfield.
Qed.

Lemma operator_field_left_out_witness :
  exists task_id op0 attrs',
    dict_get (KStr "task_id") Demo.notify_items = Some task_id /\
    new_operator Demo.env task_id = Return op0 /\
    fst (deserialize_operator Demo.env (VDict Demo.notify_items))
      = Return (VInst SerializedBaseOperator_class attrs') /\
    attr_get "owner" attrs' = attr_get "owner" op0 /\
    attr_get "owner" op0 = Some Demo.default_owner.
Proof.
  destruct (fst (deserialize_operator Demo.env (VDict Demo.notify_items))) as [node|e] eqn:Hdec;
    [|vm_compute in Hdec; discriminate].
  destruct (operator_field_left_out Demo.env Demo.notify_items node "owner" Hdec
              eq_refl eq_refl)
    as [task_id [op0 [attrs' [Hid [Hnew [-> [Hdefault _]]]]]]].
  exists task_id, op0, attrs'.
  split; [exact Hid|]. split; [exact Hnew|]. split; [reflexivity|].
  split; [apply Hdefault; vm_compute; discriminate|].
  vm_compute in Hid. injection Hid as <-. vm_compute in Hnew. injection Hnew as <-.
  reflexivity.
Defined.

Lemma empty_config_is_excluded (E : environment) (s : slot) (key : string)
    (attrs : attributes) :
  In key ["executor_config"; "params"] -> py_truthy (snd s) = false ->
  _is_excluded E SerializedBaseOperator s key attrs = true.
Proof.
  intros Hkey Hempty. unfold _is_excluded.
  destruct (matches_dag_date s key attrs); [reflexivity|].
  unfold empty_config. rewrite Hempty.
  destruct Hkey as [<- | [<- | []]]; reflexivity.
Qed.

(** An empty [executor_config] or [params] of an operator is not stored, and
    does not come back: the payload has no entry for it, and when the
    constructor has no hard-coded default for that serialized field the
    decoded operator holds [None] where the operator held an empty value. *)
Theorem operator_empty_config_comes_back_as_None (E : environment) (name module : string)
    (attrs : attributes) (d : dict_items) (node : value) (key : string) :
  serialize_operator E name module attrs = Return (VDict d) ->
  fst (deserialize_operator E (VDict d)) = Return node ->
  In key ["executor_config"; "params"] ->
  py_truthy (snd (getattr_or_None (VInst (COp name module) attrs) key)) = false ->
  dict_get (KStr key) d = None /\
  (In key (operator_serialized_fields E) ->
   attr_get key (operator_constructor_params E) = None ->
   exists attrs', node = VInst SerializedBaseOperator_class attrs' /\
                  attr_get key attrs' = Some (None, VNone)).
Proof.
  intros Hser Hdec Hkey Hempty.
  destruct (serialize_operator_inv _ _ _ _ _ Hser) as [d0 [Hd0 Hd]]. injection Hd as Hd.
  assert (Habsent : dict_get (KStr key) d = None).
  { subst d.
    rewrite !dict_get_set_other
      by (rewrite KStr_eqb; destruct Hkey as [<- | [<- | []]]; reflexivity).
    destruct (serialize_to_json_loop_lookup E _ attrs _ _ [] d0 Hd0 key) as [Hget _].
    rewrite Hget. unfold serialized_field.
    change (getattr_or_None (VInst (COp name module) attrs) key)
      with (getattr_or_None (VInst CDag attrs) key) in Hempty.
    rewrite (empty_config_is_excluded E _ key attrs Hkey Hempty).
    destruct (mem key (get_serialized_fields E (COp name module))); reflexivity. }
  split; [exact Habsent|].
  intros Hfield Hdefault. apply mem_In in Hfield.
  exact (deserialize_operator_missing_field E d node key Hdec Habsent Hfield Hdefault).
Qed.

Lemma operator_empty_config_comes_back_as_None_witness :
  attr_get "params" report_attrs = Some (None, VDict []) /\
  dict_get (KStr "params") report_items = None /\
  exists attrs', report_node = VInst SerializedBaseOperator_class attrs' /\
                 attr_get "params" attrs' = Some (None, VNone).
Proof.
  split; [reflexivity|].
  destruct (operator_empty_config_comes_back_as_None Demo.env "PythonOperator"
              "airflow.operators.python_operator" report_attrs report_items report_node
              "params") as [Habsent Hback].
  - vm_compute. reflexivity.
  - vm_compute. reflexivity.
  - simpl. auto.
  - reflexivity.
  - split; [exact Habsent|]. apply Hback; [simpl; auto 15 | reflexivity].
Defined.

(** ** The repairs at the end of [deserialize_dag] *)

(** What [link_tasks] returns, step by step. *)
Lemma link_tasks_inv (dag dag' : attributes) :
  link_tasks dag = Return dag' ->
  exists fileloc a first last,
    attr_get "fileloc" dag = Some fileloc /\
    attr_get "task_dict" (attr_set "full_filepath" fileloc dag) = Some (a, VDict first) /\
    fold_left (fun acc key => task_dict <- acc ;;
                 link_task (attr_set "full_filepath" fileloc dag) task_dict key)
      (dict_keys first) (Return first) = Return last /\
    dag' = attr_set "task_dict" (a, VDict last) (attr_set "full_filepath" fileloc dag).
Proof.
  unfold link_tasks, getattr. intros H.
  destruct (attr_get "fileloc" dag) as [fileloc|] eqn:Hfileloc; cbn [bind] in H;
    [|discriminate].
  destruct (attr_get "task_dict" (attr_set "full_filepath" fileloc dag)) as [[a tasks]|]
    eqn:Htasks; cbn [bind snd fst] in H; [|discriminate].
  destruct tasks; try discriminate.
  match type of H with
  | context [fold_left ?f ?l ?a0] => destruct (fold_left f l a0) as [last|e] eqn:Hfold
  end; cbn [bind] in H; [|discriminate].
  injection H as <-. exists fileloc, a, items, last. auto.
Qed.

(** One turn of the loop over the tasks, step by step. *)
Lemma link_task_inv (dag : attributes) (task_dict task_dict' : dict_items) (key : dict_key) :
  link_task dag task_dict key = Return task_dict' ->
  exists c task t1 t2 t3 t4 downstream ids,
    dict_get key task_dict = Some (VInst c task) /\
    set_task_dag dag task = Return t1 /\
    inherit_date dag t1 "start_date" = Return t2 /\
    inherit_date dag t2 "end_date" = Return t3 /\
    link_subdag dag t3 = Return t4 /\
    attr_get "_downstream_task_ids" t4 = Some downstream /\
    py_iter (snd downstream) = Return ids /\
    fold_left (fun acc task_id => task_dict <- acc ;; add_upstream task_dict task_id)
      ids (Return (dict_set key (VInst c t4) task_dict)) = Return task_dict'.
Proof.
  unfold link_task. intros H.
  destruct (dict_get key task_dict) as [[]|] eqn:H0; try discriminate.
  destruct (set_task_dag dag attrs) as [t1|] eqn:H1; cbn [bind] in H; [|discriminate].
  destruct (inherit_date dag t1 "start_date") as [t2|] eqn:H2; cbn [bind] in H; [|discriminate].
  destruct (inherit_date dag t2 "end_date") as [t3|] eqn:H3; cbn [bind] in H; [|discriminate].
  destruct (link_subdag dag t3) as [t4|] eqn:H4; cbn [bind] in H; [|discriminate].
  unfold getattr in H.
  destruct (attr_get "_downstream_task_ids" t4) as [downstream|] eqn:H5; cbn [bind] in H;
    [|discriminate].
  destruct (py_iter (snd downstream)) as [ids|] eqn:H6; cbn [bind] in H; [|discriminate].
  exists c, attrs, t1, t2, t3, t4, downstream, ids. auto 10.
Qed.

(** What [add_upstream] returns: the table with the set of the task stored
    under [task_id] grown by [task_id]. *)
Lemma add_upstream_inv (task_dict task_dict' : dict_items) (task_id : value) :
  add_upstream task_dict task_id = Return task_dict' ->
  exists key c target a ids,
    as_key task_id = Return key /\
    dict_get key task_dict = Some (VInst c target) /\
    attr_get "_upstream_task_ids" target = Some (a, VSet ids) /\
    task_dict' = dict_set key
                   (VInst c (attr_set "_upstream_task_ids" (a, VSet (set_add task_id ids))
                               target))
                   task_dict.
Proof.
  unfold add_upstream, getattr. intros H.
  destruct (as_key task_id) as [key|] eqn:Hkey; cbn [bind] in H; [|discriminate].
  destruct (dict_get key task_dict) as [[]|] eqn:Hget; try discriminate.
  destruct (attr_get "_upstream_task_ids" attrs) as [[a upstream]|] eqn:Hup;
    cbn [bind snd fst] in H; [|discriminate].
  destruct upstream as [ | | | | | | | |ids| | | | | | | | ]; try discriminate.
  injection H as <-. exists key, c, attrs, a, ids. auto.
Qed.

(** The steps on one task leave its other attributes alone. *)
Lemma task_steps_frame (dag task t1 t2 t3 t4 : attributes) (name : string) :
  set_task_dag dag task = Return t1 ->
  inherit_date dag t1 "start_date" = Return t2 ->
  inherit_date dag t2 "end_date" = Return t3 ->
  link_subdag dag t3 = Return t4 ->
  String.eqb name "start_date" = false -> String.eqb name "end_date" = false ->
  String.eqb name "subdag" = false ->
  (String.eqb name "_dag" = false -> attr_get name t4 = attr_get name task) /\
  (name = "_dag" -> attr_get name t4 = Some (None, dag_view dag)).
Proof.
  intros H1 H2 H3 H4 Hstart Hend Hsub.
  assert (Hlater : attr_get name t4 = attr_get name t1).
  { rewrite (link_subdag_spec _ _ _ H4 name Hsub).
    rewrite (proj1 (inherit_date_spec _ _ _ _ H3) name Hend).
    exact (proj1 (inherit_date_spec _ _ _ _ H2) name Hstart). }
  split.
  - intros Hdag. rewrite Hlater. exact (set_task_dag_spec _ _ _ H1 name Hdag).
  - intros ->. rewrite Hlater. unfold set_task_dag in H1.
    destruct (has_dag task); [discriminate|]. injection H1 as <-.
    apply attr_get_set_same.
Qed.

Lemma set_add_In (x y : value) (s : list value) : In x (set_add y s) -> In x s \/ x = y.
Proof.
  unfold set_add. destruct (existsb (fun z => py_eq z y) s); [auto|].
  intros H. apply in_app_or in H. destruct H as [H | [H | []]]; auto.
Qed.

Lemma add_upstream_repaired (dag : attributes) (first : dict_items) (done : list dict_key)
    (task_dict task_dict' : dict_items) (task_id : value) :
  tasks_repaired dag first done task_dict ->
  add_upstream task_dict task_id = Return task_dict' ->
  tasks_repaired dag first done task_dict'.
Proof.
  intros Hinv Hadd.
  destruct (add_upstream_inv _ _ _ Hadd) as [key' [c [target [a [ids [Hkey [Hget [Hup ->]]]]]]]].
  intros key node Hnode.
  destruct (dict_key_eqb key key') eqn:Heq.
  - apply dict_key_eqb_eq in Heq. subst key'. rewrite dict_get_set_same in Hnode.
    injection Hnode as <-.
    destruct (Hinv key _ Hget) as [Hdone [orig [Horig Hgrown]]]. split.
    + intros Hin. destruct (Hdone Hin) as [c0 [t0 [Hnode Hdag]]]. injection Hnode as <- <-.
      exists c, (attr_set "_upstream_task_ids" (a, VSet (set_add task_id ids)) target).
      split; [reflexivity|]. rewrite attr_get_set_other by reflexivity. exact Hdag.
    + exists orig. split; [exact Horig|].
      intros ids' Hids'. unfold upstream_ids in Hids'. rewrite attr_get_set_same in Hids'.
      injection Hids' as <-.
      destruct (Hgrown ids) as [ids0 [Hids0 Hsub]].
      { unfold upstream_ids. rewrite Hup. reflexivity. }
      exists ids0. split; [exact Hids0|].
      intros x Hx. apply set_add_In in Hx. destruct Hx as [Hx | ->]; [auto|].
      right. exact Hkey.
  - rewrite (dict_get_set_other _ _ _ _ Heq) in Hnode. exact (Hinv key node Hnode).
Qed.

Lemma link_task_repaired (dag : attributes) (first : dict_items) (done : list dict_key)
    (task_dict task_dict' : dict_items) (key : dict_key) :
  tasks_repaired dag first done task_dict ->
  link_task dag task_dict key = Return task_dict' ->
  tasks_repaired dag first (key :: done) task_dict'.
Proof.
  intros Hinv Hlink.
  destruct (link_task_inv _ _ _ _ Hlink)
    as [c [task [t1 [t2 [t3 [t4 [downstream [ids [Hget [H1 [H2 [H3 [H4 [_ [_ Hfold]]]]]]]]]]]]]]].
  assert (Hstart : tasks_repaired dag first (key :: done)
                     (dict_set key (VInst c t4) task_dict)).
  { intros k node Hnode.
    destruct (dict_key_eqb k key) eqn:Heq.
    - apply dict_key_eqb_eq in Heq. subst k. rewrite dict_get_set_same in Hnode.
      injection Hnode as <-.
      destruct (Hinv key _ Hget) as [_ [orig [Horig Hgrown]]]. split.
      + intros _. exists c, t4. split; [reflexivity|].
        exact (proj2 (task_steps_frame dag task t1 t2 t3 t4 "_dag" H1 H2 H3 H4
                        eq_refl eq_refl eq_refl) eq_refl).
      + exists orig. split; [exact Horig|].
        intros ids' Hids'. apply Hgrown. unfold upstream_ids in *.
        rewrite <- (proj1 (task_steps_frame dag task t1 t2 t3 t4 "_upstream_task_ids"
                             H1 H2 H3 H4 eq_refl eq_refl eq_refl) eq_refl).
        exact Hids'.
    - rewrite (dict_get_set_other _ _ _ _ Heq) in Hnode.
      destruct (Hinv k node Hnode) as [Hdone Hgrown]. split; [|exact Hgrown].
      intros [<- | Hin]; [|auto].
      rewrite dict_key_eqb_refl in Heq. discriminate. }
  exact (fold_outcome_invariant add_upstream
           (fun _ td => tasks_repaired dag first (key :: done) td)
           (fun _ td tid td' Htd Hadd => add_upstream_repaired _ _ _ _ _ _ Htd Hadd)
           ids [] _ _ Hstart Hfold).
Qed.

Lemma attr_remove_set (name : string) (s : slot) (attrs : attributes) :
  attr_remove name (attr_set name s attrs) = attr_remove name attrs.
Proof.
  induction attrs as [|[name' s'] tl IH]; simpl.
  - rewrite String.eqb_refl. reflexivity.
  - destruct (String.eqb name name') eqn:Heq; simpl; rewrite Heq; [reflexivity|].
    rewrite IH. reflexivity.
Qed.

(** The table of tasks [link_tasks] leaves, against the one it found. *)
Lemma link_tasks_repaired (dag dag' : attributes) :
  link_tasks dag = Return dag' ->
  exists a first last,
    attr_get "task_dict" dag = Some (a, VDict first) /\
    attr_get "task_dict" dag' = Some (a, VDict last) /\
    attr_get "full_filepath" dag' = attr_get "fileloc" dag /\
    (forall name, String.eqb name "full_filepath" = false ->
                  String.eqb name "task_dict" = false ->
                  attr_get name dag' = attr_get name dag) /\
    forall key node,
      dict_get key last = Some node ->
      refers_to dag' node /\
      exists orig, dict_get key first = Some orig /\ upstream_grown key orig node.
Proof.
  intros Hlink.
  destruct (link_tasks_inv _ _ Hlink) as [fileloc [a [first [last [Hfile [Hfirst [Hfold ->]]]]]]].
  exists a, first, last.
  rewrite attr_get_set_other in Hfirst by reflexivity.
  split; [exact Hfirst|]. split; [apply attr_get_set_same|].
  split; [rewrite attr_get_set_other by reflexivity; rewrite attr_get_set_same; auto|].
  split.
  { intros name Hname Htd. rewrite !attr_get_set_other by assumption. reflexivity. }
  set (dag1 := attr_set "full_filepath" fileloc dag) in *.
  assert (Hstart : tasks_repaired dag1 first [] first).
  { intros key node Hnode. split; [intros []|].
    exists node. split; [exact Hnode|]. intros ids' Hids'. exists ids'. auto. }
  pose proof (fold_outcome_invariant (link_task dag1)
                (fun done td => tasks_repaired dag1 first done td)
                (fun done td key td' Htd Hstep => link_task_repaired _ _ _ _ _ _ Htd Hstep)
                (dict_keys first) [] first last Hstart Hfold) as Hend.
  intros key node Hnode.
  destruct (Hend key node Hnode) as [Hdone [orig [Horig Hgrown]]].
  split; [|exists orig; auto].
  assert (Hview : dag_view (attr_set "task_dict" (a, VDict last) dag1) = dag_view dag1)
    by (unfold dag_view; rewrite attr_remove_set; reflexivity).
  unfold refers_to. rewrite Hview. apply Hdone.
  rewrite app_nil_r. apply in_rev. rewrite rev_involutive.
  exact (dict_get_in_keys _ _ _ Horig).
Qed.

(** What [deserialize_dag] returns, step by step. *)
Lemma deserialize_dag_inv (E : environment) (items : dict_items) (node : value) :
  fst (deserialize_dag E (VDict items)) = Return node ->
  exists dag_id dag0 dag1 dag,
    getitem items "_dag_id" = Return dag_id /\
    new_dag E dag_id = Return dag0 /\
    fst (decode_dag_fields (deserialize_operator E) (_deserialize E) E dag0 items)
      = Return dag1 /\
    link_tasks (set_missing_to_None E SerializedDAG (dag_serialized_fields E) items dag1)
      = Return dag /\
    node = VInst CDag dag.
Proof.
  intros Hdec. rewrite deserialize_dag_unfold in Hdec. unfold deserialize_dag_with in Hdec.
  destruct (getitem items "_dag_id") as [dag_id|] eqn:Hid; cbn [bind] in Hdec; [|discriminate].
  destruct (new_dag E dag_id) as [dag0|] eqn:Hnew; [|discriminate].
  destruct (decode_dag_fields (deserialize_operator E) (_deserialize E) E dag0 items)
    as [[dag1|] items'] eqn:Hloop; [|discriminate].
  cbn [fst bind] in Hdec.
  destruct (link_tasks (set_missing_to_None E SerializedDAG (dag_serialized_fields E)
                          items dag1)) as [dag|] eqn:Hlink; [|discriminate].
  cbn [bind] in Hdec. injection Hdec as <-.
  exists dag_id, dag0, dag1, dag. rewrite Hloop. auto.
Qed.

(** A decoded DAG has its file path: [full_filepath] is what [fileloc]
    holds, and [fileloc] is there. *)
Theorem decoded_dag_has_its_file_path (E : environment) (items : dict_items) (node : value) :
  fst (deserialize_dag E (VDict items)) = Return node ->
  exists dag fileloc,
    node = VInst CDag dag /\
    attr_get "fileloc" dag = Some fileloc /\
    attr_get "full_filepath" dag = Some fileloc.
Proof.
  intros Hdec.
  destruct (deserialize_dag_inv _ _ _ Hdec) as [dag_id [dag0 [dag1 [dag [_ [_ [_ [Hlink ->]]]]]]]].
  destruct (link_tasks_inv _ _ Hlink) as [fileloc [a [first [last [Hfile [_ [_ ->]]]]]]].
  eexists. exists fileloc. split; [reflexivity|]. split.
  - rewrite !attr_get_set_other by reflexivity. exact Hfile.
  - rewrite attr_get_set_other by reflexivity. apply attr_get_set_same.
Qed.

Lemma decoded_dag_has_its_file_path_witness :
  exists dag fileloc,
    fst (deserialize_dag Demo.env (VDict Demo.g2_items)) = Return (VInst CDag dag) /\
    attr_get "fileloc" dag = Some fileloc /\
    attr_get "full_filepath" dag = Some fileloc.
Proof.
  destruct (fst (deserialize_dag Demo.env (VDict Demo.g2_items))) as [node|e] eqn:Hdec;
    [|vm_compute in Hdec; discriminate].
  destruct (decoded_dag_has_its_file_path Demo.env Demo.g2_items node Hdec)
    as [dag [fileloc [-> [Hfile Hfull]]]].
  exists dag, fileloc. auto.
Defined.

(** Every task of a decoded DAG belongs to it: its [_dag] attribute is the
    decoded DAG, so that [has_dag()] holds of it. *)
Theorem decoded_tasks_refer_to_the_dag (E : environment) (items : dict_items) (node : value) :
  fst (deserialize_dag E (VDict items)) = Return node ->
  exists dag a task_dict,
    node = VInst CDag dag /\
    attr_get "task_dict" dag = Some (a, VDict task_dict) /\
    forall key task_node,
      dict_get key task_dict = Some task_node ->
      exists c task,
        task_node = VInst c task /\
        attr_get "_dag" task = Some (None, dag_view dag) /\
        has_dag task = true.
Proof.
  intros Hdec.
  destruct (deserialize_dag_inv _ _ _ Hdec) as [dag_id [dag0 [dag1 [dag [_ [_ [_ [Hlink ->]]]]]]]].
  destruct (link_tasks_repaired _ _ Hlink) as [a [first [last [_ [Hlast [_ [_ Hnodes]]]]]]].
  exists dag, a, last. split; [reflexivity|]. split; [exact Hlast|].
  intros key task_node Hget.
  destruct (Hnodes key task_node Hget) as [[c [task [-> Hdag]]] _].
  exists c, task. split; [reflexivity|]. split; [exact Hdag|].
  unfold has_dag, getattr_or_None. rewrite Hdag. reflexivity.
Qed.

Lemma decoded_tasks_refer_to_the_dag_witness :
  exists dag a task_dict,
    fst (deserialize_dag Demo.env Demo.g1) = Return (VInst CDag dag) /\
    attr_get "task_dict" dag = Some (a, VDict task_dict) /\
    forall key task_node,
      dict_get key task_dict = Some task_node ->
      exists c task,
        task_node = VInst c task /\
        attr_get "_dag" task = Some (None, dag_view dag) /\
        has_dag task = true.
Proof.
  destruct (fst (deserialize_dag Demo.env Demo.g1)) as [node|e] eqn:Hdec;
    [|vm_compute in Hdec; discriminate].
  destruct (decoded_tasks_refer_to_the_dag Demo.env _ node Hdec)
    as [dag [a [task_dict [-> [Htd Hnodes]]]]].
  exists dag, a, task_dict. auto.
Defined.

(** The upstream sets of a decoded DAG gain nothing but their own key: an
    identifier in the [_upstream_task_ids] of the task stored under [key] is
    an identifier of [key] itself, or was in that set when
    [deserialize_operator] returned the task.  No task is told which other
    task it depends on. *)
Theorem upstream_sets_gain_only_their_own_key (E : environment) (items : dict_items)
    (node : value) :
  fst (deserialize_dag E (VDict items)) = Return node ->
  (exists v, In (KStr "tasks", v) items) ->
  (forall v, ~ In (KStr "task_dict", v) items) ->
  exists dag a task_dict,
    node = VInst CDag dag /\
    attr_get "task_dict" dag = Some (a, VDict task_dict) /\
    forall key task_node ids' x,
      dict_get key task_dict = Some task_node ->
      upstream_ids task_node = Some ids' ->
      In x ids' ->
      as_key x = Return key \/
      exists v titems orig ids,
        In (KStr "tasks", v) items /\ In (VDict titems) (payload_members v) /\
        fst (deserialize_operator E (VDict titems)) = Return orig /\
        upstream_ids orig = Some ids /\ In x ids.
Proof.
  intros Hdec Htasks Hno.
  destruct (deserialize_dag_inv _ _ _ Hdec)
    as [dag_id [dag0 [dag1 [dag [_ [_ [Hloop [Hlink ->]]]]]]]].
  destruct (decode_dag_fields_task_dict (deserialize_operator E) (_deserialize E) E
              items items dag0 dag1 Hloop) as [a1 [td [Hattr1 Hfrom]]];
    [auto | exact Hno | right; exact Htasks |].
  destruct (link_tasks_repaired _ _ Hlink) as [a [first [last [Hfirst [Hlast [_ [_ Hnodes]]]]]]].
  assert (Hsame : first = td).
  { destruct (set_missing_to_None_attr E SerializedDAG (dag_serialized_fields E)
                items "task_dict" dag1) as [H | H]; rewrite H in Hfirst.
    - rewrite Hattr1 in Hfirst. congruence.
    - discriminate. }
  subst first.
  exists dag, a, last. split; [reflexivity|]. split; [exact Hlast|].
  intros key task_node ids' x Hget Hids' Hx.
  destruct (Hnodes key task_node Hget) as [_ [orig [Horig Hgrown]]].
  destruct (Hgrown ids' Hids') as [ids [Hids Hsub]].
  destruct (Hsub x Hx) as [Hold | Hown]; [|left; exact Hown].
  right. destruct (Hfrom key orig Horig) as [v [titems [Hin [Hmember Horigin]]]].
  exists v, titems, orig, ids. auto.
Qed.

Lemma upstream_sets_gain_only_their_own_key_witness :
  exists dag a task_dict,
    fst (deserialize_dag Demo.env Demo.g1) = Return (VInst CDag dag) /\
    attr_get "task_dict" dag = Some (a, VDict task_dict) /\
    forall key task_node ids' x,
      dict_get key task_dict = Some task_node ->
      upstream_ids task_node = Some ids' ->
      In x ids' ->
      as_key x = Return key \/
      exists v titems orig ids,
        In (KStr "tasks", v) [ (KStr "_dag_id", VStr "g1"); (KStr "fileloc", VStr "dags/g1.py");
                               (KStr "tasks", VList [Demo.task_a; Demo.task_b]) ] /\
        In (VDict titems) (payload_members v) /\
        fst (deserialize_operator Demo.env (VDict titems)) = Return orig /\
        upstream_ids orig = Some ids /\ In x ids.
Proof.
  destruct (fst (deserialize_dag Demo.env Demo.g1)) as [node|e] eqn:Hdec;
    [|vm_compute in Hdec; discriminate].
  destruct (upstream_sets_gain_only_their_own_key Demo.env _ node Hdec)
    as [dag [a [task_dict [-> [Htd Hnodes]]]]].
  - eexists. simpl. right. right. left. reflexivity.
  - intros v Hin. simpl in Hin. intuition discriminate.
  - exists dag, a, task_dict. auto.
Defined.

(** ** A DAG, encoded then decoded *)

(** The loop of [deserialize_dag] over the payload: an attribute the payload
    does not name is as it was, the table of tasks apart; an attribute it
    names holds what the rule of that field returned. *)
Lemma decode_dag_fields_lookup (f g : value -> decoding) (E : environment)
    (items : dict_items) :
  forall dag dag',
    fst (decode_dag_fields f g E dag items) = Return dag' ->
    (forall name, dict_get (KStr name) items = None -> String.eqb name "task_dict" = false ->
                  attr_get name dag' = attr_get name dag) /\
    (NoDup (dict_keys items) ->
     forall k v, dict_get (KStr k) items = Some v ->
       String.eqb k "tasks" = false -> String.eqb k "task_dict" = false ->
       exists x, fst (fst (decode_dag_field f g E k v)) = Return x /\
                 attr_get k dag' = Some (None, x)).
Proof.
  induction items as [|[[k0|n] v0] tl IH]; intros dag dag' Hloop;
    cbn [decode_dag_fields] in Hloop.
  - injection Hloop as <-. split; [reflexivity | discriminate].
  - pose proof (decode_dag_field_name f g E k0 v0) as Hname.
    destruct (decode_dag_field f g E k0 v0) as [[[x0|e] v0'] name0] eqn:Hfield; [|discriminate].
    cbn [snd] in Hname.
    destruct (decode_dag_fields f g E (setattr dag name0 x0) tl) as [r tl'] eqn:Htl.
    cbn [fst] in Hloop.
    assert (Hrest : fst (decode_dag_fields f g E (setattr dag name0 x0) tl) = Return dag')
      by (rewrite Htl; exact Hloop).
    destruct (IH _ _ Hrest) as [Hother Hnamed]. split.
    + intros name Hk Htd. cbn [dict_get] in Hk. rewrite KStr_eqb in Hk.
      destruct (String.eqb name k0) eqn:Heq; [discriminate|].
      rewrite (Hother name Hk Htd). apply attr_get_set_other.
      rewrite Hname. destruct (String.eqb k0 "tasks"); assumption.
    + intros Hnodup k v Hk Htasks Htd. cbn [dict_get] in Hk. rewrite KStr_eqb in Hk.
      cbn [dict_keys map fst] in Hnodup. inversion Hnodup as [|? ? Hfresh Hnodup']. subst.
      destruct (String.eqb k k0) eqn:Heq.
      * apply String.eqb_eq in Heq. subst k0. injection Hk as <-.
        exists x0. rewrite Hfield. split; [reflexivity|].
        rewrite (Hother k (dict_get_absent _ _ Hfresh) Htd).
        rewrite Htasks. apply attr_get_set_same.
      * exact (Hnamed Hnodup' k v Hk Htasks Htd).
  - discriminate.
Qed.

(** A field of a DAG through [serialize_dag] and [deserialize_dag]. *)
Lemma dag_field_decoded (E : environment) (attrs : attributes) (d : dict_items)
    (node : value) (key : string) (v : value) :
  serialize_dag E attrs = Return (VDict d) ->
  fst (deserialize_dag E (VDict d)) = Return node ->
  mem key (dag_serialized_fields E) = true ->
  String.eqb key "tasks" = false -> String.eqb key "task_dict" = false ->
  String.eqb key "full_filepath" = false ->
  serialized_field E SerializedDAG attrs (_decorated_fields SerializedDAG) key
    = Some (Return v) ->
  exists dag x,
    node = VInst CDag dag /\
    fst (fst (decode_dag_field (deserialize_operator E) (_deserialize E) E key v)) = Return x /\
    attr_get key dag = Some (None, x).
Proof.
  intros Hser Hdec Hmem Htasks Htd Hpath Hfield.
  destruct (serialize_dag_with_inv _ _ _ _ Hser) as [d0 [a [td [tasks [Hd0 [_ [_ Hd]]]]]]].
  injection Hd as ->.
  pose proof (serialize_to_json_lookup E _ CDag attrs _ d0 key Hd0 Hmem) as Hget.
  rewrite Hfield in Hget.
  destruct (serialize_to_json_keys E _ CDag _ _ _ Hd0) as [Hnodup _].
  set (d := dict_set (KStr "tasks") (VList tasks) d0) in *.
  assert (Hd : dict_get (KStr key) d = Some v).
  { unfold d. rewrite dict_get_set_other by (rewrite KStr_eqb; assumption). exact Hget. }
  assert (Hkeys : NoDup (dict_keys d)) by (unfold d; apply dict_set_NoDup; exact Hnodup).
  destruct (deserialize_dag_inv _ _ _ Hdec)
    as [dag_id [dag0 [dag1 [dag [_ [_ [Hloop [Hlink ->]]]]]]]].
  destruct (decode_dag_fields_lookup _ _ _ _ _ _ Hloop) as [_ Hnamed].
  destruct (Hnamed Hkeys key v Hd Htasks Htd) as [x [Hx Hattr]].
  exists dag, x. split; [reflexivity|]. split; [exact Hx|].
  destruct (link_tasks_repaired _ _ Hlink) as [a' [first [last [_ [_ [_ [Hframe _]]]]]]].
  rewrite (Hframe key Hpath Htd).
  rewrite set_missing_to_None_keeps; [exact Hattr|].
  left. unfold dict_contains. rewrite Hd. reflexivity.
Qed.

(** The time zone of a DAG survives: it is stored as the bare name of the
    zone, and [deserialize_dag] looks that name up again. *)
Theorem dag_timezone_round_trip (E : environment) (attrs : attributes) (d : dict_items)
    (node : value) (a : addr) (name : string) :
  serialize_dag E attrs = Return (VDict d) ->
  fst (deserialize_dag E (VDict d)) = Return node ->
  In "timezone" (dag_serialized_fields E) ->
  attr_get "timezone" attrs = Some (a, VTimezone name) ->
  _is_excluded E SerializedDAG (a, VTimezone name) "timezone" attrs = false ->
  timezone_known E name = true ->
  dict_get (KStr "timezone") d = Some (VStr name) /\
  exists dag, node = VInst CDag dag /\
              attr_get "timezone" dag = Some (None, VTimezone name).
Proof.
  intros Hser Hdec Hfield Hget Hex Hknown.
  assert (Hstored : serialized_field E SerializedDAG attrs (_decorated_fields SerializedDAG)
                      "timezone" = Some (Return (VStr name))).
  { apply (serialized_field_plain E _ attrs _ "timezone" (a, VTimezone name)
             (_encode (VStr name) TIMEZONE)); auto. }
  apply mem_In in Hfield. split.
  - destruct (serialize_dag_with_inv _ _ _ _ Hser) as [d0 [a0 [td [tasks [Hd0 [_ [_ Hd]]]]]]].
    injection Hd as ->.
    pose proof (serialize_to_json_lookup E _ CDag attrs _ d0 _ Hd0 Hfield) as Hd.
    rewrite Hstored in Hd. rewrite dict_get_set_other by reflexivity. exact Hd.
  - destruct (dag_field_decoded E attrs d node "timezone" (VStr name))
      as [dag [x [-> [Hx Hattr]]]]; auto.
    exists dag. split; [reflexivity|]. rewrite Hattr.
    change (fst (fst (decode_dag_field (deserialize_operator E) (_deserialize E) E
                        "timezone" (VStr name))))
      with (timezone E (VStr name)) in Hx.
    unfold timezone in Hx. cbn [unenum] in Hx. rewrite Hknown in Hx.
    injection Hx as <-. reflexivity.
Qed.

Lemma dag_timezone_round_trip_witness :
  dict_get (KStr "timezone") Demo.g2_items = Some (VStr "UTC") /\
  exists dag, fst (deserialize_dag Demo.env (VDict Demo.g2_items)) = Return (VInst CDag dag) /\
              attr_get "timezone" dag = Some (None, VTimezone "UTC").
Proof.
  destruct (fst (deserialize_dag Demo.env (VDict Demo.g2_items))) as [node|e] eqn:Hdec;
    [|vm_compute in Hdec; discriminate].
  destruct (dag_timezone_round_trip Demo.env Demo.g2_attrs Demo.g2_items node None "UTC")
    as [Hstored [dag [-> Hzone]]].
  - vm_compute. reflexivity.
  - exact Hdec.
  - simpl. auto 10.
  - reflexivity.
  - vm_compute. reflexivity.
  - reflexivity.
  - split; [exact Hstored|]. exists dag. auto.
Defined.



Lemma comprehension_members {A B : Type} (f : A -> outcome B) (l : list A) (ws : list B) :
  comprehension f l = Return ws -> Forall2 (fun x w => f x = Return w) l ws.
Proof.
  revert ws. induction l as [|x tl IH]; intros ws Hc; unfold comprehension in *; simpl in Hc.
  - injection Hc as <-. constructor.
  - destruct (f x) as [w|e] eqn:Hx; cbn [bind] in Hc; [|discriminate].
    match type of Hc with
    | context [bind ?m _] => destruct m as [ws'|e] eqn:Htl
    end; cbn [bind] in Hc; [|discriminate].
    injection Hc as <-. constructor; [exact Hx | exact (IH ws' eq_refl)].
Qed.

(** The payload of a DAG lists every task: when [serialize_dag] returns, the
    DAG has a table of tasks, and the [tasks] entry of the payload is the
    list of what the encoder returns for each task of the table, in the order
    of the table; a DAG without table of tasks has no payload. *)
Theorem serialize_dag_lists_every_task (E : environment) (attrs : attributes) (w : value) :
  serialize_dag E attrs = Return w ->
  exists d a task_dict tasks,
    w = VDict d /\
    attr_get "task_dict" attrs = Some (a, VDict task_dict) /\
    dict_get (KStr "tasks") d = Some (VList tasks) /\
    length tasks = length task_dict /\
    Forall2 (fun kv task => _serialize E (snd kv) = Return task) task_dict tasks.
Proof.
  intros Hser.
  destruct (serialize_dag_with_inv _ _ _ _ Hser) as [d0 [a [td [tasks [_ [Htd [Htasks ->]]]]]]].
  eexists. exists a, td, tasks. split; [reflexivity|]. split; [exact Htd|].
  split; [apply dict_get_set_same|].
  pose proof (comprehension_members _ _ _ Htasks) as Hall.
  split; [symmetry; exact (Forall2_length Hall) | exact Hall].
Qed.

Lemma serialize_dag_lists_every_task_witness :
  exists d a task_dict tasks,
    serialize_dag Demo.env Demo.g2_attrs = Return (VDict d) /\
    attr_get "task_dict" Demo.g2_attrs = Some (a, VDict task_dict) /\
    dict_get (KStr "tasks") d = Some (VList tasks) /\
    length tasks = length task_dict /\
    Forall2 (fun kv task => _serialize Demo.env (snd kv) = Return task) task_dict tasks.
Proof.
  destruct (serialize_dag Demo.env Demo.g2_attrs) as [w|e] eqn:Hser;
    [|vm_compute in Hser; discriminate].
  destruct (serialize_dag_lists_every_task Demo.env Demo.g2_attrs w Hser)
    as [d [a [task_dict [tasks [-> H]]]]].
  exists d, a, task_dict, tasks. split; [reflexivity | exact H].
Defined.

(** ** Payloads the decoders refuse *)

(** [_deserialize] needs both keys of an envelope, and nothing but
    primitives, lists and dictionaries: a dictionary without [__var] is a
    [KeyError] on [__var], one with [__var] but without [__type] a [KeyError]
    on [__type], a set, a tuple or any object an [AssertionError]; the
    argument is left as it was. *)
Theorem deserialize_needs_an_envelope (E : environment) :
  (forall items,
     dict_get VAR items = None ->
     _deserialize E (VDict items) = (Raise (KeyError "__var"), VDict items)) /\
  (forall items var,
     dict_get VAR items = Some var -> dict_get TYPE items = None ->
     _deserialize E (VDict items) = (Raise (KeyError "__type"), VDict items)) /\
  (forall encoded_var,
     _is_primitive encoded_var = false ->
     (forall l, encoded_var <> VList l) -> (forall items, encoded_var <> VDict items) ->
     _deserialize E encoded_var = (Raise AssertionError, encoded_var)).
Proof.
  split; [|split].
  - intros items Hvar. cbn [_deserialize].
    match goal with
    | |- (let (r, items') := with_item ?k ?p ?a items in _) = _ =>
        pose proof (with_item_get k p a items) as Hfst;
        pose proof (with_item_unchanged k p a items) as Hsnd;
        destruct (with_item k p a items) as [r items']
    end.
    cbn [fst snd] in *. rewrite Hvar in Hfst. subst r.
    rewrite Hsnd; [reflexivity|]. intros v Hv. congruence.
  - intros items var Hvar Htype. cbn [_deserialize].
    match goal with
    | |- (let (r, items') := with_item ?k ?p ?a items in _) = _ =>
        pose proof (with_item_get k p a items) as Hfst;
        pose proof (with_item_unchanged k p a items) as Hsnd;
        destruct (with_item k p a items) as [r items']
    end.
    cbn [fst snd] in *. rewrite Hvar, Htype in Hfst. cbn [fst] in Hfst. subst r.
    rewrite Hsnd; [reflexivity|]. intros v Hv. rewrite Htype. reflexivity.
  - intros encoded_var Hprim Hlist Hdict.
    destruct encoded_var; try discriminate; try reflexivity.
    + exfalso. exact (Hdict _ eq_refl).
    + exfalso. exact (Hlist _ eq_refl).
Qed.

Lemma deserialize_needs_an_envelope_witness :
  _deserialize Demo.env (VDict [(TYPE, DAT SET)])
    = (Raise (KeyError "__var"), VDict [(TYPE, DAT SET)]) /\
  _deserialize Demo.env (VDict [(VAR, VList [])])
    = (Raise (KeyError "__type"), VDict [(VAR, VList [])]) /\
  _deserialize Demo.env (VSet [VInt 1]) = (Raise AssertionError, VSet [VInt 1]).
Proof.
  destruct (deserialize_needs_an_envelope Demo.env) as [Hvar [Htype Hother]].
  split; [|split].
  - apply Hvar. reflexivity.
  - apply (Htype _ (VList [])); reflexivity.
  - apply Hother; [reflexivity | discriminate | discriminate].
Defined.

(** The entity decoders need the key field of their payload: an operator
    payload without [task_id], a DAG payload without [_dag_id] and, behind
    the version gate, a document without [dag] are a [KeyError] on that key;
    nothing is decoded and the payload is left as it was. *)
Theorem decoders_need_their_key (E : environment) (items : dict_items) :
  (dict_get (KStr "task_id") items = None ->
   deserialize_operator E (VDict items) = (Raise (KeyError "task_id"), VDict items)) /\
  (dict_get (KStr "_dag_id") items = None ->
   deserialize_dag E (VDict items) = (Raise (KeyError "_dag_id"), VDict items)) /\
  (forall ver,
     dict_get (KStr "__version") items = Some ver -> py_eq ver SERIALIZER_VERSION = true ->
     dict_get (KStr "dag") items = None ->
     from_dict E (VDict items) = (Raise (KeyError "dag"), VDict items)).
Proof.
  split; [|split].
  - intros Hkey. cbn [deserialize_operator]. unfold deserialize_operator_with, getitem.
    rewrite Hkey. reflexivity.
  - intros Hkey. rewrite deserialize_dag_unfold. unfold deserialize_dag_with, getitem.
    rewrite Hkey. reflexivity.
  - intros ver Hver Hsame Hdag. unfold from_dict. rewrite Hver, Hsame. cbn [negb].
    match goal with
    | |- (let (r, items') := with_item ?k ?p ?a items in _) = _ =>
        pose proof (with_item_get k p a items) as Hfst;
        pose proof (with_item_unchanged k p a items) as Hsnd;
        destruct (with_item k p a items) as [r items']
    end.
    cbn [fst snd] in *. rewrite Hdag in Hfst. subst r.
    rewrite Hsnd; [reflexivity|]. intros v Hv. congruence.
Qed.

Lemma decoders_need_their_key_witness :
  deserialize_operator Demo.env (VDict [(KStr "__version", VInt 1)])
    = (Raise (KeyError "task_id"), VDict [(KStr "__version", VInt 1)]) /\
  deserialize_dag Demo.env (VDict [(KStr "__version", VInt 1)])
    = (Raise (KeyError "_dag_id"), VDict [(KStr "__version", VInt 1)]) /\
  from_dict Demo.env (VDict [(KStr "__version", VInt 1)])
    = (Raise (KeyError "dag"), VDict [(KStr "__version", VInt 1)]).
Proof.
  destruct (decoders_need_their_key Demo.env [(KStr "__version", VInt 1)])
    as [Hop [Hdag Hdoc]].
  split; [|split].
  - apply Hop. reflexivity.
  - apply Hdag. reflexivity.
  - apply (Hdoc (VInt 1)); reflexivity.
Defined.

(** ** The extra links of a decoded operator *)

Lemma links_update_In (name : string) (o : pyobject) (links : list (string * pyobject))
    (entry : string * pyobject) :
  In entry (links_update name o links) -> entry = (name, o) \/ In entry links.
Proof.
  induction links as [|[name' o'] tl IH]; simpl.
  - intros [<- | []]. auto.
  - destruct (String.eqb name name') eqn:Heq.
    + apply String.eqb_eq in Heq. subst name'. intros [<- | Hin]; auto.
    + intros [<- | Hin]; [auto|]. destruct (IH Hin); auto.
Qed.

Lemma links_update_names (name : string) (o : pyobject) (links : list (string * pyobject))
    (n : string) :
  In n (map fst (links_update name o links)) -> n = name \/ In n (map fst links).
Proof.
  intros Hin. apply in_map_iff in Hin. destruct Hin as [entry [<- Hin]].
  destruct (links_update_In _ _ _ _ Hin) as [-> | Hold]; [auto|].
  right. apply in_map. exact Hold.
Qed.

Lemma links_update_NoDup (name : string) (o : pyobject) (links : list (string * pyobject)) :
  NoDup (map fst links) -> NoDup (map fst (links_update name o links)).
Proof.
  induction links as [|[name' o'] tl IH]; simpl; intros Hnodup.
  - repeat constructor. intros [].
  - inversion Hnodup as [|? ? Hfresh Htl]. subst.
    destruct (String.eqb name name') eqn:Heq; simpl.
    + constructor; assumption.
    + constructor; [|exact (IH Htl)].
      intros Hin. destruct (links_update_names _ _ _ _ Hin) as [-> | Hold]; [|auto].
      rewrite String.eqb_refl in Heq. discriminate.
Qed.

(** The links [deserialize_operator] collects from the registry: each has a
    name of its own and applies to the class the payload records. *)
Lemma op_extra_links_from_plugin_spec (E : environment) (encoded_op : dict_items)
    (links : list (string * pyobject)) :
  op_extra_links_from_plugin E encoded_op = Return links ->
  NoDup (map fst links) /\ Forall (link_applies E encoded_op) links.
Proof.
  unfold op_extra_links_from_plugin.
  set (P := fun l : list (string * pyobject) =>
              NoDup (map fst l) /\ Forall (link_applies E encoded_op) l).
  set (step := fun (ope : extra_link) (links : list (string * pyobject))
                   (operator : string * string) =>
                 task_type <- getitem encoded_op "_task_type" ;;
                 if py_eq (VStr (fst operator)) task_type then
                   task_module <- getitem encoded_op "_task_module" ;;
                   if py_eq (VStr (snd operator)) task_module
                   then Return (links_update (link_name ope) (link_object ope) links)
                   else Return links
                 else Return links).
  assert (Hinner : forall ope, In ope (operator_extra_links E) ->
            forall ops acc links',
              (forall operator, In operator ops -> In operator (link_operators ope)) ->
              fold_left (fun acc operator => links <- acc ;; step ope links operator) ops acc
                = Return links' ->
              exists links0, acc = Return links0 /\ (P links0 -> P links')).
  { intros ope Hope. induction ops as [|operator ops IH]; intros acc links' Hops Hfold.
    - exists links'. auto.
    - cbn [fold_left] in Hfold.
      destruct (IH _ _ (fun x Hx => Hops x (or_intror Hx)) Hfold) as [links1 [Hstep Hnext]].
      destruct acc as [links0|e]; [|discriminate]. exists links0. split; [reflexivity|].
      intros Hstart. apply Hnext. cbn [bind] in Hstep. unfold step, getitem in Hstep.
      destruct (dict_get (KStr "_task_type") encoded_op) as [task_type|] eqn:Htype;
        cbn [bind] in Hstep; [|discriminate].
      destruct (py_eq (VStr (fst operator)) task_type) eqn:Hsame;
        [|injection Hstep as <-; exact Hstart].
      destruct (dict_get (KStr "_task_module") encoded_op) as [task_module|] eqn:Hmodule;
        cbn [bind] in Hstep; [|discriminate].
      destruct (py_eq (VStr (snd operator)) task_module) eqn:Hsame';
        injection Hstep as <-; [|exact Hstart].
      destruct Hstart as [Hnodup Hall]. split; [apply links_update_NoDup; exact Hnodup|].
      rewrite Forall_forall in *. intros entry Hin.
      destruct (links_update_In _ _ _ _ Hin) as [-> | Hold]; [|auto].
      exists ope, operator, task_type, task_module.
      repeat split; auto. apply Hops. left. reflexivity. }
  assert (Houter : forall l acc links',
            (forall ope, In ope l -> In ope (operator_extra_links E)) ->
            fold_left (fun acc ope =>
                         fold_left (fun acc operator => links <- acc ;; step ope links operator)
                           (link_operators ope) acc) l acc = Return links' ->
            exists links0, acc = Return links0 /\ (P links0 -> P links')).
  { induction l as [|ope l IH]; intros acc links' Hl Hfold.
    - exists links'. auto.
    - cbn [fold_left] in Hfold.
      destruct (IH _ _ (fun x Hx => Hl x (or_intror Hx)) Hfold) as [links1 [Hstep Hnext]].
      destruct (Hinner ope (Hl ope (or_introl eq_refl)) _ _ _ (fun x Hx => Hx) Hstep)
        as [links0 [-> Hfirst]].
      exists links0. auto. }
  intros Hfold.
  destruct (Houter _ _ _ (fun x Hx => Hx) Hfold) as [links0 [Hstart Hend]].
  injection Hstart as <-. apply Hend. split; constructor.
Qed.

Lemma set_missing_to_None_other (E : environment) (cls : codec) (fields : list string)
    (encoded : dict_items) (k : string) :
  ~ In k fields ->
  forall obj, attr_get k (set_missing_to_None E cls fields encoded obj) = attr_get k obj.
Proof.
  unfold set_missing_to_None.
  induction fields as [|f tl IH]; intros Hk obj; simpl; [reflexivity|].
  assert (Htl : ~ In k tl) by (intros H; apply Hk; right; exact H).
  destruct (dict_contains (KStr f) encoded); [apply IH; exact Htl|].
  destruct (attr_get f (_CONSTRUCTOR_PARAMS E cls)); [apply IH; exact Htl|].
  rewrite (IH Htl). apply attr_get_set_other.
  destruct (String.eqb k f) eqn:Heq; [|reflexivity].
  apply String.eqb_eq in Heq. subst f. exfalso. apply Hk. left. reflexivity.
Qed.



(** ** The document of a DAG *)

(** What [to_dict] returns, [from_dict] accepts: the document holds the
    payload of the DAG under [dag] and the version of the serializer under
    [__version], the validator has accepted it, and [from_dict] passes the
    version gate and answers as [deserialize_dag] does on the payload.  A
    document the validator refuses is not returned: [to_dict] raises what the
    validator raised.  [json.loads] plays no part. *)
Theorem to_dict_is_validated_and_accepted (E : environment)
    (validate : value -> outcome unit) (loads : string -> outcome value)
    (attrs : attributes) :
  (forall doc,
     to_dict E validate loads attrs = Return doc ->
     exists payload,
       serialize_dag E attrs = Return payload /\
       doc = VDict [(KStr "__version", SERIALIZER_VERSION); (KStr "dag", payload)] /\
       validate doc = Return tt /\
       fst (from_dict E doc) = fst (deserialize_dag E payload)) /\
  (forall payload e,
     serialize_dag E attrs = Return payload ->
     validate (VDict [(KStr "__version", SERIALIZER_VERSION); (KStr "dag", payload)])
       = Raise e ->
     to_dict E validate loads attrs = Raise e).
Proof.
  unfold to_dict, validate_schema. cbn [_json_schema]. split.
  - intros doc Hdoc.
    destruct (serialize_dag E attrs) as [payload|e]; cbn [bind] in Hdoc; [|discriminate].
    destruct (validate (VDict [(KStr "__version", SERIALIZER_VERSION); (KStr "dag", payload)]))
      as [[]|e] eqn:Hvalid; cbn [bind] in Hdoc; [|discriminate].
    injection Hdoc as <-. exists payload.
    split; [reflexivity|]. split; [reflexivity|]. split; [exact Hvalid|].
    unfold from_dict. cbn [dict_get dict_key_eqb String.eqb Ascii.eqb Bool.eqb].
    change (negb (py_eq SERIALIZER_VERSION SERIALIZER_VERSION)) with false. cbv iota.
    match goal with
    | |- fst (let (r, items') := with_item ?k ?p ?a ?l in _) = _ =>
        pose proof (with_item_get k p a l) as Hfst;
        destruct (with_item k p a l) as [r items']
    end.
    cbn [fst] in *. rewrite Hfst. reflexivity.
  - intros payload e Hser Hvalid. rewrite Hser. cbn [bind]. rewrite Hvalid. reflexivity.
Qed.

Lemma to_dict_is_validated_and_accepted_witness :
  exists payload,
    serialize_dag Demo.env Demo.g2_attrs = Return payload /\
    to_dict Demo.env (fun _ => Return tt) (fun _ => Raise ValueError) Demo.g2_attrs
      = Return (VDict [(KStr "__version", SERIALIZER_VERSION); (KStr "dag", payload)]) /\
    fst (from_dict Demo.env
           (VDict [(KStr "__version", SERIALIZER_VERSION); (KStr "dag", payload)]))
      = fst (deserialize_dag Demo.env payload) /\
    to_dict Demo.env (fun _ => Raise (UserError "schema")) (fun _ => Raise ValueError)
      Demo.g2_attrs = Raise (UserError "schema").
Proof.
  destruct (to_dict Demo.env (fun _ => Return tt) (fun _ => Raise ValueError) Demo.g2_attrs)
    as [doc|e] eqn:Hdoc; [|vm_compute in Hdoc; discriminate].
  destruct (proj1 (to_dict_is_validated_and_accepted Demo.env (fun _ => Return tt)
                     (fun _ => Raise ValueError) Demo.g2_attrs) doc Hdoc)
    as [payload [Hser [-> [_ Hback]]]].
  exists payload. split; [exact Hser|]. split; [reflexivity|]. split; [exact Hback|].
  apply (proj2 (to_dict_is_validated_and_accepted Demo.env (fun _ => Raise (UserError "schema"))
                  (fun _ => Raise ValueError) Demo.g2_attrs) payload);
    [exact Hser | reflexivity].
Defined.
